(** * Trident Pattern bot: pattern detection and backtest simulation

    A shallow embedding of the computational core of [forex_bot]:
    [time_filter.py], [indicators.py], [fvg_detector.py],
    [trident_pattern.py] and the simulation part of [backtest.py].

    Conventions of the embedding.
    - A price is a NumPy [float64] (it is read from a DataFrame).  A finite
      binary64 number is a rational, and it is represented by the rational
      [Q] it is equal to; comparison operators are the boolean tests on
      [Q], numeric equality is [==].
    - The arithmetic on prices rounds as binary64 does: [fadd], [fsub],
      [fmul] and [fquot] compute the exact result and round it with
      [float64] to the nearest number with a 53-bit significand and an
      exponent of at least -1074, ties to even.  A decimal literal [d] of
      the source is [float64 d].  The exponent is not bounded above: a
      result of magnitude 2^1024 or more, which binary64 replaces by inf,
      is outside the model.
    - A NumPy float divided by zero is inf or nan and raises nothing (NumPy
      only warns).  The model has no such values: the run is marked
      [NotFinite] at that point and followed no further.
    - The exponential means of [calculate_emas], computed inside pandas, and
      the sums and means of the summary statistics are taken exactly; their
      rounding is not modelled.
    - A [pd.Timestamp] is the number of seconds since the epoch, in [Z].
    - A [pd.DataFrame] of candles is the list of its rows.  A row carries
      the OHLC columns, the [time] column and the [ema_<period>] columns
      that [calculate_emas] has added so far.  The connector always sets
      the [time] column, so the tests ["time" in df.columns] and
      [hasattr(...)] are true and are not written out.
    - A Python exception is a value of [error], as is the mark
      [NotFinite]; code that can raise lives in the monad [Exc].
    - Logging is left out. *)

From Stdlib Require Import QArith Qabs Qround Qpower ZArith List Sorted String Ascii
  Bool Lia Lqa.
Import ListNotations.

Open Scope Z_scope.
Open Scope Q_scope.
Open Scope string_scope.

(** ** Exceptions

    [IndexError], [KeyError] and [ZeroDivisionError] are the exceptions the
    code can raise.  [NotFinite] is no exception: it marks a run in which a
    NumPy float was divided by zero, so that the code goes on with inf or
    nan, values the model does not have. *)

Inductive error : Type :=
| IndexError
| KeyError
| ZeroDivisionError
| NotFinite.

Definition Exc (A : Type) : Type := (error + A)%type.

Definition ret {A} (a : A) : Exc A := inr a.
Definition raise {A} (e : error) : Exc A := inl e.

Definition bind {A B} (m : Exc A) (k : A -> Exc B) : Exc B :=
  match m with
  | inl e => inl e
  | inr a => k a
  end.

Notation "x <- m ;; k" := (bind m (fun x => k))
  (at level 61, m at next level, right associativity).

Fixpoint mapM {A B} (f : A -> Exc B) (l : list A) : Exc (list B) :=
  match l with
  | [] => ret []
  | a :: l' => b <- f a ;; bs <- mapM f l' ;; ret (b :: bs)
  end.

(** ** Float operations *)

Definition fle (x y : Q) : bool := Qle_bool x y.
Definition flt (x y : Q) : bool := negb (Qle_bool y x).
Definition fge (x y : Q) : bool := Qle_bool y x.
Definition fgt (x y : Q) : bool := negb (Qle_bool x y).
Definition feq (x y : Q) : bool := Qeq_bool x y.

(** *** Rounding to binary64

    [mag x] is the integer [k] with [2^(k-1) <= |x| < 2^k], for [x] other
    than 0. *)
Definition mag (x : Q) : Z :=
  let k := (Z.log2 (Z.abs (Qnum x)) - Z.log2 (Z.pos (Qden x)))%Z in
  if Qle_bool (2 ^ k) (Qabs x) then (k + 1)%Z else k.

(** The exponent of the last place of the binary64 numbers around [x]:
    53 bits below the magnitude, and -1074 for the subnormal numbers. *)
Definition cexp (x : Q) : Z := Z.max (mag x - 53) (-1074).

(** The nearest integer, ties to even. *)
Definition rint (q : Q) : Z :=
  let f := Qfloor q in
  match Qcompare (q - inject_Z f) (1 # 2) with
  | Lt => f
  | Gt => (f + 1)%Z
  | Eq => if Z.even f then f else (f + 1)%Z
  end.

Definition round_pos (x : Q) : Q :=
  inject_Z (rint (x / 2 ^ cexp x)) * 2 ^ cexp x.

(** [float64 x]: the binary64 number nearest to [x], ties to even, as a
    reduced fraction. *)
Definition float64 (x : Q) : Q :=
  Qred (if Qle_bool 0 x then round_pos x else - round_pos (- x)).

(** [x + y], [x - y], [x * y] and, for [y] other than 0, [x / y] on
    floats. *)
Definition fadd (x y : Q) : Q := float64 (x + y).
Definition fsub (x y : Q) : Q := float64 (x - y).
Definition fmul (x y : Q) : Q := float64 (x * y).
Definition fquot (x y : Q) : Q := float64 (x / y).

Arguments float64 : simpl never.
Arguments fadd : simpl never.
Arguments fsub : simpl never.
Arguments fmul : simpl never.
Arguments fquot : simpl never.

(** [x / y] on NumPy floats: a zero divisor gives inf or nan. *)
Definition fdiv (x y : Q) : Exc Q :=
  if feq y 0 then raise NotFinite else ret (fquot x y).

(** [x / y] where [y] is a count, as the summary statistics divide: on
    Python integers a zero divisor raises.  The quotient is kept exact. *)
Definition truediv (x y : Q) : Exc Q :=
  if feq y 0 then raise ZeroDivisionError else ret (x / y).

(** ** Strings *)

(** [str.upper()] on ASCII text. *)
Definition upper_ascii (c : ascii) : ascii :=
  let n := nat_of_ascii c in
  if (97 <=? n)%nat && (n <=? 122)%nat then ascii_of_nat (n - 32) else c.

Fixpoint upper (s : string) : string :=
  match s with
  | EmptyString => EmptyString
  | String c s' => String (upper_ascii c) (upper s')
  end.

(** [sub in s] for strings. *)
Fixpoint contains (sub s : string) : bool :=
  if prefix sub s then true
  else match s with
       | EmptyString => false
       | String _ s' => contains sub s'
       end.

(** [x in [...]] for a list of strings. *)
Definition str_in (x : string) (l : list string) : bool :=
  existsb (String.eqb x) l.

(** ** Sequences and positional indexing *)

(** [len(df)] *)
Definition len {A} (df : list A) : Z := Z.of_nat (List.length df).

(** [df.iloc[index]]: a negative index counts from the end; an index
    outside [-len, len) raises [IndexError]. *)
Definition iloc {A} (df : list A) (index : Z) : Exc A :=
  let i := if (index <? 0)%Z then (index + len df)%Z else index in
  if (i <? 0)%Z then raise IndexError
  else match nth_error df (Z.to_nat i) with
       | Some row => ret row
       | None => raise IndexError
       end.

(** [range(start, stop, step)] for a positive [step], with [fuel] bounding
    the number of elements. *)
Fixpoint range_from (fuel : nat) (start stop step : Z) : list Z :=
  match fuel with
  | O => []
  | S fuel' =>
      if (start <? stop)%Z
      then start :: range_from fuel' (start + step) stop step
      else []
  end.

Definition range_step (start stop step : Z) : list Z :=
  range_from (Z.to_nat (stop - start)) start stop step.

(** [range(start, stop)] *)
Definition range (start stop : Z) : list Z := range_step start stop 1.

(** [df.iloc[start:stop]] for [0 <= start <= stop]. *)
Definition slice {A} (df : list A) (start stop : Z) : list A :=
  firstn (Z.to_nat (stop - start)) (skipn (Z.to_nat start) df).

(** ** Data model *)

Definition Timestamp : Type := Z.
Bind Scope Z_scope with Timestamp.

(** One row of a candle frame. *)
Record Candle : Type := mkCandle {
  time : Timestamp;
  open : Q;
  high : Q;
  low : Q;
  close : Q;
  ema_cols : list (nat * Q)      (* column [ema_<p>] as the pair (p, value) *)
}.

Definition DataFrame : Type := list Candle.

(** [row["ema_<p>"]]: a missing column raises [KeyError]. *)
Fixpoint lookup_col (p : nat) (cols : list (nat * Q)) : option Q :=
  match cols with
  | [] => None
  | (k, v) :: cols' => if (k =? p)%nat then Some v else lookup_col p cols'
  end.

Definition get_ema (row : Candle) (p : nat) : Exc Q :=
  match lookup_col p (ema_cols row) with
  | Some v => ret v
  | None => raise KeyError
  end.

(** [df[col] = values] for one row: overwrite the column or append it. *)
Fixpoint set_col (p : nat) (v : Q) (cols : list (nat * Q)) : list (nat * Q) :=
  match cols with
  | [] => [(p, v)]
  | (k, w) :: cols' =>
      if (k =? p)%nat then (k, v) :: cols' else (k, w) :: set_col p v cols'
  end.

Definition with_ema (p : nat) (v : Q) (row : Candle) : Candle :=
  mkCandle (time row) (open row) (high row) (low row) (close row)
           (set_col p v (ema_cols row)).

(** ** Configuration

    [config.py] is not part of the sources; every constant the code reads
    from it is a field of this record. *)
Record Config : Type := mkConfig {
  EMA_FAST_PERIODS : list nat;
  EMA_TREND_PERIOD : nat;
  DOJI_BODY_RATIO : Q;
  GOLD_USE_HARD_SL : bool;
  KILL_ZONE_START_HOUR : Z;
  KILL_ZONE_START_MINUTE : Z;
  KILL_ZONE_END_HOUR : Z;
  KILL_ZONE_END_MINUTE : Z;
  FVG_WINDOW_START_HOUR : Z;
  FVG_WINDOW_START_MINUTE : Z;
  FVG_WINDOW_END_HOUR : Z;
  FVG_WINDOW_END_MINUTE : Z;
  (* [pytz.timezone(config.NY_TIMEZONE)]: offset from UTC, in seconds, that
     applies in New York at a given instant. *)
  NY_UTC_OFFSET : Timestamp -> Z
}.

(** Modelled from the spec: [config.py] is missing; the values are the ones
    the docstrings and the spec name: fast periods 5, 9, 13, 21, trend
    period 200, doji body ratio 0.3, close filter for gold, kill zone
    3:00-6:30 and gap window 2:30-4:00 New York time (taken as UTC-5). *)
Definition default_config : Config :=
  mkConfig [5; 9; 13; 21]%nat 200%nat (float64 (3 # 10)) false
           3 0 6 30
           2 30 4 0
           (fun _ => (-18000)%Z).

(** ** time_filter.py *)

(** [datetime.time(hour, minute)], as seconds after midnight. *)
Definition time_of (hour minute : Z) : Z := (hour * 3600 + minute * 60)%Z.

(** [to_ny_time(dt).time()]: a naive timestamp is taken as UTC. *)
Definition ny_time_of_day (cfg : Config) (dt : Timestamp) : Z :=
  ((dt + NY_UTC_OFFSET cfg dt) mod 86400)%Z.

Definition is_in_kill_zone (cfg : Config) (dt : Timestamp) : bool :=
  let current_time := ny_time_of_day cfg dt in
  (time_of (KILL_ZONE_START_HOUR cfg) (KILL_ZONE_START_MINUTE cfg) <=? current_time)%Z
  && (current_time <=? time_of (KILL_ZONE_END_HOUR cfg) (KILL_ZONE_END_MINUTE cfg))%Z.

Definition is_in_fvg_window (cfg : Config) (dt : Timestamp) : bool :=
  let current_time := ny_time_of_day cfg dt in
  (time_of (FVG_WINDOW_START_HOUR cfg) (FVG_WINDOW_START_MINUTE cfg) <=? current_time)%Z
  && (current_time <=? time_of (FVG_WINDOW_END_HOUR cfg) (FVG_WINDOW_END_MINUTE cfg))%Z.

(** [ts.date()], as days since the epoch. *)
Definition date_of (dt : Timestamp) : Z := (dt / 86400)%Z.

(** ** indicators.py *)

(** [series.ewm(span=period, adjust=False).mean()]:
    y[0] = x[0], y[t] = (1 - a) * y[t-1] + a * x[t] with a = 2 / (span + 1). *)
Definition ewm_alpha (span : nat) : Q := 2 / (inject_Z (Z.of_nat span) + 1).

Fixpoint ewm_from (alpha prev : Q) (xs : list Q) : list Q :=
  match xs with
  | [] => []
  | x :: xs' =>
      let y := (1 - alpha) * prev + alpha * x in
      y :: ewm_from alpha y xs'
  end.

Definition ewm_mean (span : nat) (xs : list Q) : list Q :=
  match xs with
  | [] => []
  | x :: xs' => x :: ewm_from (ewm_alpha span) x xs'
  end.

(** [df[col_name] = values] *)
Fixpoint assign_ema (p : nat) (df : DataFrame) (values : list Q) : DataFrame :=
  match df, values with
  | row :: df', v :: values' => with_ema p v row :: assign_ema p df' values'
  | _, _ => df
  end.

Definition calculate_emas (df : DataFrame) (periods : list nat) : DataFrame :=
  fold_left (fun df period => assign_ema period df (ewm_mean period (map close df)))
            periods df.

(** The two comparison loops of [are_emas_stacked]: [bad a b] is the test
    that makes the loop return [False]. *)
Fixpoint chain_ok (bad : Q -> Q -> bool) (ema_values : list Q) : bool :=
  match ema_values with
  | a :: ((b :: _) as rest) => if bad a b then false else chain_ok bad rest
  | _ => true
  end.

Definition are_emas_stacked (cfg : Config) (df : DataFrame)
           (direction : string) (index : Z) : Exc bool :=
  let periods := EMA_FAST_PERIODS cfg in
  match iloc df index with
  | inl _ => ret false
  | inr row =>
      ema_values <- mapM (get_ema row) periods ;;
      if direction =? "long" then ret (chain_ok fle ema_values)
      else if direction =? "short" then ret (chain_ok fge ema_values)
      else ret false
  end.

Definition get_200ema_bias (cfg : Config) (df : DataFrame) (index : Z) : string :=
  match iloc df index with
  | inl _ => "neutral"
  | inr row =>
      match lookup_col (EMA_TREND_PERIOD cfg) (ema_cols row) with
      | None => "neutral"
      | Some e =>
          if fgt (close row) e then "long"
          else if flt (close row) e then "short"
          else "neutral"
      end
  end.

Definition is_doji (cfg : Config) (candle : Candle) (threshold : option Q) : Exc bool :=
  let threshold := match threshold with
                   | None => DOJI_BODY_RATIO cfg
                   | Some t => t
                   end in
  let body := Qabs (fsub (close candle) (open candle)) in
  let total_range := fsub (high candle) (low candle) in
  if feq total_range 0 then ret false
  else ratio <- fdiv body total_range ;; ret (fle ratio threshold).

Definition candle_direction (candle : Candle) : string :=
  if fgt (close candle) (open candle) then "bullish"
  else if flt (close candle) (open candle) then "bearish"
  else "neutral".

(** ** fvg_detector.py *)

Module FVG.
Record t : Type := mk {
  direction : string;         (* "bullish" or "bearish" *)
  top : Q;
  bottom : Q;
  midpoint : Q;
  candle1_idx : Z;
  candle2_idx : Z;
  candle3_idx : Z;
  candle1_time : Timestamp;
  fvg_candle_low : Q;
  fvg_candle_high : Q
}.
End FVG.

(** The body of the loop of [find_fvgs] at position [i], where [candle1],
    [candle2], [candle3] are [df.iloc[i]], [df.iloc[i + 1]], [df.iloc[i + 2]].
    [None] stands for an iteration that appends nothing. *)
Definition fvg_at (cfg : Config) (check_time : bool) (i : Z)
           (candle1 candle2 candle3 : Candle) : option FVG.t :=
  if check_time && negb (is_in_fvg_window cfg (time candle2)) then None
  else if fgt (low candle3) (high candle1) then
    let top := low candle3 in
    let bottom := high candle1 in
    let midpoint := fquot (fadd top bottom) 2 in
    Some (FVG.mk "bullish" top bottom midpoint i (i + 1) (i + 2)
                 (time candle1) (low candle2) (high candle2))
  else if flt (high candle3) (low candle1) then
    let top := low candle1 in
    let bottom := high candle3 in
    let midpoint := fquot (fadd top bottom) 2 in
    Some (FVG.mk "bearish" top bottom midpoint i (i + 1) (i + 2)
                 (time candle1) (low candle2) (high candle2))
  else None.

(** [for i in range(len(df) - 2)], started at position [i] on the rows from
    [i] on. *)
Fixpoint find_fvgs_from (cfg : Config) (check_time : bool) (i : Z)
         (df : DataFrame) : list FVG.t :=
  match df with
  | candle1 :: ((candle2 :: candle3 :: _) as df') =>
      match fvg_at cfg check_time i candle1 candle2 candle3 with
      | Some fvg => fvg :: find_fvgs_from cfg check_time (i + 1) df'
      | None => find_fvgs_from cfg check_time (i + 1) df'
      end
  | _ => []
  end.

Definition find_fvgs (cfg : Config) (df : DataFrame) (check_time : bool) : list FVG.t :=
  if (len df <? 3)%Z then [] else find_fvgs_from cfg check_time 0 df.

(** [matching[-1]] *)
Definition find_latest_fvg (cfg : Config) (df : DataFrame) (direction : string)
           (check_time : bool) : option FVG.t :=
  let fvgs := find_fvgs cfg df check_time in
  let matching := filter (fun f => FVG.direction f =? direction) fvgs in
  last (map Some matching) None.

Definition get_fvg_midpoint (fvg : FVG.t) : Q := FVG.midpoint fvg.

(** ** trident_pattern.py *)

Module TradeSignal.
Record t : Type := mk {
  symbol : string;
  direction : string;         (* "BUY" or "SELL" *)
  entry_price : Q;
  stop_loss : Q;
  fvg : FVG.t;
  doji_idx : Z;
  confirmation_idx : Z;
  signal_time : Timestamp;
  use_hard_sl : bool
}.
End TradeSignal.

(** [symbol.upper() in ["XAUUSD", "GOLD"]] *)
Definition is_gold (symbol : string) : bool :=
  str_in (upper symbol) ["XAUUSD"; "GOLD"].

(** The statement [pass]. *)
Definition pass : Exc unit := ret tt.

(** Steps 4 to 6 and the construction of the signal, bullish branch. *)
Definition accept_bullish (cfg : Config) (df : DataFrame) (symbol : string)
           (check_time : bool) (fvg : FVG.t) (doji_idx confirm_idx : Z)
           (confirm_candle : Candle) : Exc (option TradeSignal.t) :=
  stacked <- are_emas_stacked cfg df "long" confirm_idx ;;
  if negb stacked then ret None
  else if negb (get_200ema_bias cfg df confirm_idx =? "long") then ret None
  else if check_time && negb (is_in_kill_zone cfg (time confirm_candle)) then ret None
  else
    let use_hard_sl := negb (is_gold symbol) || GOLD_USE_HARD_SL cfg in
    ret (Some (TradeSignal.mk symbol "BUY" (close confirm_candle)
                              (FVG.fvg_candle_low fvg) fvg doji_idx confirm_idx
                              (time confirm_candle) use_hard_sl)).

(** Step 3, bullish branch: the block that only executes [pass], then the
    test that rejects the candidate. *)
Definition confirm_bullish (cfg : Config) (df : DataFrame) (symbol : string)
           (check_time : bool) (fvg : FVG.t) (doji_idx confirm_idx : Z)
           (doji_candle confirm_candle : Candle) : Exc (option TradeSignal.t) :=
  _ <- (if fge (close confirm_candle) (high doji_candle) then pass else ret tt) ;;
  if fgt (close confirm_candle) (high doji_candle) then ret None
  else accept_bullish cfg df symbol check_time fvg doji_idx confirm_idx
                      confirm_candle.

(** The EMA, bias and time gates and the construction of the signal,
    bearish branch. *)
Definition accept_bearish (cfg : Config) (df : DataFrame) (symbol : string)
           (check_time : bool) (fvg : FVG.t) (doji_idx confirm_idx : Z)
           (confirm_candle : Candle) : Exc (option TradeSignal.t) :=
  stacked <- are_emas_stacked cfg df "short" confirm_idx ;;
  if negb stacked then ret None
  else if negb (get_200ema_bias cfg df confirm_idx =? "short") then ret None
  else if check_time && negb (is_in_kill_zone cfg (time confirm_candle)) then ret None
  else
    let use_hard_sl := negb (is_gold symbol) || GOLD_USE_HARD_SL cfg in
    ret (Some (TradeSignal.mk symbol "SELL" (close confirm_candle)
                              (FVG.fvg_candle_high fvg) fvg doji_idx confirm_idx
                              (time confirm_candle) use_hard_sl)).

(** The confirmation test, bearish branch. *)
Definition confirm_bearish (cfg : Config) (df : DataFrame) (symbol : string)
           (check_time : bool) (fvg : FVG.t) (doji_idx confirm_idx : Z)
           (doji_candle confirm_candle : Candle) : Exc (option TradeSignal.t) :=
  if flt (close confirm_candle) (low doji_candle) then ret None
  else accept_bearish cfg df symbol check_time fvg doji_idx confirm_idx
                      confirm_candle.

(** The body of the loop over the gaps: [None] is [continue], [Some signal]
    is [return signal]. *)
Definition check_candidate (cfg : Config) (df : DataFrame) (symbol : string)
           (check_time : bool) (fvg : FVG.t) : Exc (option TradeSignal.t) :=
  let doji_idx := (FVG.candle3_idx fvg + 1)%Z in
  let confirm_idx := (FVG.candle3_idx fvg + 2)%Z in
  if (confirm_idx >=? len df)%Z then ret None
  else
    doji_candle <- iloc df doji_idx ;;
    confirm_candle <- iloc df confirm_idx ;;
    doji <- is_doji cfg doji_candle None ;;
    if negb doji then ret None
    else if FVG.direction fvg =? "bullish" then
      if fgt (low doji_candle) (FVG.midpoint fvg) then ret None
      else confirm_bullish cfg df symbol check_time fvg doji_idx confirm_idx
                           doji_candle confirm_candle
    else if FVG.direction fvg =? "bearish" then
      if flt (high doji_candle) (FVG.midpoint fvg) then ret None
      else confirm_bearish cfg df symbol check_time fvg doji_idx confirm_idx
                           doji_candle confirm_candle
    else ret None.

(** [for fvg in ...: <body>] followed by [return None]. *)
Fixpoint first_signal (cfg : Config) (df : DataFrame) (symbol : string)
         (check_time : bool) (fvgs : list FVG.t) : Exc (option TradeSignal.t) :=
  match fvgs with
  | [] => ret None
  | fvg :: fvgs' =>
      r <- check_candidate cfg df symbol check_time fvg ;;
      match r with
      | Some signal => ret (Some signal)
      | None => first_signal cfg df symbol check_time fvgs'
      end
  end.

Definition validate_trident_pattern (cfg : Config) (df : DataFrame)
           (symbol : string) (check_time : bool) : Exc (option TradeSignal.t) :=
  if (len df <? 6)%Z then ret None
  else
    let fvgs := find_fvgs cfg df check_time in
    match fvgs with
    | [] => ret None
    | _ => first_signal cfg df symbol check_time (rev fvgs)
    end.

Definition scan_for_signals (cfg : Config) (df : DataFrame) (symbol : string)
           (check_time : bool) : Exc (option TradeSignal.t) :=
  validate_trident_pattern cfg df symbol check_time.

(** ** backtest.py *)

Module BacktestTrade.
Record t : Type := mk {
  symbol : string;
  direction : string;         (* "BUY" or "SELL" *)
  entry_price : Q;
  entry_time : Timestamp;
  stop_loss : Q;
  exit_price : Q;
  exit_time : option Timestamp;
  pnl_pips : Q;
  rr_ratio : Q;
  result : string;            (* "WIN", "LOSS", "OPEN" *)
  exit_reason : string
}.

(** [BacktestTrade(symbol=..., direction=..., entry_price=...,
    entry_time=..., stop_loss=...)] with the defaults of the dataclass. *)
Definition new (symbol direction : string) (entry_price : Q)
           (entry_time : Timestamp) (stop_loss : Q) : t :=
  mk symbol direction entry_price entry_time stop_loss 0 None 0 0 "OPEN" "".

(** The five assignments every exit path makes, in one step. *)
Definition close_trade (trade : t) (exit_price : Q) (exit_time : Timestamp)
           (pnl_pips : Q) (result exit_reason : string) : t :=
  mk (symbol trade) (direction trade) (entry_price trade) (entry_time trade)
     (stop_loss trade) exit_price (Some exit_time) pnl_pips (rr_ratio trade)
     result exit_reason.

(** [trade.rr_ratio = v] *)
Definition set_rr_ratio (trade : t) (v : Q) : t :=
  mk (symbol trade) (direction trade) (entry_price trade) (entry_time trade)
     (stop_loss trade) (exit_price trade) (exit_time trade) (pnl_pips trade)
     v (result trade) (exit_reason trade).
End BacktestTrade.

Definition get_pip_value (symbol : string) : Q :=
  let symbol_upper := upper symbol in
  if contains "JPY" symbol_upper then float64 (1 # 100)
  else if contains "XAU" symbol_upper || contains "GOLD" symbol_upper
       then float64 (1 # 10)
  else float64 (1 # 10000).

(** ["WIN" if pnl_pips > 0 else "LOSS"] *)
Definition win_or_loss (pnl_pips : Q) : string :=
  if fgt pnl_pips 0 then "WIN" else "LOSS".

(** The stop-loss tests on one bar.  [Some trade] is [return trade]; [None]
    falls through to the daily test. *)
Definition stop_check (trade : BacktestTrade.t) (gold : bool) (pip_value : Q)
           (candle : Candle) : Exc (option BacktestTrade.t) :=
  let entry := BacktestTrade.entry_price trade in
  let sl := BacktestTrade.stop_loss trade in
  if BacktestTrade.direction trade =? "BUY" then
    if negb gold then
      if fle (low candle) sl then
        pnl <- fdiv (fsub sl entry) pip_value ;;
        ret (Some (BacktestTrade.close_trade trade sl (time candle) pnl
                                             "LOSS" "Stop loss hit"))
      else ret None
    else
      if fle (close candle) sl then
        pnl <- fdiv (fsub (close candle) entry) pip_value ;;
        ret (Some (BacktestTrade.close_trade trade (close candle) (time candle) pnl
                                             "LOSS" "Gold candle close filter"))
      else ret None
  else if BacktestTrade.direction trade =? "SELL" then
    if negb gold then
      if fge (high candle) sl then
        pnl <- fdiv (fsub entry sl) pip_value ;;
        ret (Some (BacktestTrade.close_trade trade sl (time candle) pnl
                                             "LOSS" "Stop loss hit"))
      else ret None
    else
      if fge (close candle) sl then
        pnl <- fdiv (fsub entry (close candle)) pip_value ;;
        ret (Some (BacktestTrade.close_trade trade (close candle) (time candle) pnl
                                             "LOSS" "Gold candle close filter"))
      else ret None
  else ret None.

(** The daily re-evaluation on bar [i]. *)
Definition daily_check (cfg : Config) (df_daily : DataFrame)
           (trade : BacktestTrade.t) (entry_bar_idx : Z) (pip_value : Q)
           (i : Z) (candle : Candle) : Exc (option BacktestTrade.t) :=
  let entry := BacktestTrade.entry_price trade in
  if (((i - entry_bar_idx) mod 48 =? 0)%Z && negb (len df_daily =? 0)%Z)%bool then
    let candle_date := date_of (time candle) in
    let daily_up_to :=
      filter (fun row => (date_of (time row) <=? candle_date)%Z) df_daily in
    if (len daily_up_to >=? 5)%Z then
      let daily_subset := calculate_emas daily_up_to (EMA_FAST_PERIODS cfg) in
      if BacktestTrade.direction trade =? "BUY" then
        stacked <- are_emas_stacked cfg daily_subset "long" (-1) ;;
        if negb stacked then
          was_stacked <- are_emas_stacked cfg daily_subset "long" (-2) ;;
          if was_stacked then
            pnl <- fdiv (fsub (close candle) entry) pip_value ;;
            ret (Some (BacktestTrade.close_trade trade (close candle) (time candle)
                         pnl (win_or_loss pnl) "Daily EMA unstack"))
          else ret None
        else ret None
      else if BacktestTrade.direction trade =? "SELL" then
        stacked <- are_emas_stacked cfg daily_subset "short" (-1) ;;
        if negb stacked then
          was_stacked <- are_emas_stacked cfg daily_subset "short" (-2) ;;
          if was_stacked then
            pnl <- fdiv (fsub entry (close candle)) pip_value ;;
            ret (Some (BacktestTrade.close_trade trade (close candle) (time candle)
                         pnl (win_or_loss pnl) "Daily EMA unstack"))
          else ret None
        else ret None
      else ret None
    else ret None
  else ret None.

(** The body of the forward loop at bar [i]. *)
Definition exit_at (cfg : Config) (df_30m df_daily : DataFrame)
           (trade : BacktestTrade.t) (gold : bool) (entry_bar_idx : Z)
           (pip_value : Q) (i : Z) : Exc (option BacktestTrade.t) :=
  candle <- iloc df_30m i ;;
  stopped <- stop_check trade gold pip_value candle ;;
  match stopped with
  | Some closed => ret (Some closed)
  | None => daily_check cfg df_daily trade entry_bar_idx pip_value i candle
  end.

(** [for i in range(entry_bar_idx + 1, max_bars): <body>] over the list of
    the indices still to visit. *)
Fixpoint scan_forward (cfg : Config) (df_30m df_daily : DataFrame)
         (trade : BacktestTrade.t) (gold : bool) (entry_bar_idx : Z)
         (pip_value : Q) (bars : list Z) : Exc (option BacktestTrade.t) :=
  match bars with
  | [] => ret None
  | i :: bars' =>
      r <- exit_at cfg df_30m df_daily trade gold entry_bar_idx pip_value i ;;
      match r with
      | Some closed => ret (Some closed)
      | None => scan_forward cfg df_30m df_daily trade gold entry_bar_idx
                             pip_value bars'
      end
  end.

(** The code after the loop: close at the last candle. *)
Definition max_hold_exit (df_30m : DataFrame) (trade : BacktestTrade.t)
           (max_bars : Z) (pip_value : Q) : Exc BacktestTrade.t :=
  last_candle <- (if (max_bars <? len df_30m)%Z then iloc df_30m (max_bars - 1)
                  else iloc df_30m (-1)) ;;
  let exit_price := close last_candle in
  pnl <- (if BacktestTrade.direction trade =? "BUY"
          then fdiv (fsub exit_price (BacktestTrade.entry_price trade)) pip_value
          else fdiv (fsub (BacktestTrade.entry_price trade) exit_price) pip_value) ;;
  ret (BacktestTrade.close_trade trade exit_price (time last_candle) pnl
                                 (win_or_loss pnl) "Max hold period").

(** The bars the forward loop visits. *)
Definition forward_bars (df_30m : DataFrame) (entry_bar_idx : Z) : list Z :=
  range (entry_bar_idx + 1) (Z.min (len df_30m) (entry_bar_idx + 960)).

(** [risk_pips] (line 91) is computed and never read; on NumPy floats its
    division raises nothing, so it is left out. *)
Definition simulate_trade_exit (cfg : Config) (df_30m df_daily : DataFrame)
           (trade : BacktestTrade.t) (entry_bar_idx : Z) (pip_value : Q)
  : Exc BacktestTrade.t :=
  let gold := is_gold (BacktestTrade.symbol trade) in
  let max_bars := Z.min (len df_30m) (entry_bar_idx + 960) in
  r <- scan_forward cfg df_30m df_daily trade gold entry_bar_idx pip_value
                    (forward_bars df_30m entry_bar_idx) ;;
  match r with
  | Some closed => ret closed
  | None => max_hold_exit df_30m trade max_bars pip_value
  end.

(** Lines 260-265 of [backtest_symbol]: the risk:reward ratio of a closed
    trade. *)
Definition set_risk_reward (trade : BacktestTrade.t) (pip_value : Q)
  : Exc BacktestTrade.t :=
  let risk := Qabs (fsub (BacktestTrade.entry_price trade)
                         (BacktestTrade.stop_loss trade)) in
  if fgt risk 0 then
    rr <- fdiv (fmul (BacktestTrade.pnl_pips trade) pip_value) risk ;;
    ret (BacktestTrade.set_rr_ratio trade rr)
  else ret (BacktestTrade.set_rr_ratio trade 0).

(** The deduplication key [(str(signal_time), entry_price, direction)];
    [str] is one-to-one on timestamps and is left out. *)
Definition EntryKey : Type := (Timestamp * Q * string)%type.

(** Equality of two keys, as Python compares tuples. *)
Definition key_eqb (k1 k2 : EntryKey) : bool :=
  match k1, k2 with
  | (t1, p1, d1), (t2, p2, d2) => (t1 =? t2)%Z && feq p1 p2 && (d1 =? d2)
  end.

(** [key in seen] *)
Definition key_in (k : EntryKey) (seen : list EntryKey) : bool :=
  existsb (key_eqb k) seen.

Definition signal_key (signal : TradeSignal.t) : EntryKey :=
  (TradeSignal.signal_time signal, TradeSignal.entry_price signal,
   TradeSignal.direction signal).

Definition trade_key (trade : BacktestTrade.t) : EntryKey :=
  (BacktestTrade.entry_time trade, BacktestTrade.entry_price trade,
   BacktestTrade.direction trade).

(** The variables the sliding scan of [backtest_symbol] updates. *)
Record ScanState : Type := mkScanState {
  seen_entry_times : list EntryKey;
  last_trade_idx : Z;
  trades : list BacktestTrade.t
}.

Definition window_size : Z := 50.

(** The body of the sliding scan for one [start_idx]. *)
Definition scan_window (cfg : Config) (df_30m df_daily : DataFrame)
           (symbol : string) (pip_value : Q) (st : ScanState) (start_idx : Z)
  : Exc ScanState :=
  if (start_idx - last_trade_idx st <? 10)%Z then ret st
  else
    let window := slice df_30m start_idx (start_idx + window_size) in
    signal <- validate_trident_pattern cfg window symbol true ;;
    match signal with
    | None => ret st
    | Some signal =>
        let entry_key := signal_key signal in
        if key_in entry_key (seen_entry_times st) then ret st
        else
          let seen := entry_key :: seen_entry_times st in
          let actual_confirm_idx :=
            (start_idx + TradeSignal.confirmation_idx signal)%Z in
          let trade :=
            BacktestTrade.new symbol (TradeSignal.direction signal)
                              (TradeSignal.entry_price signal)
                              (TradeSignal.signal_time signal)
                              (TradeSignal.stop_loss signal) in
          trade <- simulate_trade_exit cfg df_30m df_daily trade
                                       actual_confirm_idx pip_value ;;
          trade <- set_risk_reward trade pip_value ;;
          ret (mkScanState seen start_idx (trades st ++ [trade])%list)
    end.

Fixpoint scan_windows (cfg : Config) (df_30m df_daily : DataFrame)
         (symbol : string) (pip_value : Q) (st : ScanState)
         (starts : list Z) : Exc ScanState :=
  match starts with
  | [] => ret st
  | start_idx :: starts' =>
      st' <- scan_window cfg df_30m df_daily symbol pip_value st start_idx ;;
      scan_windows cfg df_30m df_daily symbol pip_value st' starts'
  end.

(** [backtest_symbol], from the two frames the connector returned to the
    list [result.trades]. *)
Definition backtest_symbol (cfg : Config) (df_30m df_daily : DataFrame)
           (symbol : string) : Exc (list BacktestTrade.t) :=
  let pip_value := get_pip_value symbol in
  if (len df_30m =? 0)%Z then ret []
  else
    let all_periods := (EMA_FAST_PERIODS cfg ++ [EMA_TREND_PERIOD cfg])%list in
    let df_30m := calculate_emas df_30m all_periods in
    let df_daily := if negb (len df_daily =? 0)%Z
                    then calculate_emas df_daily (EMA_FAST_PERIODS cfg)
                    else df_daily in
    st <- scan_windows cfg df_30m df_daily symbol pip_value
                       (mkScanState [] (- window_size) [])
                       (range_step 0 (len df_30m - window_size) (window_size / 2)) ;;
    ret (trades st).

(** ** backtest.py: summary statistics *)

Module BacktestResult.
Record t : Type := mk {
  symbol : string;
  total_trades : Z;
  wins : Z;
  losses : Z;
  win_rate : Q;
  total_pnl_pips : Q;
  avg_rr : Q;
  max_drawdown_pips : Q;
  best_trade_pips : Q;
  worst_trade_pips : Q;
  trades : list BacktestTrade.t
}.

(** [BacktestResult(symbol=symbol)] with the defaults of the dataclass. *)
Definition new (symbol : string) : t := mk symbol 0 0 0 0 0 0 0 0 0 [].
End BacktestResult.

(** [sum(1 for t in trades if t.result == r)] *)
Definition count_result (r : string) (recorded : list BacktestTrade.t) : Z :=
  len (filter (fun t => BacktestTrade.result t =? r) recorded).

(** [sum(values)]: the additions run from the left, starting at 0. *)
Definition py_sum (values : list Q) : Q := fold_left Qplus values 0.

(** [max(values)] and [np.max(values)] on a list with first element [x]:
    a later element replaces the current maximum when it is greater. *)
Definition py_max (x : Q) (rest : list Q) : Q :=
  fold_left (fun m y => if fgt y m then y else m) rest x.

(** [min(values)] on a list with first element [x]. *)
Definition py_min (x : Q) (rest : list Q) : Q :=
  fold_left (fun m y => if flt y m then y else m) rest x.

(** [np.mean(values)] on a list that is not empty. *)
Definition np_mean (values : list Q) : Exc Q :=
  truediv (py_sum values) (inject_Z (len values)).

(** [np.cumsum(values)] *)
Fixpoint cumsum_from (acc : Q) (values : list Q) : list Q :=
  match values with
  | [] => []
  | x :: rest => (acc + x) :: cumsum_from (acc + x) rest
  end.

Definition np_cumsum (values : list Q) : list Q :=
  match values with
  | [] => []
  | x :: rest => x :: cumsum_from x rest
  end.

(** [np.maximum(a, b)] *)
Definition np_maximum (a b : Q) : Q := if flt a b then b else a.

(** [np.maximum.accumulate(values)] *)
Fixpoint accumulate_from (peak : Q) (values : list Q) : list Q :=
  match values with
  | [] => []
  | x :: rest => np_maximum peak x :: accumulate_from (np_maximum peak x) rest
  end.

Definition np_maximum_accumulate (values : list Q) : list Q :=
  match values with
  | [] => []
  | x :: rest => x :: accumulate_from x rest
  end.

(** [a - b] on two arrays of the same length. *)
Fixpoint array_sub (a b : list Q) : list Q :=
  match a, b with
  | x :: a', y :: b' => (x - y) :: array_sub a' b'
  | _, _ => []
  end.

(** The maximum drawdown of [backtest_symbol]: 0 for an empty list. *)
Definition max_drawdown (pnl_values : list Q) : Q :=
  let cumulative := np_cumsum pnl_values in
  let running_max := np_maximum_accumulate cumulative in
  let drawdowns := array_sub running_max cumulative in
  match drawdowns with
  | [] => 0
  | d :: rest => py_max d rest
  end.

(** The statistics at the end of [backtest_symbol], from the recorded
    trades. *)
Definition summarize (symbol : string) (recorded : list BacktestTrade.t)
  : Exc BacktestResult.t :=
  let total_trades := len recorded in
  let wins := count_result "WIN" recorded in
  let losses := count_result "LOSS" recorded in
  win_rate <- (if (total_trades >? 0)%Z
               then r <- truediv (inject_Z wins) (inject_Z total_trades) ;;
                    ret (r * 100)
               else ret 0) ;;
  let total_pnl_pips := py_sum (map BacktestTrade.pnl_pips recorded) in
  let rr_values :=
    filter (fun v => negb (feq v 0)) (map BacktestTrade.rr_ratio recorded) in
  avg_rr <- (match rr_values with
             | [] => ret 0
             | _ => np_mean rr_values
             end) ;;
  let pnl_values := map BacktestTrade.pnl_pips recorded in
  let best := match pnl_values with [] => 0 | x :: rest => py_max x rest end in
  let worst := match pnl_values with [] => 0 | x :: rest => py_min x rest end in
  ret (BacktestResult.mk symbol total_trades wins losses win_rate total_pnl_pips
                         avg_rr (max_drawdown pnl_values) best worst recorded).

(** [backtest_symbol] with its statistics, from the two frames the connector
    returned. *)
Definition backtest_symbol_result (cfg : Config) (df_30m df_daily : DataFrame)
           (symbol : string) : Exc BacktestResult.t :=
  if (len df_30m =? 0)%Z then ret (BacktestResult.new symbol)
  else
    recorded <- backtest_symbol cfg df_30m df_daily symbol ;;
    summarize symbol recorded.

(** The body of the sliding scan without its first test, the skip of a
    window that starts fewer than 10 bars after the last trade. *)
Definition scan_window_unguarded (cfg : Config) (df_30m df_daily : DataFrame)
           (symbol : string) (pip_value : Q) (st : ScanState) (start_idx : Z)
  : Exc ScanState :=
  let window := slice df_30m start_idx (start_idx + window_size) in
  signal <- validate_trident_pattern cfg window symbol true ;;
  match signal with
  | None => ret st
  | Some signal =>
      let entry_key := signal_key signal in
      if key_in entry_key (seen_entry_times st) then ret st
      else
        let seen := entry_key :: seen_entry_times st in
        let actual_confirm_idx :=
          (start_idx + TradeSignal.confirmation_idx signal)%Z in
        let trade :=
          BacktestTrade.new symbol (TradeSignal.direction signal)
                            (TradeSignal.entry_price signal)
                            (TradeSignal.signal_time signal)
                            (TradeSignal.stop_loss signal) in
        trade <- simulate_trade_exit cfg df_30m df_daily trade
                                     actual_confirm_idx pip_value ;;
        trade <- set_risk_reward trade pip_value ;;
        ret (mkScanState seen start_idx (trades st ++ [trade])%list)
  end.

Fixpoint scan_windows_unguarded (cfg : Config) (df_30m df_daily : DataFrame)
         (symbol : string) (pip_value : Q) (st : ScanState)
         (starts : list Z) : Exc ScanState :=
  match starts with
  | [] => ret st
  | start_idx :: starts' =>
      st' <- scan_window_unguarded cfg df_30m df_daily symbol pip_value st
                                   start_idx ;;
      scan_windows_unguarded cfg df_30m df_daily symbol pip_value st' starts'
  end.

(** ** trade_manager.py *)

(** The "significant opposing candle" test of [should_exit_on_daily]:
    [total_range > 0 and body / total_range > 0.7]. *)
Definition strong_body (candle : Candle) : Exc bool :=
  let body := Qabs (fsub (close candle) (open candle)) in
  let total_range := fsub (high candle) (low candle) in
  if fgt total_range 0 then
    ratio <- fdiv body total_range ;; ret (fgt ratio (float64 (7 # 10)))
  else ret false.

Definition should_exit_on_daily (cfg : Config) (daily_df : DataFrame)
           (direction : string) : Exc bool :=
  if (len daily_df <? 3)%Z then ret false
  else
    last_candle <- iloc daily_df (-1) ;;
    prev_candle <- iloc daily_df (-2) ;;
    if direction =? "BUY" then
      emas_ok <- are_emas_stacked cfg daily_df "long" (-1) ;;
      ema_exit <- (if negb emas_ok
                   then are_emas_stacked cfg daily_df "long" (-2)
                   else ret false) ;;
      if ema_exit then ret true
      else
        strong <- strong_body last_candle ;;
        if strong && flt (close last_candle) (open last_candle)
           && flt (close last_candle) (low prev_candle)
        then ret true else ret false
    else if direction =? "SELL" then
      emas_ok <- are_emas_stacked cfg daily_df "short" (-1) ;;
      ema_exit <- (if negb emas_ok
                   then are_emas_stacked cfg daily_df "short" (-2)
                   else ret false) ;;
      if ema_exit then ret true
      else
        strong <- strong_body last_candle ;;
        if strong && fgt (close last_candle) (open last_candle)
           && fgt (close last_candle) (high prev_candle)
        then ret true else ret false
    else ret false.

Definition check_gold_candle_filter (df_30m : DataFrame) (entry_price : Q)
           (direction : string) : Exc bool :=
  if (len df_30m <? 1)%Z then ret false
  else
    last_candle <- iloc df_30m (-1) ;;
    if direction =? "BUY" then
      if flt (close last_candle) (fmul entry_price (float64 (995 # 1000)))
      then ret true
      else ret false
    else if direction =? "SELL" then
      if fgt (close last_candle) (fmul entry_price (float64 (1005 # 1000)))
      then ret true
      else ret false
    else ret false.

(** One entry of [get_open_positions()]; of its keys only ["symbol"] is
    read here. *)
Record Position : Type := mkPosition {
  position_ticket : Z;
  position_symbol : string;
  position_type : string
}.

(** The arguments of one call of [place_order]. *)
Record OrderRequest : Type := mkOrderRequest {
  order_symbol : string;
  order_type : string;
  order_lot : Q;
  order_sl : Q;
  order_tp : Q;
  order_comment : string
}.

(** The constants [execute_entry] reads from [config.py]. *)
Record ExecConfig : Type := mkExecConfig {
  MAX_OPEN_TRADES : Z;
  LOT_SIZE : Q
}.

(** What one call of [execute_entry] does: the orders it hands to
    [place_order], the stop-loss values it writes to the trade log, and the
    value it returns. *)
Record EntryOutcome (R : Type) : Type := mkEntryOutcome {
  placed : list OrderRequest;
  logged_stop_loss : list Q;
  returned : option R
}.
Arguments mkEntryOutcome {R} _ _ _.
Arguments placed {R} _.
Arguments logged_stop_loss {R} _.
Arguments returned {R} _.

(** [execute_entry(signal, mt5_conn)]: [open_positions] is what
    [mt5_conn.get_open_positions()] returns and [place_order] is
    [mt5_conn.place_order]. *)
Definition execute_entry {R : Type} (ecfg : ExecConfig)
           (open_positions : list Position)
           (place_order : OrderRequest -> option R)
           (signal : TradeSignal.t) : EntryOutcome R :=
  let bot_positions :=
    filter (fun p => position_symbol p =? TradeSignal.symbol signal)
           open_positions in
  if (len open_positions >=? MAX_OPEN_TRADES ecfg)%Z
  then mkEntryOutcome [] [] None
  else
    let sl := if TradeSignal.use_hard_sl signal
              then TradeSignal.stop_loss signal else 0 in
    let request :=
      mkOrderRequest (TradeSignal.symbol signal) (TradeSignal.direction signal)
                     (LOT_SIZE ecfg) sl 0
                     ("Trident_" ++ TradeSignal.direction signal) in
    match place_order request with
    | Some result => mkEntryOutcome [request] [sl] (Some result)
    | None => mkEntryOutcome [request] [] None
    end.

(** A price as the connector delivers it: a binary64 number, of magnitude
    below 2^1023, so that the sum and the difference of two prices are
    below 2^1024. *)
Definition price (x : Q) : Prop := float64 x == x /\ Qabs x < 2 ^ 1023.

(** A row whose four prices are such numbers. *)
Definition priced (row : Candle) : Prop :=
  price (open row) /\ price (high row) /\ price (low row) /\ price (close row).

(** The two as tests. *)
Definition is_price (x : Q) : bool :=
  feq (float64 x) x && flt (Qabs x) (2 ^ 1023).

Definition is_priced (row : Candle) : bool :=
  is_price (open row) && is_price (high row) && is_price (low row)
  && is_price (close row).

(** The frame has, on every row, the column [ema_<p>] of every [p] in
    [periods]. *)
Definition has_ema_columns (periods : list nat) (df : DataFrame) : Prop :=
  forall row, In row df ->
  forall p, In p periods -> lookup_col p (ema_cols row) <> None.

(** [closed] is [trade] after the five assignments of an exit on a bar
    stamped [exit_time]: the outcome is WIN or LOSS and the profit is the
    signed price move over [pip_value], both operations rounded. *)
Definition closes (trade : BacktestTrade.t) (pip_value : Q)
           (exit_time : Timestamp) (closed : BacktestTrade.t) : Prop :=
  exists exit_price pnl_pips result exit_reason,
    closed = BacktestTrade.close_trade trade exit_price exit_time pnl_pips
                                       result exit_reason
    /\ (result = "WIN" \/ result = "LOSS")
    /\ (BacktestTrade.direction trade = "BUY" ->
        pnl_pips = fquot (fsub exit_price (BacktestTrade.entry_price trade))
                         pip_value)
    /\ (BacktestTrade.direction trade = "SELL" ->
        pnl_pips = fquot (fsub (BacktestTrade.entry_price trade) exit_price)
                         pip_value).

(** How many of the recorded trades carry the key [k]. *)
Definition count_key (k : EntryKey) (trades : list BacktestTrade.t) : nat :=
  List.length (filter (fun trade => key_eqb k (trade_key trade)) trades).

(** The 30M frame as [backtest_symbol] scans it, with its EMA columns. *)
Definition enriched_30m (cfg : Config) (df_30m : DataFrame) : DataFrame :=
  calculate_emas df_30m (EMA_FAST_PERIODS cfg ++ [EMA_TREND_PERIOD cfg])%list.

(** The starts of the sliding windows over a frame. *)
Definition window_starts (df_30m : DataFrame) : list Z :=
  range_step 0 (len df_30m - window_size) (window_size / 2).

(** The columns of a row that come from the broker. *)
Definition ohlc_of (row : Candle) : Timestamp * Q * Q * Q * Q :=
  (time row, open row, high row, low row, close row).

(** [p in periods] *)
Definition period_in (p : nat) (periods : list nat) : bool :=
  existsb (Nat.eqb p) periods.

(** The stop test of [stop_check] on one bar: a hard stop looks at the low
    (BUY) or the high (SELL), the gold filter at the close. *)
Definition stop_breached (trade : BacktestTrade.t) (gold : bool)
           (candle : Candle) : bool :=
  let sl := BacktestTrade.stop_loss trade in
  if BacktestTrade.direction trade =? "BUY" then
    if negb gold then fle (low candle) sl else fle (close candle) sl
  else if BacktestTrade.direction trade =? "SELL" then
    if negb gold then fge (high candle) sl else fge (close candle) sl
  else false.

(** The profit in pips of an exit at [exit_price], as every exit path
    computes it: a trade that is not a BUY is treated as a SELL. *)
Definition signed_pips (trade : BacktestTrade.t) (exit_price pip_value : Q) : Q :=
  if BacktestTrade.direction trade =? "BUY"
  then fquot (fsub exit_price (BacktestTrade.entry_price trade)) pip_value
  else fquot (fsub (BacktestTrade.entry_price trade) exit_price) pip_value.

(** The trade a stop exit on [candle] returns. *)
Definition stopped_out (trade : BacktestTrade.t) (gold : bool) (pip_value : Q)
           (candle : Candle) : BacktestTrade.t :=
  let exit_price := if gold then close candle else BacktestTrade.stop_loss trade in
  BacktestTrade.close_trade trade exit_price (time candle)
    (signed_pips trade exit_price pip_value) "LOSS"
    (if gold then "Gold candle close filter" else "Stop loss hit").

(** The trade an exit at the close of [candle] returns, with its outcome
    taken from the sign of the profit. *)
Definition closed_at_close (trade : BacktestTrade.t) (pip_value : Q)
           (candle : Candle) (exit_reason : string) : BacktestTrade.t :=
  let pnl := signed_pips trade (close candle) pip_value in
  BacktestTrade.close_trade trade (close candle) (time candle) pnl
                            (win_or_loss pnl) exit_reason.

(** The four ways a simulated trade is closed. *)
Inductive exit_case (df_daily : DataFrame) (trade : BacktestTrade.t)
          (entry_bar_idx : Z) (pip_value : Q) (last_idx : Z)
  : Z -> Candle -> BacktestTrade.t -> Prop :=
| exit_stop j candle :
    stop_breached trade (is_gold (BacktestTrade.symbol trade)) candle = true ->
    exit_case df_daily trade entry_bar_idx pip_value last_idx j candle
              (stopped_out trade (is_gold (BacktestTrade.symbol trade))
                           pip_value candle)
| exit_daily j candle :
    ((j - entry_bar_idx) mod 48 = 0)%Z -> (5 <= len df_daily)%Z ->
    (BacktestTrade.direction trade = "BUY"
     \/ BacktestTrade.direction trade = "SELL") ->
    exit_case df_daily trade entry_bar_idx pip_value last_idx j candle
              (closed_at_close trade pip_value candle "Daily EMA unstack")
| exit_max_hold candle :
    exit_case df_daily trade entry_bar_idx pip_value last_idx last_idx candle
              (closed_at_close trade pip_value candle "Max hold period").

(** ** Sample data *)

(** A row as the connector returns it, before [calculate_emas]: the four
    prices are the floats nearest to the decimals given. *)
Definition bar (t : Timestamp) (o h l c : Q) : Candle :=
  mkCandle t (float64 o) (float64 h) (float64 l) (float64 c) [].

(** Six half-hour bars from 01:30 to 04:00 New York time: a gap up over
    bars 1-3 whose impulse bar has its low at 150, a doji that dips to 130,
    and a confirmation bar that closes at 140. *)
Definition falling_confirmation : DataFrame :=
  calculate_emas
    [ bar 23400 100 110 100 100;
      bar 25200 100 110 100 100;
      bar 27000 150 200 150 200;
      bar 28800 200 200 190 200;
      bar 30600 160 200 130 160;
      bar 32400 195 195 140 140 ]
    [5; 9; 13; 21; 200]%nat.

(** The gap of [falling_confirmation], over bars 1 to 3. *)
Definition falling_gap : FVG.t :=
  FVG.mk "bullish" 190 110 (fquot (fadd 190 110) 2) 1 2 3 25200 150 200.

(** Two bars: the entry bar at 1.1000 and a bar that closes at 1.1100
    without trading below 1.1000. *)
Definition rising_pair : DataFrame :=
  [ bar 0 (11 # 10) (11 # 10) (11 # 10) (11 # 10);
    bar 1800 (11 # 10) (111 # 100) (11 # 10) (111 # 100) ].

(** A long entered at 1.1000 with its stop at 1.0950. *)
Definition long_trade : BacktestTrade.t :=
  BacktestTrade.new "EURUSD" "BUY" (float64 (11 # 10)) 0 (float64 (1095 # 1000)).

(** Consecutive half-hour bars from the instant [t] on. *)
Fixpoint half_hours (t : Timestamp) (ohlc : list (Q * Q * Q * Q)) : DataFrame :=
  match ohlc with
  | [] => []
  | (o, h, l, c) :: rest => bar t o h l c :: half_hours (t + 1800) rest
  end.

(** 76 bars with one pattern on bars 31 to 35, inside both sliding windows
    (bars 0-49 and bars 25-74): a gap up over bars 31-33 formed at 02:30
    New York time, a doji on bar 34 and the confirmation on bar 35. *)
Definition straddling : DataFrame :=
  half_hours 55800
    (repeat (100, 101, 99, 100) 31
     ++ [ (100, 102, 100, 102); (102, 112, 101, 110); (110, 116, 106, 115);
          (114, 116, 103, 114); (114, 116, 113, 115) ]
     ++ repeat (115, 117, 114, 116) 40)%list.

(** The first 50 bars of [straddling] with the EMA columns of the whole
    frame: the first sliding window. *)
Definition straddling_enriched : DataFrame :=
  slice (enriched_30m default_config straddling) 0 50.

(** The default configuration with a kill zone from 22:00 to 02:00. *)
Definition overnight_config : Config :=
  mkConfig [5; 9; 13; 21]%nat 200%nat (float64 (3 # 10)) false
           22 0 2 0
           2 30 4 0
           (fun _ => (-18000)%Z).

(** Two bars: the entry bar at 1.1000 and a bar that trades down to 1.0900
    and closes at 1.0920. *)
Definition falling_pair : DataFrame :=
  [ bar 0 (11 # 10) (11 # 10) (11 # 10) (11 # 10);
    bar 1800 (11 # 10) (11 # 10) (109 # 100) (1092 # 1000) ].

(** A closed trade with profit [pnl] pips. *)
Definition trade_with_pnl (pnl : Q) : BacktestTrade.t :=
  BacktestTrade.mk "EURUSD" "BUY" 0 0 0 0 (Some 0%Z) pnl 0
                   (win_or_loss pnl) "Max hold period".

(** Five trades whose cumulative profit is 10, 25, 15, 40, 5. *)
Definition curve_trades : list BacktestTrade.t :=
  map trade_with_pnl [10; 15; - (10); 25; - (35)].

(** Consecutive daily bars from the instant [t] on, each flat at its close. *)
Fixpoint daily_closes (t : Timestamp) (closes : list Q) : DataFrame :=
  match closes with
  | [] => []
  | c :: rest => bar t c c c c :: daily_closes (t + 86400) rest
  end.

(** Seven daily bars: six rising closes, then a collapse. *)
Definition collapsing_days : DataFrame :=
  daily_closes 0 [100; 110; 120; 130; 140; 150; 60].

(** A 30M bar on the seventh day. *)
Definition seventh_day_bar : Candle :=
  bar 522000 (11 # 10) (11 # 10) (11 # 10) (11 # 10).

(** Three open trades allowed, 0.01 lots. *)
Definition small_account : ExecConfig := mkExecConfig 3 (float64 (1 # 100)).

(** Fifty flat half-hour bars at 1.1000 from 01:00 on the sixth day: bar 48
    falls on the seventh day. *)
Definition two_days_flat : DataFrame :=
  half_hours 435600 (repeat (11 # 10, 11 # 10, 11 # 10, 11 # 10) 50).

(** Three bars whose first high is 1 and whose third low is the next float
    above 1, that is 1 + 2^-52. *)
Definition hairline_gap : DataFrame :=
  [ bar 0 1 1 1 1;
    bar 1800 1 2 1 2;
    bar 3600 2 2 (1 + 2 ^ (-52)) 2 ].

(** A candle with open 0, high 10, low 0 and close 3: its body is three
    tenths of its range. *)
Definition three_tenths : Candle := bar 0 0 10 0 3.

(** A candle with open 100.00, close 100.02, high 100.10 and low 99.95. *)
Definition small_body : Candle :=
  bar 0 100 (1001 # 10) (9995 # 100) (10002 # 100).

(** A configuration with a single fast period. *)
Definition single_period_config : Config :=
  mkConfig [5]%nat 200%nat (float64 (3 # 10)) false 3 0 6 30 2 30 4 0
           (fun _ => (-18000)%Z).

(** * Properties *)

(** ** Comparisons and the exception monad *)

Lemma fle_true x y : fle x y = true <-> x <= y.
Proof. apply Qle_bool_iff. Qed.

Lemma fle_false x y : fle x y = false <-> y < x.
Proof.
  unfold fle. rewrite <- not_true_iff_false, Qle_bool_iff.
  split; intro H; [apply Qnot_le_lt | apply Qlt_not_le]; exact H.
Qed.

Lemma fge_true x y : fge x y = true <-> y <= x.
Proof. apply Qle_bool_iff. Qed.

Lemma fge_false x y : fge x y = false <-> x < y.
Proof. apply fle_false. Qed.

Lemma fgt_true x y : fgt x y = true <-> y < x.
Proof. unfold fgt. rewrite negb_true_iff. apply fle_false. Qed.

Lemma fgt_false x y : fgt x y = false <-> x <= y.
Proof. unfold fgt. rewrite negb_false_iff. apply fle_true. Qed.

Lemma flt_true x y : flt x y = true <-> x < y.
Proof. unfold flt. rewrite negb_true_iff. apply fle_false. Qed.

Lemma flt_false x y : flt x y = false <-> y <= x.
Proof. unfold flt. rewrite negb_false_iff. apply fle_true. Qed.

Lemma feq_true x y : feq x y = true <-> x == y.
Proof. apply Qeq_bool_iff. Qed.

Lemma feq_false x y : feq x y = false <-> ~ x == y.
Proof. unfold feq. rewrite <- not_true_iff_false, Qeq_bool_iff. tauto. Qed.

Lemma bind_ok {A B} (m : Exc A) (k : A -> Exc B) (b : B) :
  bind m k = inr b -> exists a, m = inr a /\ k a = inr b.
Proof. destruct m as [e | a]; simpl; [discriminate | eauto]. Qed.

Lemma fdiv_ok x y q : fdiv x y = inr q -> ~ y == 0 /\ q = fquot x y.
Proof.
  unfold fdiv. destruct (feq y 0) eqn:E; [discriminate |].
  intro H. injection H as <-. apply feq_false in E. auto.
Qed.

Lemma fdiv_total x y : ~ y == 0 -> fdiv x y = inr (fquot x y).
Proof. intro H. unfold fdiv. apply feq_false in H. now rewrite H. Qed.

Lemma truediv_ok x y q : truediv x y = inr q -> ~ y == 0 /\ q = x / y.
Proof.
  unfold truediv. destruct (feq y 0) eqn:E; [intro H; discriminate H |].
  intro H. injection H as <-. split; [now apply feq_false | reflexivity].
Qed.

Lemma truediv_total x y : ~ y == 0 -> truediv x y = inr (x / y).
Proof. intro H. unfold truediv. apply feq_false in H. now rewrite H. Qed.

(** Splits a hypothesis [x <- m ;; k = inr b] into [m = inr a] and
    [k a = inr b]. *)
Ltac exc_inv H :=
  let a := fresh "a" in
  let Ha := fresh "Ha" in
  apply bind_ok in H; destruct H as [a [Ha H]].

(** ** Binary64 rounding

    Powers of two. *)
Lemma pow2_pos e : 0 < 2 ^ e.
Proof. apply Qpower_0_lt. reflexivity. Qed.

Lemma pow2_nonzero e : ~ 2 ^ e == 0.
Proof. pose proof (pow2_pos e). lra. Qed.

Lemma pow2_add a b : 2 ^ (a + b) == 2 ^ a * 2 ^ b.
Proof. apply Qpower_plus. discriminate. Qed.

Lemma pow2_succ a : 2 ^ (a + 1) == 2 * 2 ^ a.
Proof. rewrite pow2_add. change (2 ^ 1) with 2. ring. Qed.

Lemma pow2_le a b : (a <= b)%Z -> 2 ^ a <= 2 ^ b.
Proof. intro H. apply Qpower_le_compat_l; [exact H | lra]. Qed.

Lemma pow2_lt a b : (a < b)%Z -> 2 ^ a < 2 ^ b.
Proof. intro H. apply Qpower_lt_compat_l; [exact H | lra]. Qed.

Lemma pow2_lt_inv a b : 2 ^ a < 2 ^ b -> (a < b)%Z.
Proof. intro H. apply (Qpower_lt_compat_l_inv 2); [exact H | lra]. Qed.

Lemma pow2_Z n : (0 <= n)%Z -> inject_Z (2 ^ n) == 2 ^ n.
Proof. intro H. apply (Zpower_Qpower 2 n H). Qed.

Lemma inject_Z_le a b : (a <= b)%Z -> inject_Z a <= inject_Z b.
Proof. intro H. unfold Qle; simpl. lia. Qed.

Lemma inject_Z_lt a b : (a < b)%Z -> inject_Z a < inject_Z b.
Proof. intro H. unfold Qlt; simpl. lia. Qed.

(** The magnitude. *)
Lemma Qabs_frac x : Qabs x == inject_Z (Z.abs (Qnum x)) / inject_Z (Z.pos (Qden x)).
Proof.
  destruct x as [n d]. unfold Qabs, Qeq, Qdiv, Qmult, Qinv; simpl. lia.
Qed.

Lemma mag_spec x : ~ x == 0 -> 2 ^ (mag x - 1) <= Qabs x /\ Qabs x < 2 ^ mag x.
Proof.
  intro Hx. unfold mag.
  set (n := Z.abs (Qnum x)). set (d := Z.pos (Qden x)).
  assert (Hn : (0 < n)%Z).
  { subst n. destruct x as [[|p|p] q]; simpl; try lia. exfalso. apply Hx. reflexivity. }
  assert (Hd : (0 < d)%Z) by (subst d; lia).
  destruct (Z.log2_spec n Hn) as [Hn1 Hn2].
  destruct (Z.log2_spec d Hd) as [Hd1 Hd2].
  pose proof (Z.log2_nonneg n) as Ha. pose proof (Z.log2_nonneg d) as Hb.
  set (a := Z.log2 n) in *. set (b := Z.log2 d) in *.
  assert (Hx' : Qabs x == inject_Z n / inject_Z d) by apply Qabs_frac.
  assert (HdQ : 0 < inject_Z d) by (change 0 with (inject_Z 0); now apply inject_Z_lt).
  assert (HnQ : 0 < inject_Z n) by (change 0 with (inject_Z 0); now apply inject_Z_lt).
  apply inject_Z_le in Hn1, Hd1. apply inject_Z_lt in Hn2, Hd2.
  rewrite pow2_Z in Hn1, Hd1 by assumption.
  rewrite pow2_Z in Hn2, Hd2 by lia.
  replace (Z.succ a) with (a + 1)%Z in Hn2 by lia.
  replace (Z.succ b) with (b + 1)%Z in Hd2 by lia.
  rewrite pow2_succ in Hn2, Hd2.
  pose proof (pow2_pos a) as Pa. pose proof (pow2_pos b) as Pb.
  pose proof (pow2_pos (a - b)) as Pk.
  assert (Hk : 2 ^ (a - b) * 2 ^ b == 2 ^ a).
  { rewrite <- pow2_add. now replace (a - b + b)%Z with a by lia. }
  assert (Hlow : 2 ^ (a - b - 1) < Qabs x).
  { rewrite Hx'. apply Qlt_shift_div_l; [exact HdQ |].
    assert (E : 2 ^ (a - b - 1) * 2 == 2 ^ (a - b)).
    { replace (a - b)%Z with (a - b - 1 + 1)%Z at 2 by lia.
      rewrite pow2_succ. ring. }
    pose proof (pow2_pos (a - b - 1)) as Pk1. nra. }
  assert (Hhigh : Qabs x < 2 ^ (a - b + 1)).
  { rewrite Hx'. apply Qlt_shift_div_r; [exact HdQ |]. rewrite pow2_succ. nra. }
  destruct (Qle_bool (2 ^ (a - b)) (Qabs x)) eqn:E.
  - apply Qle_bool_iff in E. replace (a - b + 1 - 1)%Z with (a - b)%Z by lia. now split.
  - split; [now apply Qlt_le_weak |].
    destruct (Qlt_le_dec (Qabs x) (2 ^ (a - b))) as [H | H]; [exact H |].
    apply Qle_bool_iff in H. congruence.
Qed.

Lemma mag_unique x k : 2 ^ (k - 1) <= Qabs x -> Qabs x < 2 ^ k -> mag x = k.
Proof.
  intros H1 H2.
  assert (Hx : ~ x == 0).
  { intro E. rewrite E in H1. change (Qabs 0) with 0 in H1.
    pose proof (pow2_pos (k - 1)). lra. }
  destruct (mag_spec x Hx) as [M1 M2].
  assert (mag x - 1 < k)%Z by (apply pow2_lt_inv; lra).
  assert (k - 1 < mag x)%Z by (apply pow2_lt_inv; lra).
  lia.
Qed.

Lemma mag_comp x y : ~ x == 0 -> x == y -> mag x = mag y.
Proof.
  intros Hx E. symmetry. destruct (mag_spec x Hx) as [M1 M2].
  apply mag_unique; rewrite <- E; assumption.
Qed.

Lemma mag_opp x : mag (- x) = mag x.
Proof.
  unfold mag. destruct x as [n d]. simpl. rewrite Z.abs_opp.
  replace (Qabs (- n # d)) with (Qabs (n # d)); [reflexivity |].
  unfold Qabs. simpl. now rewrite Z.abs_opp.
Qed.

Lemma mag_le x y : 0 < x -> x <= y -> (mag x <= mag y)%Z.
Proof.
  intros Hx Hxy.
  destruct (mag_spec x ltac:(lra)) as [X1 _].
  destruct (mag_spec y ltac:(lra)) as [_ Y2].
  rewrite Qabs_pos in X1, Y2 by lra.
  assert (mag x - 1 < mag y)%Z by (apply pow2_lt_inv; lra).
  lia.
Qed.

Lemma cexp_opp x : cexp (- x) = cexp x.
Proof. unfold cexp. now rewrite mag_opp. Qed.

Lemma cexp_min x : (-1074 <= cexp x)%Z.
Proof. unfold cexp. lia. Qed.

(** Rounding to the nearest integer. *)
Lemma rint_bounds q : (Qfloor q <= rint q <= Qfloor q + 1)%Z.
Proof.
  unfold rint. destruct (Qcompare _ _); [destruct (Z.even _) | |]; lia.
Qed.

Lemma rint_Z n : rint (inject_Z n) = n.
Proof.
  unfold rint. rewrite Qfloor_Z.
  assert (E : inject_Z n - inject_Z n == 0) by ring.
  rewrite E. reflexivity.
Qed.

Lemma rint_comp q q' : q == q' -> rint q = rint q'.
Proof.
  intro E. unfold rint. rewrite (Qfloor_comp _ _ E).
  assert (E' : q - inject_Z (Qfloor q') == q' - inject_Z (Qfloor q')) by now rewrite E.
  now rewrite E'.
Qed.

Lemma rint_mono a b : a <= b -> (rint a <= rint b)%Z.
Proof.
  intro H.
  pose proof (Qfloor_resp_le _ _ H) as Hf.
  destruct (Z.eq_dec (Qfloor a) (Qfloor b)) as [E | NE].
  - unfold rint. rewrite E.
    destruct (Qcompare_spec (a - inject_Z (Qfloor b)) (1 # 2));
      destruct (Qcompare_spec (b - inject_Z (Qfloor b)) (1 # 2));
      try destruct (Z.even (Qfloor b)); try lia; exfalso; lra.
  - pose proof (rint_bounds a). pose proof (rint_bounds b). lia.
Qed.

Lemma rint_nonneg q : 0 <= q -> (0 <= rint q)%Z.
Proof. intro H. rewrite <- (rint_Z 0). now apply rint_mono. Qed.

(** Rounding of the numbers that are not negative. *)
Lemma round_pos_nonneg x : 0 <= x -> 0 <= round_pos x.
Proof.
  intro H. unfold round_pos. pose proof (pow2_pos (cexp x)) as P.
  apply Qmult_le_0_compat; [| lra].
  change 0 with (inject_Z 0). apply inject_Z_le, rint_nonneg.
  apply Qle_shift_div_l; [exact P | lra].
Qed.

Lemma round_pos_zero x : x == 0 -> round_pos x == 0.
Proof.
  intro E. unfold round_pos.
  assert (E' : x / 2 ^ cexp x == inject_Z 0).
  { unfold Qdiv. transitivity (0 * / 2 ^ cexp x).
    - apply Qmult_comp; [exact E | reflexivity].
    - ring. }
  rewrite (rint_comp _ _ E'), rint_Z. ring.
Qed.

Lemma scaled_lt x : 0 < x -> x / 2 ^ cexp x < 2 ^ 53.
Proof.
  intro Hx. destruct (mag_spec x ltac:(lra)) as [_ M]. rewrite Qabs_pos in M by lra.
  apply Qlt_shift_div_r; [apply pow2_pos |]. rewrite <- pow2_add.
  eapply Qlt_le_trans; [exact M |]. apply pow2_le. unfold cexp. lia.
Qed.

Lemma round_pos_upper x : 0 < x -> round_pos x <= 2 ^ (cexp x + 53).
Proof.
  intro Hx. unfold round_pos.
  assert (H : (rint (x / 2 ^ cexp x) <= 2 ^ 53)%Z).
  { rewrite <- (rint_Z (2 ^ 53)). apply rint_mono.
    rewrite pow2_Z by lia. apply Qlt_le_weak, scaled_lt, Hx. }
  apply inject_Z_le in H. rewrite pow2_Z in H by lia.
  rewrite pow2_add. pose proof (pow2_pos (cexp x)). nra.
Qed.

Lemma round_pos_lower x :
  0 < x -> (-1074 < mag x - 53)%Z -> 2 ^ (mag x - 1) <= round_pos x.
Proof.
  intros Hx Hm. unfold round_pos.
  assert (Hc : cexp x = (mag x - 53)%Z) by (unfold cexp; lia).
  rewrite Hc.
  destruct (mag_spec x ltac:(lra)) as [M _]. rewrite Qabs_pos in M by lra.
  assert (H : (2 ^ 52 <= rint (x / 2 ^ (mag x - 53)))%Z).
  { rewrite <- (rint_Z (2 ^ 52)) at 1. apply rint_mono.
    rewrite pow2_Z by lia. apply Qle_shift_div_l; [apply pow2_pos |].
    rewrite <- pow2_add. now replace (52 + (mag x - 53))%Z with (mag x - 1)%Z by lia. }
  apply inject_Z_le in H. rewrite pow2_Z in H by lia.
  replace (mag x - 1)%Z with (52 + (mag x - 53))%Z by lia.
  rewrite pow2_add. pose proof (pow2_pos (mag x - 53)). nra.
Qed.

Lemma round_pos_mono x y : 0 <= x -> x <= y -> round_pos x <= round_pos y.
Proof.
  intros Hx Hxy.
  destruct (Qeq_dec x 0) as [E | NE].
  { rewrite (round_pos_zero x E). apply round_pos_nonneg. lra. }
  assert (Hx0 : 0 < x) by lra. assert (Hy0 : 0 < y) by lra.
  pose proof (mag_le x y Hx0 Hxy) as Hm.
  destruct (Z.eq_dec (cexp x) (cexp y)) as [Ec | NEc].
  - unfold round_pos. rewrite Ec. pose proof (pow2_pos (cexp y)) as P.
    assert (H : (rint (x / 2 ^ cexp y) <= rint (y / 2 ^ cexp y))%Z).
    { apply rint_mono. apply Qmult_le_compat_r; [exact Hxy |].
      apply Qlt_le_weak, Qinv_lt_0_compat, P. }
    apply inject_Z_le in H. nra.
  - assert (Hc : (cexp x < cexp y)%Z) by (unfold cexp in *; lia).
    assert (Hy : (-1074 < mag y - 53)%Z) by (unfold cexp in *; lia).
    apply Qle_trans with (2 ^ (mag y - 1)).
    + eapply Qle_trans; [apply round_pos_upper, Hx0 |].
      apply pow2_le. unfold cexp in *. lia.
    + now apply round_pos_lower.
Qed.

(** The rounding is monotone and odd, and it fixes 0. *)
Lemma float64_pos x : 0 <= x -> float64 x == round_pos x.
Proof.
  intro H. unfold float64. rewrite Qred_correct.
  apply Qle_bool_iff in H. now rewrite H.
Qed.

Lemma float64_neg x : x < 0 -> float64 x == - round_pos (- x).
Proof.
  intro H. unfold float64. rewrite Qred_correct.
  destruct (Qle_bool 0 x) eqn:E; [| reflexivity].
  apply Qle_bool_iff in E. lra.
Qed.

Lemma float64_mono x y : x <= y -> float64 x <= float64 y.
Proof.
  intro H.
  destruct (Qlt_le_dec x 0) as [Hx | Hx]; destruct (Qlt_le_dec y 0) as [Hy | Hy].
  - rewrite (float64_neg x Hx), (float64_neg y Hy).
    assert (round_pos (- y) <= round_pos (- x)) by (apply round_pos_mono; lra). lra.
  - rewrite (float64_neg x Hx), (float64_pos y Hy).
    pose proof (round_pos_nonneg (- x) ltac:(lra)).
    pose proof (round_pos_nonneg y Hy). lra.
  - lra.
  - rewrite (float64_pos x Hx), (float64_pos y Hy). now apply round_pos_mono.
Qed.




Lemma cexp_comp x y : ~ x == 0 -> x == y -> cexp x = cexp y.
Proof. intros Hx E. unfold cexp. now rewrite (mag_comp x y Hx E). Qed.

Lemma round_pos_comp x y : x == y -> round_pos x == round_pos y.
Proof.
  intro E. destruct (Qeq_dec x 0) as [Z | NZ].
  - rewrite (round_pos_zero x Z), (round_pos_zero y); [reflexivity |].
    now rewrite <- E.
  - unfold round_pos. rewrite <- (cexp_comp x y NZ E).
    assert (E' : x / 2 ^ cexp x == y / 2 ^ cexp x).
    { unfold Qdiv. apply Qmult_comp; [exact E | reflexivity]. }
    now rewrite (rint_comp _ _ E').
Qed.

Lemma float64_comp x y : x == y -> float64 x = float64 y.
Proof.
  intro E. unfold float64. apply Qred_complete.
  destruct (Qle_bool 0 x) eqn:Hx; destruct (Qle_bool 0 y) eqn:Hy.
  - now apply round_pos_comp.
  - apply Qle_bool_iff in Hx. rewrite E in Hx. apply Qle_bool_iff in Hx. congruence.
  - apply Qle_bool_iff in Hy. rewrite <- E in Hy. apply Qle_bool_iff in Hy. congruence.
  - apply Qopp_comp, round_pos_comp. now rewrite E.
Qed.

Lemma float64_opp x : float64 (- x) == - float64 x.
Proof.
  destruct (Qlt_le_dec x 0) as [Hx | Hx].
  - rewrite (float64_neg x Hx), (float64_pos (- x)) by lra. ring.
  - destruct (Qeq_dec x 0) as [Z | NZ].
    + rewrite (float64_comp (- x) 0), (float64_comp x 0); [reflexivity | exact Z |].
      rewrite Z. reflexivity.
    + rewrite (float64_neg (- x)) by lra. rewrite (float64_pos x Hx).
      apply Qopp_comp, round_pos_comp. ring.
Qed.

(** A number with a 53-bit significand and an exponent of at least -1074
    is left as it is. *)
Lemma round_pos_exact_lt m e :
  (0 < m < 2 ^ 53)%Z -> (-1074 <= e)%Z ->
  round_pos (inject_Z m * 2 ^ e) == inject_Z m * 2 ^ e.
Proof.
  intros Hm He. set (x := inject_Z m * 2 ^ e).
  pose proof (pow2_pos e) as Pe.
  assert (Hm0 : 0 < inject_Z m) by (change 0 with (inject_Z 0); apply inject_Z_lt; lia).
  assert (Hx : 0 < x) by (subst x; nra).
  assert (Hlt : x < 2 ^ (e + 53)).
  { subst x. rewrite pow2_add. rewrite <- (pow2_Z 53) by lia.
    assert (inject_Z m < inject_Z (2 ^ 53)) by (apply inject_Z_lt; lia). nra. }
  destruct (mag_spec x ltac:(lra)) as [M1 _]. rewrite Qabs_pos in M1 by lra.
  assert (Hmag : (mag x - 1 < e + 53)%Z) by (apply pow2_lt_inv; lra).
  assert (Hc : (cexp x <= e)%Z) by (unfold cexp; lia).
  unfold round_pos. fold x.
  assert (E : x / 2 ^ cexp x == inject_Z (m * 2 ^ (e - cexp x))).
  { rewrite inject_Z_mult, pow2_Z by lia. subst x.
    rewrite (Qpower_minus 2 e (cexp (inject_Z m * 2 ^ e))) by discriminate.
    unfold Qdiv. ring. }
  rewrite (rint_comp _ _ E), rint_Z.
  rewrite inject_Z_mult, pow2_Z by lia.
  rewrite (Qpower_minus 2 e (cexp x)) by discriminate.
  subst x. field. apply pow2_nonzero.
Qed.

Lemma round_pos_exact m e :
  (0 <= m <= 2 ^ 53)%Z -> (-1074 <= e)%Z ->
  round_pos (inject_Z m * 2 ^ e) == inject_Z m * 2 ^ e.
Proof.
  intros Hm He.
  destruct (Z.eq_dec m 0) as [-> | NZ].
  { rewrite round_pos_zero; ring. }
  destruct (Z.eq_dec m (2 ^ 53)) as [-> | NM].
  - assert (E : inject_Z (2 ^ 53) * 2 ^ e == inject_Z (2 ^ 52) * 2 ^ (e + 1)).
    { rewrite pow2_succ. change (inject_Z (2 ^ 53)) with (2 * inject_Z (2 ^ 52)) at 1.
      ring. }
    rewrite (round_pos_comp _ _ E), E. apply round_pos_exact_lt; lia.
  - apply round_pos_exact_lt; lia.
Qed.

Lemma float64_exact m e :
  (Z.abs m <= 2 ^ 53)%Z -> (-1074 <= e)%Z ->
  float64 (inject_Z m * 2 ^ e) == inject_Z m * 2 ^ e.
Proof.
  intros Hm He. pose proof (pow2_pos e) as Pe.
  destruct (Z_lt_le_dec m 0) as [Neg | Pos].
  - assert (E : inject_Z m * 2 ^ e == - (inject_Z (- m) * 2 ^ e)).
    { rewrite inject_Z_opp. ring. }
    rewrite (float64_comp _ _ E), float64_opp, float64_pos.
    + rewrite round_pos_exact by lia. symmetry. exact E.
    + assert (0 <= inject_Z (- m)) by (change 0 with (inject_Z 0); apply inject_Z_le; lia).
      nra.
  - rewrite float64_pos.
    + apply round_pos_exact; lia.
    + assert (0 <= inject_Z m) by (change 0 with (inject_Z 0); apply inject_Z_le; lia).
      nra.
Qed.

(** The shape of a rounded number. *)
Lemma float64_shape x :
  exists m e, (Z.abs m <= 2 ^ 53)%Z /\ (-1074 <= e)%Z /\ float64 x == inject_Z m * 2 ^ e.
Proof.
  assert (P : forall y, 0 < y -> (0 <= rint (y / 2 ^ cexp y) <= 2 ^ 53)%Z).
  { intros y Hy. split.
    - apply rint_nonneg. apply Qle_shift_div_l; [apply pow2_pos | lra].
    - rewrite <- (rint_Z (2 ^ 53)). apply rint_mono. rewrite pow2_Z by lia.
      now apply Qlt_le_weak, scaled_lt. }
  destruct (Qlt_le_dec x 0) as [Hx | Hx].
  - exists (- rint (- x / 2 ^ cexp (- x)))%Z, (cexp (- x)).
    specialize (P (- x) ltac:(lra)).
    split; [lia | split; [apply cexp_min |]].
    rewrite (float64_neg x Hx). unfold round_pos. rewrite inject_Z_opp. ring.
  - destruct (Qeq_dec x 0) as [Z | NZ].
    + exists 0%Z, 0%Z. split; [simpl; lia | split; [lia |]].
      rewrite (float64_comp x 0 Z). reflexivity.
    + exists (rint (x / 2 ^ cexp x)), (cexp x).
      specialize (P x ltac:(lra)).
      split; [lia | split; [apply cexp_min |]].
      now rewrite (float64_pos x Hx).
Qed.

Lemma float64_idempotent x : float64 (float64 x) == float64 x.
Proof.
  destruct (float64_shape x) as (m & e & Hm & He & E).
  rewrite (float64_comp _ _ E), E. now apply float64_exact.
Qed.

(** Doubling a binary64 number is exact. *)
Lemma float64_double x : float64 x == x -> float64 (2 * x) == 2 * x.
Proof.
  intro H. destruct (float64_shape x) as (m & e & Hm & He & E).
  rewrite H in E.
  assert (E2 : 2 * x == inject_Z m * 2 ^ (e + 1)).
  { rewrite E, pow2_succ. ring. }
  rewrite (float64_comp _ _ E2), E2. apply float64_exact; lia.
Qed.

(** The floats nearest to 0.1 and to 1/3; two ties, which go to the even
    neighbour; and the smallest positive float, 2^-1074, with the tie
    below it. *)
Lemma float64_examples :
  float64 (1 # 10) = 3602879701896397 # 36028797018963968
  /\ float64 (1 # 3) = 6004799503160661 # 18014398509481984
  /\ float64 (1 + 2 ^ (-53)) == 1
  /\ float64 (1 + 3 * 2 ^ (-53)) == 1 + 2 ^ (-51)
  /\ float64 (2 ^ (-1074)) == 2 ^ (-1074)
  /\ float64 (2 ^ (-1075)) == 0.
Proof. repeat split; vm_compute; reflexivity. Qed.

(** The midpoint of two floats, [(b + a) / 2.0], lies between them. *)
Lemma fmid_between a b :
  float64 a == a -> float64 b == b -> a <= b ->
  a <= fquot (fadd b a) 2 /\ fquot (fadd b a) 2 <= b.
Proof.
  intros Ha Hb Hab. unfold fquot, fadd.
  pose proof (float64_double a Ha) as Da. pose proof (float64_double b Hb) as Db.
  assert (L : 2 * a <= float64 (b + a)).
  { rewrite <- Da. apply float64_mono. lra. }
  assert (U : float64 (b + a) <= 2 * b).
  { rewrite <- Db. apply float64_mono. lra. }
  assert (E : float64 (b + a) / 2 == (1 # 2) * float64 (b + a)) by field.
  split.
  - rewrite <- Ha at 1. apply float64_mono. lra.
  - rewrite <- Hb at 2. apply float64_mono. lra.
Qed.

(** The smallest positive float is 2^-1074: what rounds to 0 is smaller. *)
Lemma float64_zero_small x : float64 x == 0 -> Qabs x < 2 ^ (-1074).
Proof.
  intro H.
  assert (E : float64 (2 ^ (-1074)) == 2 ^ (-1074)).
  { pose proof (float64_exact 1 (-1074) ltac:(simpl; lia) ltac:(lia)) as X.
    assert (E1 : inject_Z 1 * 2 ^ (-1074) == 2 ^ (-1074)) by ring.
    rewrite (float64_comp _ _ E1) in X. rewrite X. exact E1. }
  pose proof (pow2_pos (-1074)) as P.
  destruct (Qlt_le_dec (Qabs x) (2 ^ (-1074))) as [Hlt | Hge]; [exact Hlt |].
  exfalso. destruct (Qlt_le_dec x 0) as [Hx | Hx].
  - rewrite Qabs_neg in Hge by lra.
    pose proof (float64_mono _ _ Hge) as M. rewrite E, float64_opp in M. lra.
  - rewrite Qabs_pos in Hge by exact Hx.
    pose proof (float64_mono _ _ Hge) as M. rewrite E in M. lra.
Qed.

(** A float is a multiple of 2^-1074. *)
Lemma float64_grid x :
  float64 x == x -> exists k, x == inject_Z k * 2 ^ (-1074).
Proof.
  intro H. destruct (float64_shape x) as (m & e & _ & He & E). rewrite H in E.
  exists (m * 2 ^ (e + 1074))%Z.
  rewrite inject_Z_mult, pow2_Z by lia. rewrite E.
  rewrite <- Qmult_assoc, <- pow2_add.
  now replace (e + 1074 + -1074)%Z with e by lia.
Qed.

(** The difference of two floats rounds to 0 only when they are equal. *)
Lemma fsub_zero x y :
  float64 x == x -> float64 y == y -> fsub x y == 0 -> x == y.
Proof.
  intros Hx Hy H. apply float64_zero_small in H.
  destruct (float64_grid x Hx) as (k & Ek). destruct (float64_grid y Hy) as (j & Ej).
  pose proof (pow2_pos (-1074)) as P.
  assert (E : x - y == inject_Z (k - j) * 2 ^ (-1074)).
  { rewrite Ek, Ej. unfold Z.sub. rewrite inject_Z_plus, inject_Z_opp. ring. }
  rewrite E in H.
  destruct (Z.eq_dec (k - j) 0) as [Z0 | NZ].
  - rewrite Z0 in E. change (inject_Z 0) with 0 in E. lra.
  - exfalso. rewrite Qabs_Qmult, (Qabs_pos (2 ^ (-1074))) in H by lra.
    assert (1 <= Qabs (inject_Z (k - j))).
    { change (Qabs (inject_Z (k - j))) with (inject_Z (Z.abs (k - j))).
      change 1 with (inject_Z 1). apply inject_Z_le. lia. }
    nra.
Qed.

Lemma fsub_same x y : x == y -> fsub x y = 0.
Proof.
  intro E. unfold fsub. rewrite (float64_comp (x - y) 0); [reflexivity |].
  rewrite E. ring.
Qed.

(** The operations give the same float on equal rationals. *)
Lemma fsub_comp x x' y y' : x == x' -> y == y' -> fsub x y = fsub x' y'.
Proof. intros Ex Ey. apply float64_comp. now rewrite Ex, Ey. Qed.

Lemma fmul_comp x x' y y' : x == x' -> y == y' -> fmul x y = fmul x' y'.
Proof. intros Ex Ey. apply float64_comp. now rewrite Ex, Ey. Qed.

Lemma fquot_comp x x' y y' : x == x' -> y == y' -> fquot x y = fquot x' y'.
Proof. intros Ex Ey. apply float64_comp. now rewrite Ex, Ey. Qed.
















(** ** Positional indexing *)

Lemma iloc_nonneg {A} (df : list A) (i : Z) (row : A) :
  (0 <= i)%Z -> (iloc df i = inr row <-> nth_error df (Z.to_nat i) = Some row).
Proof.
  intro Hi. unfold iloc.
  destruct (i <? 0)%Z eqn:E; [apply Z.ltb_lt in E; lia |]. rewrite E.
  destruct (nth_error df (Z.to_nat i)); split; intro H;
    try discriminate; unfold ret in *; congruence.
Qed.

Lemma iloc_in_range {A} (df : list A) (i : Z) :
  (- len df <= i < len df)%Z -> exists row, iloc df i = inr row.
Proof.
  unfold iloc, len. intro Hi.
  set (j := if (i <? 0)%Z then (i + Z.of_nat (List.length df))%Z else i).
  assert (Hj : (0 <= j < Z.of_nat (List.length df))%Z).
  { subst j. destruct (i <? 0)%Z eqn:E;
      [apply Z.ltb_lt in E | apply Z.ltb_ge in E]; lia. }
  destruct (j <? 0)%Z eqn:E; [apply Z.ltb_lt in E; lia |].
  destruct (nth_error df (Z.to_nat j)) eqn:En; [eexists; reflexivity |].
  apply nth_error_None in En. lia.
Qed.

Lemma iloc_last {A} (df : list A) (row : A) :
  iloc df (-1) = inr row ->
  iloc df (len df - 1) = inr row /\ (0 <= len df - 1)%Z.
Proof.
  unfold iloc. cbn [Z.ltb Z.compare].
  replace (-1 + len df)%Z with (len df - 1)%Z by lia.
  destruct (len df - 1 <? 0)%Z eqn:E; intro H; [discriminate H |].
  split; [rewrite E; exact H | apply Z.ltb_ge in E; exact E].
Qed.

(** ** Gap detector *)

Lemma is_price_spec x : is_price x = true -> price x.
Proof.
  unfold is_price, price. intro H. apply andb_true_iff in H. destruct H as [E L].
  split; [now apply feq_true | now apply flt_true].
Qed.

Lemma is_priced_spec row : is_priced row = true -> priced row.
Proof.
  unfold is_priced, priced. intro H.
  apply andb_true_iff in H. destruct H as [H Hc].
  apply andb_true_iff in H. destruct H as [H Hl].
  apply andb_true_iff in H. destruct H as [Ho Hh].
  split; [| split; [| split]]; now apply is_price_spec.
Qed.

Lemma all_priced df : forallb is_priced df = true -> Forall priced df.
Proof.
  intro H. apply Forall_forall. intros row Hin.
  apply is_priced_spec. rewrite forallb_forall in H. now apply H.
Qed.

Lemma fvg_at_shape cfg check_time i c1 c2 c3 f :
  fvg_at cfg check_time i c1 c2 c3 = Some f ->
  FVG.bottom f < FVG.top f
  /\ FVG.midpoint f = fquot (fadd (FVG.top f) (FVG.bottom f)) 2
  /\ (FVG.direction f = "bullish" \/ FVG.direction f = "bearish")
  /\ FVG.candle2_idx f = (i + 1)%Z /\ FVG.candle3_idx f = (i + 2)%Z
  /\ FVG.fvg_candle_low f = low c2 /\ FVG.fvg_candle_high f = high c2.
Proof.
  unfold fvg_at.
  destruct (check_time && negb (is_in_fvg_window cfg (time c2))); [discriminate |].
  destruct (fgt (low c3) (high c1)) eqn:Eup.
  - intro H. injection H as <-. simpl. apply fgt_true in Eup. tauto.
  - destruct (flt (high c3) (low c1)) eqn:Edown; [| discriminate].
    intro H. injection H as <-. simpl. apply flt_true in Edown. tauto.
Qed.

(** The edges of a gap are a high and a low of its outer candles. *)
Lemma fvg_at_edges cfg check_time i c1 c2 c3 f :
  fvg_at cfg check_time i c1 c2 c3 = Some f ->
  (FVG.top f = low c3 /\ FVG.bottom f = high c1)
  \/ (FVG.top f = low c1 /\ FVG.bottom f = high c3).
Proof.
  unfold fvg_at.
  destruct (check_time && negb (is_in_fvg_window cfg (time c2))); [discriminate |].
  destruct (fgt (low c3) (high c1)).
  - intro H. injection H as <-. left. split; reflexivity.
  - destruct (flt (high c3) (low c1)); [| discriminate].
    intro H. injection H as <-. right. split; reflexivity.
Qed.

(** Every gap of the scan comes from three consecutive rows. *)
Lemma find_fvgs_from_origin cfg check_time df : forall i f,
  In f (find_fvgs_from cfg check_time i df) ->
  exists (k : nat) c1 c2 c3,
    nth_error df k = Some c1 /\ nth_error df (S k) = Some c2
    /\ nth_error df (S (S k)) = Some c3
    /\ fvg_at cfg check_time (i + Z.of_nat k) c1 c2 c3 = Some f.
Proof.
  induction df as [| c1 df' IH]; intros i f Hin; [contradiction |].
  destruct df' as [| c2 [| c3 rest]]; try contradiction.
  assert (Hrec : In f (find_fvgs_from cfg check_time (i + 1) (c2 :: c3 :: rest)) ->
                 exists (k : nat) a b c,
                   nth_error (c1 :: c2 :: c3 :: rest) k = Some a
                   /\ nth_error (c1 :: c2 :: c3 :: rest) (S k) = Some b
                   /\ nth_error (c1 :: c2 :: c3 :: rest) (S (S k)) = Some c
                   /\ fvg_at cfg check_time (i + Z.of_nat k) a b c = Some f).
  { intro H. destruct (IH _ _ H) as (k & a & b & c & Ha & Hb & Hc & Hf).
    exists (S k), a, b, c. repeat split; try assumption.
    rewrite <- Hf. f_equal. lia. }
  cbn [find_fvgs_from] in Hin.
  destruct (fvg_at cfg check_time i c1 c2 c3) as [g |] eqn:Eg.
  - destruct Hin as [-> | Hin]; [| auto].
    exists 0%nat, c1, c2, c3. repeat split. rewrite <- Eg. f_equal. lia.
  - auto.
Qed.

Lemma find_fvgs_origin cfg df check_time f :
  In f (find_fvgs cfg df check_time) ->
  exists (k : nat) c1 c2 c3,
    nth_error df k = Some c1 /\ nth_error df (S k) = Some c2
    /\ nth_error df (S (S k)) = Some c3
    /\ fvg_at cfg check_time (Z.of_nat k) c1 c2 c3 = Some f.
Proof.
  unfold find_fvgs. destruct (len df <? 3)%Z; [contradiction |].
  intro H. apply find_fvgs_from_origin in H. exact H.
Qed.

(** C7, as the code has it: every gap returned by [find_fvgs], bullish or
    bearish, has its top strictly above its bottom, and its midpoint is
    [(top + bottom) / 2.0] as binary64 computes it.  On a frame of prices
    that midpoint lies between bottom and top, the two included. *)
Theorem find_fvgs_gap_invariant cfg df check_time f :
  Forall priced df ->
  In f (find_fvgs cfg df check_time) ->
  (FVG.direction f = "bullish" \/ FVG.direction f = "bearish")
  /\ FVG.bottom f < FVG.top f
  /\ FVG.midpoint f = fquot (fadd (FVG.top f) (FVG.bottom f)) 2
  /\ FVG.bottom f <= FVG.midpoint f /\ FVG.midpoint f <= FVG.top f.
Proof.
  intros Hdf Hin. rewrite Forall_forall in Hdf.
  destruct (find_fvgs_origin _ _ _ _ Hin) as (k & c1 & c2 & c3 & H1 & _ & H3 & Hf).
  apply nth_error_In, Hdf in H1. apply nth_error_In, Hdf in H3.
  destruct H1 as (_ & [Hh1 _] & [Hl1 _] & _).
  destruct H3 as (_ & [Hh3 _] & [Hl3 _] & _).
  pose proof (fvg_at_edges _ _ _ _ _ _ _ Hf) as Hedges.
  apply fvg_at_shape in Hf. destruct Hf as (Hlt & Hmid & Hdir & _).
  assert (Hb : float64 (FVG.bottom f) == FVG.bottom f)
    by (destruct Hedges as [[_ ->] | [_ ->]]; assumption).
  assert (Ht : float64 (FVG.top f) == FVG.top f)
    by (destruct Hedges as [[-> _] | [-> _]]; assumption).
  destruct (fmid_between _ _ Hb Ht (Qlt_le_weak _ _ Hlt)) as [Hlo Hhi].
  rewrite Hmid. tauto.
Qed.

Lemma find_fvgs_gap_invariant_witness :
  (FVG.direction falling_gap = "bullish" \/ FVG.direction falling_gap = "bearish")
  /\ FVG.bottom falling_gap < FVG.top falling_gap
  /\ FVG.midpoint falling_gap
     = fquot (fadd (FVG.top falling_gap) (FVG.bottom falling_gap)) 2
  /\ FVG.bottom falling_gap <= FVG.midpoint falling_gap
  /\ FVG.midpoint falling_gap <= FVG.top falling_gap.
Proof.
  apply (find_fvgs_gap_invariant default_config falling_confirmation true).
  - apply all_priced. vm_compute. reflexivity.
  - vm_compute. left. reflexivity.
Defined.

(** C7, as stated, fails: on [hairline_gap], whose third low is the float
    next above the first high, [find_fvgs] records a gap whose midpoint is
    its bottom: it is neither the mean of top and bottom nor strictly
    above the bottom. *)
Lemma midpoint_on_the_edge :
  Forall priced hairline_gap
  /\ exists f,
       find_fvgs default_config hairline_gap false = [f]
       /\ FVG.bottom f < FVG.top f
       /\ ~ FVG.midpoint f == (FVG.top f + FVG.bottom f) / 2
       /\ ~ FVG.bottom f < FVG.midpoint f.
Proof.
  split; [apply all_priced; vm_compute; reflexivity |].
  eexists. split; [vm_compute; reflexivity |].
  split; [vm_compute; reflexivity |].
  split; intro H; vm_compute in H; discriminate H.
Qed.

(** ** Indicators *)

(** C8, as the code has it: [is_doji] never divides by a zero range.  A
    candle with high equal to low is not a doji; any other candle of prices
    is a doji exactly when the quotient of |close - open| by high - low, as
    binary64 computes it (both differences and the quotient rounded), is at
    most the threshold. *)
Theorem is_doji_zero_range_safe cfg candle threshold :
  price (high candle) -> price (low candle) ->
  let thr := match threshold with
             | None => DOJI_BODY_RATIO cfg
             | Some t => t
             end in
  (high candle == low candle -> is_doji cfg candle threshold = inr false)
  /\ (~ high candle == low candle ->
      exists b, is_doji cfg candle threshold = inr b
                /\ (b = true <->
                    fquot (Qabs (fsub (close candle) (open candle)))
                          (fsub (high candle) (low candle))
                    <= thr)).
Proof.
  intros [Hh _] [Hl _] thr. unfold is_doji. fold thr. split; intro H.
  - rewrite (fsub_same _ _ H). reflexivity.
  - assert (E : feq (fsub (high candle) (low candle)) 0 = false).
    { apply feq_false. intro Z. apply H. now apply fsub_zero. }
    rewrite E. unfold fdiv. rewrite E. simpl.
    eexists. split; [reflexivity | apply fle_true].
Qed.

Lemma is_doji_zero_range_safe_witness :
  is_doji default_config small_body None = inr true.
Proof.
  destruct (is_doji_zero_range_safe default_config small_body None)
    as [_ Hdoji].
  - apply is_price_spec. vm_compute. reflexivity.
  - apply is_price_spec. vm_compute. reflexivity.
  - destruct Hdoji as (b & Hb & Hiff).
    + intro H. vm_compute in H. discriminate H.
    + rewrite Hb. f_equal. apply Hiff. apply fle_true. vm_compute. reflexivity.
Defined.

(** C8, as stated, fails at the threshold: the candle [three_tenths] has a
    range that is not zero and a body of exactly three tenths of it, which
    is more than the threshold, the float nearest to 0.3; yet the quotient
    rounds to that float and [is_doji] answers [True]. *)
Lemma is_doji_rounds_at_threshold :
  priced three_tenths
  /\ low three_tenths < high three_tenths
  /\ is_doji default_config three_tenths None = inr true
  /\ ~ Qabs (close three_tenths - open three_tenths)
        / (high three_tenths - low three_tenths)
      <= DOJI_BODY_RATIO default_config.
Proof.
  split; [apply is_priced_spec; vm_compute; reflexivity |].
  split; [vm_compute; reflexivity |].
  split; [vm_compute; reflexivity |].
  intro H. vm_compute in H. apply H. reflexivity.
Qed.

Lemma mapM_length {A B} (f : A -> Exc B) (l : list A) (bs : list B) :
  mapM f l = inr bs -> List.length bs = List.length l.
Proof.
  revert bs. induction l as [| a l IH]; simpl; intros bs H.
  - injection H as <-. reflexivity.
  - exc_inv H. exc_inv H. injection H as <-. simpl. f_equal. auto.
Qed.

Lemma chain_ok_head bad a b rest :
  chain_ok bad (a :: b :: rest) = true -> bad a b = false.
Proof. simpl. destruct (bad a b); [discriminate | reflexivity]. Qed.

(** C4: with at least two fast EMA periods configured (the source names
    5, 9, 13, 21), [are_emas_stacked] is never true for "long" and for
    "short" at the same index of the same frame. *)
Theorem stacked_long_short_exclusive cfg df index :
  (2 <= List.length (EMA_FAST_PERIODS cfg))%nat ->
  ~ (are_emas_stacked cfg df "long" index = inr true
     /\ are_emas_stacked cfg df "short" index = inr true).
Proof.
  intros Hlen [Hlong Hshort]. unfold are_emas_stacked in *.
  destruct (iloc df index) as [e | row]; [discriminate |].
  destruct (mapM (get_ema row) (EMA_FAST_PERIODS cfg)) as [e | vs] eqn:Evs;
    [discriminate |].
  apply mapM_length in Evs. simpl in Hlong, Hshort.
  destruct vs as [| a [| b rest]]; simpl in Evs; try lia.
  injection Hlong as Hlong. injection Hshort as Hshort.
  apply chain_ok_head in Hlong, Hshort.
  apply fle_false in Hlong. apply fge_false in Hshort. lra.
Qed.

Lemma stacked_long_short_exclusive_witness :
  ~ (are_emas_stacked default_config falling_confirmation "long" 5 = inr true
     /\ are_emas_stacked default_config falling_confirmation "short" 5 = inr true).
Proof.
  apply (stacked_long_short_exclusive default_config falling_confirmation 5).
  simpl. lia.
Defined.

(** The bound on the number of periods is needed: with one period both
    loops are empty and both directions are reported as stacked. *)
Lemma single_period_stacks_both_ways :
  are_emas_stacked single_period_config falling_confirmation "long" 5 = inr true
  /\ are_emas_stacked single_period_config falling_confirmation "short" 5 = inr true.
Proof. split; vm_compute; reflexivity. Qed.

Lemma lookup_set_col p v q cols :
  lookup_col q (set_col p v cols)
  = if (p =? q)%nat then Some v else lookup_col q cols.
Proof.
  induction cols as [| [k w] cols IH]; simpl; [reflexivity |].
  destruct (k =? p)%nat eqn:Ekp; simpl.
  - apply Nat.eqb_eq in Ekp. subst k. now destruct (p =? q)%nat.
  - rewrite IH. destruct (k =? q)%nat eqn:Ekq; [| reflexivity].
    apply Nat.eqb_eq in Ekq. subst k. now rewrite Nat.eqb_sym, Ekp.
Qed.

Lemma assign_ema_cols p : forall df values row,
  In row (assign_ema p df values) ->
  exists row0, In row0 df
    /\ (forall q, lookup_col q (ema_cols row0) <> None ->
                  lookup_col q (ema_cols row) <> None)
    /\ ((List.length df <= List.length values)%nat ->
        lookup_col p (ema_cols row) <> None).
Proof.
  induction df as [| r df IH]; intros values row Hin.
  - destruct values; contradiction.
  - destruct values as [| v values].
    + exists row. split; [exact Hin |]. split; [auto | simpl; lia].
    + simpl in Hin. destruct Hin as [<- | Hin].
      * exists r. split; [now left |]. simpl. split.
        -- intros q Hq. rewrite lookup_set_col. now destruct (p =? q)%nat.
        -- intros _. rewrite lookup_set_col, Nat.eqb_refl. discriminate.
      * destruct (IH _ _ Hin) as (row0 & H0 & Hkeep & Hset).
        exists row0. split; [now right |]. split; [exact Hkeep |].
        simpl. intro Hlen. apply Hset. lia.
Qed.

Lemma ewm_from_length alpha : forall xs prev,
  List.length (ewm_from alpha prev xs) = List.length xs.
Proof. induction xs as [| x xs IH]; intro prev; simpl; [| rewrite IH]; reflexivity. Qed.

Lemma ewm_mean_length span xs : List.length (ewm_mean span xs) = List.length xs.
Proof. destruct xs; simpl; [| rewrite ewm_from_length]; reflexivity. Qed.

Lemma calculate_emas_keeps q : forall periods df,
  (forall row, In row df -> lookup_col q (ema_cols row) <> None) ->
  forall row, In row (calculate_emas df periods) ->
              lookup_col q (ema_cols row) <> None.
Proof.
  unfold calculate_emas.
  induction periods as [| p periods IH]; intros df Hdf row Hin; [auto |].
  simpl in Hin. revert row Hin. apply IH. intros row Hin.
  destruct (assign_ema_cols _ _ _ _ Hin) as (row0 & H0 & Hkeep & _). auto.
Qed.

Lemma calculate_emas_has_columns periods df :
  has_ema_columns periods (calculate_emas df periods).
Proof.
  unfold has_ema_columns. revert df.
  induction periods as [| p periods IH]; intros df row Hin q Hq; [contradiction |].
  destruct Hq as [<- | Hq].
  - revert row Hin. unfold calculate_emas. simpl.
    apply (calculate_emas_keeps p periods). intros row Hin.
    destruct (assign_ema_cols _ _ _ _ Hin) as (row0 & _ & _ & Hset).
    apply Hset. rewrite ewm_mean_length, length_map. lia.
  - unfold calculate_emas in Hin. simpl in Hin. eapply IH; eassumption.
Qed.

Lemma mapM_get_ema_total row : forall periods,
  (forall p, In p periods -> lookup_col p (ema_cols row) <> None) ->
  exists vs, mapM (get_ema row) periods = inr vs.
Proof.
  induction periods as [| p periods IH]; intro H; simpl.
  - eexists; reflexivity.
  - destruct IH as [vs Hvs]; [intros; apply H; now right |].
    unfold get_ema at 1.
    destruct (lookup_col p (ema_cols row)) as [v |] eqn:E.
    + simpl. rewrite Hvs. simpl. eexists; reflexivity.
    + exfalso. apply (H p); [now left | exact E].
Qed.

Lemma iloc_In {A} (df : list A) (i : Z) (row : A) :
  iloc df i = inr row -> In row df.
Proof.
  unfold iloc.
  destruct ((if (i <? 0)%Z then (i + len df)%Z else i) <? 0)%Z; [discriminate |].
  destruct (nth_error df _) eqn:E; [| discriminate].
  intro H. injection H as <-. eapply nth_error_In; eassumption.
Qed.

Lemma are_emas_stacked_total cfg df direction index :
  has_ema_columns (EMA_FAST_PERIODS cfg) df ->
  exists b, are_emas_stacked cfg df direction index = inr b.
Proof.
  intro Hcols. unfold are_emas_stacked.
  destruct (iloc df index) as [e | row] eqn:Erow; [eexists; reflexivity |].
  destruct (mapM_get_ema_total row (EMA_FAST_PERIODS cfg)) as [vs Hvs].
  { apply Hcols. eapply iloc_In; eassumption. }
  rewrite Hvs. simpl.
  destruct (direction =? "long"); [eexists; reflexivity |].
  destruct (direction =? "short"); eexists; reflexivity.
Qed.

(** C9: on a frame that carries the fast EMA columns, [are_emas_stacked]
    returns [False], and does not raise, for every direction other than
    "long" and "short", whatever the index. *)
Theorem are_emas_stacked_invalid_direction cfg df direction index :
  has_ema_columns (EMA_FAST_PERIODS cfg) df ->
  direction <> "long" -> direction <> "short" ->
  are_emas_stacked cfg df direction index = inr false.
Proof.
  intros Hcols Hlong Hshort. unfold are_emas_stacked.
  destruct (iloc df index) as [e | row] eqn:Erow; [reflexivity |].
  destruct (mapM_get_ema_total row (EMA_FAST_PERIODS cfg)) as [vs Hvs].
  { apply Hcols. eapply iloc_In; eassumption. }
  rewrite Hvs. simpl.
  apply String.eqb_neq in Hlong, Hshort. now rewrite Hlong, Hshort.
Qed.

Lemma are_emas_stacked_invalid_direction_witness :
  are_emas_stacked default_config falling_confirmation "sideways" 5 = inr false.
Proof.
  apply are_emas_stacked_invalid_direction.
  - intros row Hrow p Hp. vm_compute in Hp.
    assert (Hfive : ~ lookup_col 5 (ema_cols row) = None
                    /\ ~ lookup_col 9 (ema_cols row) = None
                    /\ ~ lookup_col 13 (ema_cols row) = None
                    /\ ~ lookup_col 21 (ema_cols row) = None).
    { vm_compute in Hrow.
      repeat (destruct Hrow as [<- | Hrow];
              [repeat split; discriminate |]).
      contradiction. }
    destruct Hfive as (H5 & H9 & H13 & H21).
    repeat (destruct Hp as [<- | Hp]; [assumption |]). contradiction.
  - discriminate.
  - discriminate.
Defined.

(** ** Pattern validator *)

Lemma geb_false_lt (x y : Z) : (x < y)%Z -> (x >=? y)%Z = false.
Proof. intro H. rewrite Z.geb_leb. apply Z.leb_gt. exact H. Qed.

(** C3: for a gap whose doji and wick-depth checks have passed, the
    confirmation check is one inequality per direction.  A bullish candidate
    is rejected exactly when the confirmation close is strictly above the
    doji high; a close at or below it (equality included) hands the
    candidate to the remaining gates, so the earlier [>=] block changes
    nothing.  A bearish candidate is rejected exactly when the confirmation
    close is strictly below the doji low. *)
Theorem confirmation_check_single_inequality
        cfg df symbol check_time fvg doji_candle confirm_candle :
  let doji_idx := (FVG.candle3_idx fvg + 1)%Z in
  let confirm_idx := (FVG.candle3_idx fvg + 2)%Z in
  (confirm_idx < len df)%Z ->
  iloc df doji_idx = inr doji_candle ->
  iloc df confirm_idx = inr confirm_candle ->
  is_doji cfg doji_candle None = inr true ->
  (FVG.direction fvg = "bullish" ->
   low doji_candle <= FVG.midpoint fvg ->
   (high doji_candle < close confirm_candle ->
    check_candidate cfg df symbol check_time fvg = inr None)
   /\ (close confirm_candle <= high doji_candle ->
       check_candidate cfg df symbol check_time fvg
       = accept_bullish cfg df symbol check_time fvg doji_idx confirm_idx
                        confirm_candle)
   /\ (forall signal,
         accept_bullish cfg df symbol check_time fvg doji_idx confirm_idx
                        confirm_candle = inr (Some signal) ->
         (check_candidate cfg df symbol check_time fvg = inr None
          <-> high doji_candle < close confirm_candle)))
  /\ (FVG.direction fvg = "bearish" ->
      FVG.midpoint fvg <= high doji_candle ->
      (close confirm_candle < low doji_candle ->
       check_candidate cfg df symbol check_time fvg = inr None)
      /\ (low doji_candle <= close confirm_candle ->
          check_candidate cfg df symbol check_time fvg
          = accept_bearish cfg df symbol check_time fvg doji_idx confirm_idx
                           confirm_candle)
      /\ (forall signal,
            accept_bearish cfg df symbol check_time fvg doji_idx confirm_idx
                           confirm_candle = inr (Some signal) ->
            (check_candidate cfg df symbol check_time fvg = inr None
             <-> close confirm_candle < low doji_candle))).
Proof.
  intros doji_idx confirm_idx Hlen Hdoji Hconfirm Hisdoji.
  assert (Hbody : forall direction,
    FVG.direction fvg = direction ->
    check_candidate cfg df symbol check_time fvg
    = if direction =? "bullish" then
        if fgt (low doji_candle) (FVG.midpoint fvg) then ret None
        else confirm_bullish cfg df symbol check_time fvg doji_idx confirm_idx
                             doji_candle confirm_candle
      else if direction =? "bearish" then
        if flt (high doji_candle) (FVG.midpoint fvg) then ret None
        else confirm_bearish cfg df symbol check_time fvg doji_idx confirm_idx
                             doji_candle confirm_candle
      else ret None).
  { intros direction <-. unfold check_candidate.
    fold doji_idx confirm_idx.
    rewrite (geb_false_lt _ _ Hlen), Hdoji, Hconfirm. simpl.
    rewrite Hisdoji. reflexivity. }
  split; intros Hdir Hwick; rewrite (Hbody _ Hdir); simpl.
  - apply fgt_false in Hwick. rewrite Hwick.
    assert (Hreject : high doji_candle < close confirm_candle ->
                      confirm_bullish cfg df symbol check_time fvg doji_idx
                        confirm_idx doji_candle confirm_candle = inr None).
    { intro H. unfold confirm_bullish.
      apply fgt_true in H. rewrite H. now destruct (fge _ _). }
    assert (Hpass : close confirm_candle <= high doji_candle ->
                    confirm_bullish cfg df symbol check_time fvg doji_idx
                      confirm_idx doji_candle confirm_candle
                    = accept_bullish cfg df symbol check_time fvg doji_idx
                        confirm_idx confirm_candle).
    { intro H. unfold confirm_bullish.
      apply fgt_false in H. rewrite H. now destruct (fge _ _). }
    split; [exact Hreject |]. split; [exact Hpass |].
    intros signal Hsig. split; [| exact Hreject].
    intro Hnone.
    destruct (Qlt_le_dec (high doji_candle) (close confirm_candle)) as [Hgt | Hle];
      [exact Hgt |].
    rewrite (Hpass Hle), Hsig in Hnone. discriminate.
  - apply flt_false in Hwick. rewrite Hwick.
    assert (Hreject : close confirm_candle < low doji_candle ->
                      confirm_bearish cfg df symbol check_time fvg doji_idx
                        confirm_idx doji_candle confirm_candle = inr None).
    { intro H. unfold confirm_bearish. apply flt_true in H. now rewrite H. }
    assert (Hpass : low doji_candle <= close confirm_candle ->
                    confirm_bearish cfg df symbol check_time fvg doji_idx
                      confirm_idx doji_candle confirm_candle
                    = accept_bearish cfg df symbol check_time fvg doji_idx
                        confirm_idx confirm_candle).
    { intro H. unfold confirm_bearish. apply flt_false in H. now rewrite H. }
    split; [exact Hreject |]. split; [exact Hpass |].
    intros signal Hsig. split; [| exact Hreject].
    intro Hnone.
    destruct (Qlt_le_dec (close confirm_candle) (low doji_candle)) as [Hlt | Hle];
      [exact Hlt |].
    rewrite (Hpass Hle), Hsig in Hnone. discriminate.
Qed.

Lemma confirmation_check_witness :
  check_candidate default_config falling_confirmation "EURUSD" true falling_gap
  = accept_bullish default_config falling_confirmation "EURUSD" true falling_gap
                   4 5 (nth 5 falling_confirmation (bar 0 0 0 0 0)).
Proof.
  refine (proj1 (proj2 (proj1
    (confirmation_check_single_inequality
       default_config falling_confirmation "EURUSD" true falling_gap
       (nth 4 falling_confirmation (bar 0 0 0 0 0))
       (nth 5 falling_confirmation (bar 0 0 0 0 0)) _ _ _ _) _ _)) _).
  - vm_compute. reflexivity.
  - vm_compute. reflexivity.
  - vm_compute. reflexivity.
  - vm_compute. reflexivity.
  - reflexivity.
  - apply fle_true. vm_compute. reflexivity.
  - apply fle_true. vm_compute. reflexivity.
Defined.

Lemma accept_bullish_signal cfg df symbol check_time fvg doji_idx confirm_idx
      confirm_candle signal :
  accept_bullish cfg df symbol check_time fvg doji_idx confirm_idx confirm_candle
  = inr (Some signal) ->
  signal = TradeSignal.mk symbol "BUY" (close confirm_candle)
             (FVG.fvg_candle_low fvg) fvg doji_idx confirm_idx
             (time confirm_candle)
             (negb (is_gold symbol) || GOLD_USE_HARD_SL cfg).
Proof.
  unfold accept_bullish. intro H. exc_inv H.
  destruct (negb a); [discriminate |].
  destruct (negb (get_200ema_bias cfg df confirm_idx =? "long")); [discriminate |].
  destruct (check_time && negb (is_in_kill_zone cfg (time confirm_candle)));
    [discriminate |].
  injection H as <-. reflexivity.
Qed.

Lemma accept_bearish_signal cfg df symbol check_time fvg doji_idx confirm_idx
      confirm_candle signal :
  accept_bearish cfg df symbol check_time fvg doji_idx confirm_idx confirm_candle
  = inr (Some signal) ->
  signal = TradeSignal.mk symbol "SELL" (close confirm_candle)
             (FVG.fvg_candle_high fvg) fvg doji_idx confirm_idx
             (time confirm_candle)
             (negb (is_gold symbol) || GOLD_USE_HARD_SL cfg).
Proof.
  unfold accept_bearish. intro H. exc_inv H.
  destruct (negb a); [discriminate |].
  destruct (negb (get_200ema_bias cfg df confirm_idx =? "short")); [discriminate |].
  destruct (check_time && negb (is_in_kill_zone cfg (time confirm_candle)));
    [discriminate |].
  injection H as <-. reflexivity.
Qed.

(** What an accepted candidate looks like. *)
Lemma check_candidate_signal cfg df symbol check_time fvg signal :
  check_candidate cfg df symbol check_time fvg = inr (Some signal) ->
  exists confirm_candle,
    iloc df (FVG.candle3_idx fvg + 2) = inr confirm_candle
    /\ (FVG.candle3_idx fvg + 2 < len df)%Z
    /\ ((FVG.direction fvg = "bullish"
         /\ signal = TradeSignal.mk symbol "BUY" (close confirm_candle)
                       (FVG.fvg_candle_low fvg) fvg
                       (FVG.candle3_idx fvg + 1) (FVG.candle3_idx fvg + 2)
                       (time confirm_candle)
                       (negb (is_gold symbol) || GOLD_USE_HARD_SL cfg))
        \/ (FVG.direction fvg = "bearish"
            /\ signal = TradeSignal.mk symbol "SELL" (close confirm_candle)
                          (FVG.fvg_candle_high fvg) fvg
                          (FVG.candle3_idx fvg + 1) (FVG.candle3_idx fvg + 2)
                          (time confirm_candle)
                          (negb (is_gold symbol) || GOLD_USE_HARD_SL cfg))).
Proof.
  unfold check_candidate.
  destruct (FVG.candle3_idx fvg + 2 >=? len df)%Z eqn:Elen; [discriminate |].
  intro H. exc_inv H. rename a into doji_candle.
  exc_inv H. rename a into confirm_candle. exc_inv H.
  destruct (negb a); [discriminate |].
  exists confirm_candle. split; [assumption |].
  split; [rewrite Z.geb_leb in Elen; apply Z.leb_gt in Elen; exact Elen |].
  destruct (FVG.direction fvg =? "bullish") eqn:Ebull.
  - left. apply String.eqb_eq in Ebull. split; [exact Ebull |].
    destruct (fgt (low doji_candle) (FVG.midpoint fvg)); [discriminate |].
    unfold confirm_bullish in H. exc_inv H.
    destruct (fgt (close confirm_candle) (high doji_candle)); [discriminate |].
    eapply accept_bullish_signal; eassumption.
  - destruct (FVG.direction fvg =? "bearish") eqn:Ebear; [| discriminate].
    right. apply String.eqb_eq in Ebear. split; [exact Ebear |].
    destruct (flt (high doji_candle) (FVG.midpoint fvg)); [discriminate |].
    unfold confirm_bearish in H.
    destruct (flt (close confirm_candle) (low doji_candle)); [discriminate |].
    eapply accept_bearish_signal; eassumption.
Qed.

Lemma first_signal_origin cfg df symbol check_time : forall fvgs signal,
  first_signal cfg df symbol check_time fvgs = inr (Some signal) ->
  exists fvg, In fvg fvgs
              /\ check_candidate cfg df symbol check_time fvg = inr (Some signal).
Proof.
  induction fvgs as [| fvg fvgs IH]; intros signal H; [discriminate |].
  simpl in H. exc_inv H. destruct a as [found |].
  - injection H as ->. exists fvg. split; [now left | assumption].
  - destruct (IH _ H) as (g & Hin & Hg). exists g. split; [now right | assumption].
Qed.

Lemma validate_trident_pattern_origin cfg df symbol check_time signal :
  validate_trident_pattern cfg df symbol check_time = inr (Some signal) ->
  exists fvg, In fvg (find_fvgs cfg df check_time)
              /\ check_candidate cfg df symbol check_time fvg = inr (Some signal).
Proof.
  unfold validate_trident_pattern.
  destruct (len df <? 6)%Z; [discriminate |].
  destruct (find_fvgs cfg df check_time) as [| g fvgs] eqn:E; [discriminate |].
  intro H. apply first_signal_origin in H. destruct H as (fvg & Hin & Hfvg).
  exists fvg. split; [| exact Hfvg]. apply in_rev. exact Hin.
Qed.

(** C1, as the code has it: the entry price of a returned signal is the
    close of the confirmation candle and its stop-loss is the low (BUY) or
    the high (SELL) of the impulse candle of the gap.  The stop-loss is
    therefore below the entry of a BUY exactly when the confirmation candle
    closes above the impulse low, and above the entry of a SELL exactly when
    it closes below the impulse high. *)
Theorem signal_entry_and_stop cfg df symbol check_time signal :
  validate_trident_pattern cfg df symbol check_time = inr (Some signal) ->
  exists impulse_candle confirm_candle,
    iloc df (FVG.candle2_idx (TradeSignal.fvg signal)) = inr impulse_candle
    /\ iloc df (TradeSignal.confirmation_idx signal) = inr confirm_candle
    /\ TradeSignal.entry_price signal = close confirm_candle
    /\ ((TradeSignal.direction signal = "BUY"
         /\ TradeSignal.stop_loss signal = low impulse_candle
         /\ (TradeSignal.stop_loss signal < TradeSignal.entry_price signal
             <-> low impulse_candle < close confirm_candle))
        \/ (TradeSignal.direction signal = "SELL"
            /\ TradeSignal.stop_loss signal = high impulse_candle
            /\ (TradeSignal.entry_price signal < TradeSignal.stop_loss signal
                <-> close confirm_candle < high impulse_candle))).
Proof.
  intro H.
  destruct (validate_trident_pattern_origin _ _ _ _ _ H) as (fvg & Hin & Hcand).
  destruct (find_fvgs_origin _ _ _ _ Hin) as (k & c1 & c2 & c3 & _ & H2 & _ & Hf).
  apply fvg_at_shape in Hf.
  destruct Hf as (_ & _ & _ & Hidx2 & _ & Hlow & Hhigh).
  destruct (check_candidate_signal _ _ _ _ _ _ Hcand)
    as (confirm_candle & Hconfirm & _ & Hsig).
  exists c2, confirm_candle.
  assert (Himpulse : iloc df (FVG.candle2_idx fvg) = inr c2).
  { rewrite Hidx2. apply iloc_nonneg; [lia |].
    replace (Z.to_nat (Z.of_nat k + 1)) with (S k) by lia. exact H2. }
  destruct Hsig as [[_ ->] | [_ ->]]; simpl;
    (split; [exact Himpulse |]); (split; [exact Hconfirm |]);
    (split; [reflexivity |]).
  - left. rewrite Hlow. repeat split; auto.
  - right. rewrite Hhigh. repeat split; auto.
Qed.

Lemma signal_entry_and_stop_witness :
  exists signal,
    validate_trident_pattern default_config falling_confirmation "EURUSD" true
    = inr (Some signal)
    /\ exists impulse_candle confirm_candle,
         iloc falling_confirmation (FVG.candle2_idx (TradeSignal.fvg signal))
         = inr impulse_candle
         /\ iloc falling_confirmation (TradeSignal.confirmation_idx signal)
            = inr confirm_candle
         /\ TradeSignal.entry_price signal = close confirm_candle
         /\ ((TradeSignal.direction signal = "BUY"
              /\ TradeSignal.stop_loss signal = low impulse_candle
              /\ (TradeSignal.stop_loss signal < TradeSignal.entry_price signal
                  <-> low impulse_candle < close confirm_candle))
             \/ (TradeSignal.direction signal = "SELL"
                 /\ TradeSignal.stop_loss signal = high impulse_candle
                 /\ (TradeSignal.entry_price signal < TradeSignal.stop_loss signal
                     <-> close confirm_candle < high impulse_candle))).
Proof.
  eexists. split.
  - vm_compute. reflexivity.
  - apply (signal_entry_and_stop default_config falling_confirmation "EURUSD" true).
    vm_compute. reflexivity.
Defined.

(** C1, as stated, fails: on [falling_confirmation] the validator returns a
    BUY signal whose stop-loss, 150, is above its entry price, 140. *)
Lemma stop_loss_above_long_entry :
  exists signal,
    validate_trident_pattern default_config falling_confirmation "EURUSD" true
    = inr (Some signal)
    /\ TradeSignal.direction signal = "BUY"
    /\ TradeSignal.entry_price signal == 140
    /\ TradeSignal.stop_loss signal == 150
    /\ ~ TradeSignal.stop_loss signal < TradeSignal.entry_price signal.
Proof.
  eexists. split; [vm_compute; reflexivity |]. simpl.
  split; [reflexivity |]. split; [reflexivity |]. split; [reflexivity |].
  apply Qle_not_lt. apply fle_true. vm_compute. reflexivity.
Qed.

(** ** Forward exit simulation *)

Lemma win_or_loss_cases pnl : win_or_loss pnl = "WIN" \/ win_or_loss pnl = "LOSS".
Proof. unfold win_or_loss. destruct (fgt pnl 0); auto. Qed.

Lemma range_from_bounds step : forall fuel start stop i,
  (0 <= step)%Z -> In i (range_from fuel start stop step) ->
  (start <= i < stop)%Z.
Proof.
  induction fuel as [| fuel IH]; intros start stop i Hstep Hin; [contradiction |].
  simpl in Hin. destruct (start <? stop)%Z eqn:E; [| contradiction].
  apply Z.ltb_lt in E. destruct Hin as [<- | Hin]; [lia |].
  apply IH in Hin; lia.
Qed.

Lemma range_from_length step : forall fuel start stop,
  (List.length (range_from fuel start stop step) <= fuel)%nat.
Proof.
  induction fuel as [| fuel IH]; intros start stop; simpl; [lia |].
  destruct (start <? stop)%Z; simpl; [| lia]. specialize (IH (start + step)%Z stop). lia.
Qed.

Lemma forward_bars_bounds df_30m entry_bar_idx i :
  In i (forward_bars df_30m entry_bar_idx) ->
  (entry_bar_idx + 1 <= i < len df_30m)%Z /\ (i <= entry_bar_idx + 959)%Z.
Proof.
  unfold forward_bars, range, range_step. intro H.
  apply range_from_bounds in H; lia.
Qed.

Lemma forward_bars_length df_30m entry_bar_idx :
  (List.length (forward_bars df_30m entry_bar_idx) <= 959)%nat.
Proof.
  unfold forward_bars, range, range_step.
  etransitivity; [apply range_from_length | lia].
Qed.

Ltac close_with px pnl res reason :=
  exists px, pnl, res, reason;
  split; [reflexivity |]; split; [auto using win_or_loss_cases |];
  split; intro Hd; congruence.

Lemma stop_check_closes trade gold pip_value candle closed :
  stop_check trade gold pip_value candle = inr (Some closed) ->
  ~ pip_value == 0 /\ closes trade pip_value (time candle) closed.
Proof.
  unfold stop_check, closes.
  destruct (BacktestTrade.direction trade =? "BUY") eqn:Ebuy.
  - apply String.eqb_eq in Ebuy.
    destruct (negb gold).
    + destruct (fle (low candle) (BacktestTrade.stop_loss trade)); [| discriminate].
      intro H. exc_inv H. apply fdiv_ok in Ha. destruct Ha as [Hpip ->].
      injection H as <-. split; [exact Hpip |].
      close_with (BacktestTrade.stop_loss trade)
                 (fquot (fsub (BacktestTrade.stop_loss trade) (BacktestTrade.entry_price trade))
                  pip_value) "LOSS" "Stop loss hit".
    + destruct (fle (close candle) (BacktestTrade.stop_loss trade)); [| discriminate].
      intro H. exc_inv H. apply fdiv_ok in Ha. destruct Ha as [Hpip ->].
      injection H as <-. split; [exact Hpip |].
      close_with (close candle)
                 (fquot (fsub (close candle) (BacktestTrade.entry_price trade)) pip_value)
                 "LOSS" "Gold candle close filter".
  - destruct (BacktestTrade.direction trade =? "SELL") eqn:Esell; [| discriminate].
    apply String.eqb_eq in Esell.
    destruct (negb gold).
    + destruct (fge (high candle) (BacktestTrade.stop_loss trade)); [| discriminate].
      intro H. exc_inv H. apply fdiv_ok in Ha. destruct Ha as [Hpip ->].
      injection H as <-. split; [exact Hpip |].
      close_with (BacktestTrade.stop_loss trade)
                 (fquot (fsub (BacktestTrade.entry_price trade) (BacktestTrade.stop_loss trade))
                  pip_value) "LOSS" "Stop loss hit".
    + destruct (fge (close candle) (BacktestTrade.stop_loss trade)); [| discriminate].
      intro H. exc_inv H. apply fdiv_ok in Ha. destruct Ha as [Hpip ->].
      injection H as <-. split; [exact Hpip |].
      close_with (close candle)
                 (fquot (fsub (BacktestTrade.entry_price trade) (close candle)) pip_value)
                 "LOSS" "Gold candle close filter".
Qed.

Lemma daily_check_closes cfg df_daily trade entry_bar_idx pip_value i candle closed :
  daily_check cfg df_daily trade entry_bar_idx pip_value i candle
  = inr (Some closed) ->
  ~ pip_value == 0 /\ closes trade pip_value (time candle) closed.
Proof.
  unfold daily_check, closes.
  destruct (_ && _)%bool; [| discriminate].
  destruct (len _ >=? 5)%Z; [| discriminate].
  destruct (BacktestTrade.direction trade =? "BUY") eqn:Ebuy.
  - apply String.eqb_eq in Ebuy. intro H. exc_inv H.
    destruct (negb a); [| discriminate]. exc_inv H.
    destruct a0; [| discriminate]. exc_inv H.
    apply fdiv_ok in Ha1. destruct Ha1 as [Hpip ->]. injection H as <-.
    split; [exact Hpip |].
    close_with (close candle)
               (fquot (fsub (close candle) (BacktestTrade.entry_price trade)) pip_value)
               (win_or_loss (fquot (fsub (close candle) (BacktestTrade.entry_price trade))
                             pip_value)) "Daily EMA unstack".
  - destruct (BacktestTrade.direction trade =? "SELL") eqn:Esell; [| discriminate].
    apply String.eqb_eq in Esell. intro H. exc_inv H.
    destruct (negb a); [| discriminate]. exc_inv H.
    destruct a0; [| discriminate]. exc_inv H.
    apply fdiv_ok in Ha1. destruct Ha1 as [Hpip ->]. injection H as <-.
    split; [exact Hpip |].
    close_with (close candle)
               (fquot (fsub (BacktestTrade.entry_price trade) (close candle)) pip_value)
               (win_or_loss (fquot (fsub (BacktestTrade.entry_price trade) (close candle))
                             pip_value)) "Daily EMA unstack".
Qed.

Lemma scan_forward_closes cfg df_30m df_daily trade gold entry_bar_idx pip_value :
  forall bars closed,
    scan_forward cfg df_30m df_daily trade gold entry_bar_idx pip_value bars
    = inr (Some closed) ->
    ~ pip_value == 0
    /\ exists i candle, In i bars /\ iloc df_30m i = inr candle
                        /\ closes trade pip_value (time candle) closed.
Proof.
  induction bars as [| i bars IH]; intros closed H; [discriminate |].
  simpl in H. exc_inv H. destruct a as [found |].
  - injection H as ->. unfold exit_at in Ha. exc_inv Ha. rename a into candle.
    exc_inv Ha.
    assert (Hc : ~ pip_value == 0 /\ closes trade pip_value (time candle) closed).
    { destruct a as [stopped |].
      - injection Ha as ->. eapply stop_check_closes; eassumption.
      - eapply daily_check_closes; eassumption. }
    destruct Hc as [Hpip Hc]. split; [exact Hpip |].
    exists i, candle. split; [now left |]. split; assumption.
  - destruct (IH _ H) as (Hpip & j & candle & Hin & Hj & Hc).
    split; [exact Hpip |].
    exists j, candle. split; [now right | auto].
Qed.

Lemma max_hold_exit_closes df_30m trade max_bars pip_value closed :
  max_hold_exit df_30m trade max_bars pip_value = inr closed ->
  exists last_candle,
    (if (max_bars <? len df_30m)%Z then iloc df_30m (max_bars - 1)
     else iloc df_30m (-1)) = inr last_candle
    /\ ~ pip_value == 0
    /\ closes trade pip_value (time last_candle) closed.
Proof.
  unfold max_hold_exit, closes. intro H. exc_inv H. rename a into last_candle.
  exists last_candle. split; [assumption |]. exc_inv H. injection H as <-.
  destruct (BacktestTrade.direction trade =? "BUY") eqn:Ebuy.
  - apply String.eqb_eq in Ebuy. apply fdiv_ok in Ha0. destruct Ha0 as [Hpip ->].
    split; [exact Hpip |].
    close_with (close last_candle)
               (fquot (fsub (close last_candle) (BacktestTrade.entry_price trade)) pip_value)
               (win_or_loss (fquot (fsub (close last_candle) (BacktestTrade.entry_price trade))
                             pip_value)) "Max hold period".
  - apply String.eqb_neq in Ebuy. apply fdiv_ok in Ha0. destruct Ha0 as [Hpip ->].
    split; [exact Hpip |].
    close_with (close last_candle)
               (fquot (fsub (BacktestTrade.entry_price trade) (close last_candle)) pip_value)
               (win_or_loss (fquot (fsub (BacktestTrade.entry_price trade) (close last_candle))
                             pip_value)) "Max hold period".
Qed.

(** Every way out of [simulate_trade_exit] closes the trade on some bar:
    one the loop visits, or the bar taken after the loop. *)
Lemma simulate_trade_exit_closes cfg df_30m df_daily trade entry_bar_idx
      pip_value closed :
  simulate_trade_exit cfg df_30m df_daily trade entry_bar_idx pip_value
  = inr closed ->
  ~ pip_value == 0
  /\ exists j candle,
       iloc df_30m j = inr candle
       /\ (In j (forward_bars df_30m entry_bar_idx)
           \/ j = (Z.min (len df_30m) (entry_bar_idx + 960) - 1)%Z)
       /\ closes trade pip_value (time candle) closed.
Proof.
  unfold simulate_trade_exit. intro H. exc_inv H.
  destruct a as [found |].
  - injection H as ->. apply scan_forward_closes in Ha.
    destruct Ha as (Hpip & i & candle & Hin & Hi & Hc).
    split; [exact Hpip |]. exists i, candle. auto.
  - apply max_hold_exit_closes in H. destruct H as (candle & Hi & Hpip & Hc).
    split; [exact Hpip |].
    exists (Z.min (len df_30m) (entry_bar_idx + 960) - 1)%Z, candle.
    split; [| auto].
    destruct (_ <? _)%Z eqn:E; [exact Hi |].
    apply Z.ltb_ge in E. apply iloc_last in Hi. destruct Hi as [Hi _].
    replace (Z.min (len df_30m) (entry_bar_idx + 960)) with (len df_30m) by lia.
    exact Hi.
Qed.

(** C10: [simulate_trade_exit] assigns only [exit_price], [exit_time],
    [pnl_pips], [result] and [exit_reason]; the returned trade has the
    symbol, direction, entry price, entry time, stop-loss and risk:reward
    ratio of the trade it was given. *)
Theorem simulate_trade_exit_frame cfg df_30m df_daily trade entry_bar_idx
        pip_value closed :
  simulate_trade_exit cfg df_30m df_daily trade entry_bar_idx pip_value
  = inr closed ->
  BacktestTrade.symbol closed = BacktestTrade.symbol trade
  /\ BacktestTrade.direction closed = BacktestTrade.direction trade
  /\ BacktestTrade.entry_price closed = BacktestTrade.entry_price trade
  /\ BacktestTrade.entry_time closed = BacktestTrade.entry_time trade
  /\ BacktestTrade.stop_loss closed = BacktestTrade.stop_loss trade
  /\ BacktestTrade.rr_ratio closed = BacktestTrade.rr_ratio trade.
Proof.
  intro H. apply simulate_trade_exit_closes in H.
  destruct H as (_ & j & candle & _ & _ & px & pnl & res & reason & -> & _).
  simpl. repeat split.
Qed.

Lemma simulate_trade_exit_frame_witness :
  exists closed,
    simulate_trade_exit default_config rising_pair [] long_trade 0 (get_pip_value "EURUSD")
    = inr closed
    /\ BacktestTrade.symbol closed = "EURUSD"
    /\ BacktestTrade.direction closed = "BUY"
    /\ BacktestTrade.entry_price closed = float64 (11 # 10)
    /\ BacktestTrade.entry_time closed = 0%Z
    /\ BacktestTrade.stop_loss closed = float64 (1095 # 1000)
    /\ BacktestTrade.rr_ratio closed = 0.
Proof.
  eexists. split; [vm_compute; reflexivity |].
  apply (simulate_trade_exit_frame default_config rising_pair [] long_trade 0
                                   (get_pip_value "EURUSD")).
  vm_compute. reflexivity.
Defined.

Lemma stop_check_total trade gold pip_value candle :
  ~ pip_value == 0 -> exists r, stop_check trade gold pip_value candle = inr r.
Proof.
  intro Hpip. unfold stop_check.
  repeat match goal with
         | |- context [if ?b then _ else _] => destruct b
         end;
    try rewrite fdiv_total by assumption; simpl; eexists; reflexivity.
Qed.

Lemma daily_check_total cfg df_daily trade entry_bar_idx pip_value i candle :
  ~ pip_value == 0 ->
  exists r, daily_check cfg df_daily trade entry_bar_idx pip_value i candle = inr r.
Proof.
  intro Hpip. unfold daily_check.
  destruct (_ && _)%bool; [| eexists; reflexivity].
  destruct (len _ >=? 5)%Z; [| eexists; reflexivity].
  set (daily_subset := calculate_emas _ (EMA_FAST_PERIODS cfg)).
  assert (Hcols : has_ema_columns (EMA_FAST_PERIODS cfg) daily_subset)
    by apply calculate_emas_has_columns.
  destruct (BacktestTrade.direction trade =? "BUY").
  - destruct (are_emas_stacked_total cfg daily_subset "long" (-1) Hcols) as [b1 ->].
    destruct (are_emas_stacked_total cfg daily_subset "long" (-2) Hcols) as [b2 Hb2].
    simpl. destruct b1; simpl; [eexists; reflexivity |].
    rewrite Hb2. simpl. destruct b2; [| eexists; reflexivity].
    rewrite fdiv_total by assumption. simpl. eexists; reflexivity.
  - destruct (BacktestTrade.direction trade =? "SELL"); [| eexists; reflexivity].
    destruct (are_emas_stacked_total cfg daily_subset "short" (-1) Hcols) as [b1 ->].
    destruct (are_emas_stacked_total cfg daily_subset "short" (-2) Hcols) as [b2 Hb2].
    simpl. destruct b1; simpl; [eexists; reflexivity |].
    rewrite Hb2. simpl. destruct b2; [| eexists; reflexivity].
    rewrite fdiv_total by assumption. simpl. eexists; reflexivity.
Qed.

Lemma exit_at_total cfg df_30m df_daily trade gold entry_bar_idx pip_value i :
  ~ pip_value == 0 -> (- len df_30m <= i < len df_30m)%Z ->
  exists r, exit_at cfg df_30m df_daily trade gold entry_bar_idx pip_value i = inr r.
Proof.
  intros Hpip Hi. unfold exit_at.
  destruct (iloc_in_range df_30m i) as [candle ->]; [lia |]. simpl.
  destruct (stop_check_total trade gold pip_value candle Hpip) as [[stopped |] ->];
    simpl; [eexists; reflexivity |].
  apply daily_check_total. exact Hpip.
Qed.

Lemma scan_forward_total cfg df_30m df_daily trade gold entry_bar_idx pip_value :
  ~ pip_value == 0 ->
  forall bars, (forall i, In i bars -> (- len df_30m <= i < len df_30m)%Z) ->
  exists r, scan_forward cfg df_30m df_daily trade gold entry_bar_idx pip_value
                         bars = inr r.
Proof.
  intro Hpip. induction bars as [| i bars IH]; intro Hbars; simpl.
  - eexists; reflexivity.
  - destruct (exit_at_total cfg df_30m df_daily trade gold entry_bar_idx
                            pip_value i Hpip) as [[found |] ->];
      [apply Hbars; now left | simpl; eexists; reflexivity |].
    simpl. apply IH. intros j Hj. apply Hbars. now right.
Qed.

Lemma max_hold_exit_total df_30m trade entry_bar_idx pip_value :
  ~ pip_value == 0 -> (- len df_30m <= entry_bar_idx < len df_30m)%Z ->
  exists closed,
    max_hold_exit df_30m trade (Z.min (len df_30m) (entry_bar_idx + 960)) pip_value
    = inr closed.
Proof.
  intros Hpip Hentry. unfold max_hold_exit.
  assert (Hlast : exists last_candle,
    (if (Z.min (len df_30m) (entry_bar_idx + 960) <? len df_30m)%Z
     then iloc df_30m (Z.min (len df_30m) (entry_bar_idx + 960) - 1)
     else iloc df_30m (-1)) = inr last_candle).
  { destruct (_ <? _)%Z; apply iloc_in_range; lia. }
  destruct Hlast as [last_candle ->]. simpl.
  destruct (BacktestTrade.direction trade =? "BUY");
    rewrite fdiv_total by assumption; simpl; eexists; reflexivity.
Qed.

(** C2: from an entry index that is in range for a 30M frame (which is then
    not empty), with any daily frame and any trade record, and for the
    nonzero pip value of an instrument, [simulate_trade_exit] returns a
    trade.  Its loop visits at most 959 bars, the trade is closed on a bar
    at most 959 indices after the entry index, and its result is WIN or
    LOSS. *)
Theorem simulate_trade_exit_resolves cfg df_30m df_daily trade entry_bar_idx
        pip_value :
  (- len df_30m <= entry_bar_idx < len df_30m)%Z ->
  ~ pip_value == 0 ->
  (List.length (forward_bars df_30m entry_bar_idx) <= 959)%nat
  /\ exists closed,
       simulate_trade_exit cfg df_30m df_daily trade entry_bar_idx pip_value
       = inr closed
       /\ (BacktestTrade.result closed = "WIN"
           \/ BacktestTrade.result closed = "LOSS")
       /\ exists j exit_bar,
            (entry_bar_idx <= j <= entry_bar_idx + 959)%Z
            /\ iloc df_30m j = inr exit_bar
            /\ BacktestTrade.exit_time closed = Some (time exit_bar).
Proof.
  intros Hentry Hpip. split; [apply forward_bars_length |].
  assert (Hreturns : exists closed,
    simulate_trade_exit cfg df_30m df_daily trade entry_bar_idx pip_value
    = inr closed).
  { unfold simulate_trade_exit.
    destruct (scan_forward_total cfg df_30m df_daily trade
                (is_gold (BacktestTrade.symbol trade)) entry_bar_idx pip_value Hpip
                (forward_bars df_30m entry_bar_idx)) as [[found |] ->].
    - intros i Hi. apply forward_bars_bounds in Hi. lia.
    - simpl. eexists; reflexivity.
    - simpl. apply max_hold_exit_total; assumption. }
  destruct Hreturns as [closed Hclosed]. exists closed. split; [exact Hclosed |].
  apply simulate_trade_exit_closes in Hclosed.
  destruct Hclosed as (_ & j & candle & Hj & Hwhere & px & pnl & res & reason
                       & -> & Hres & _).
  split; [exact Hres |]. exists j, candle. split; [| split; [exact Hj | reflexivity]].
  destruct Hwhere as [Hin | ->]; [apply forward_bars_bounds in Hin |]; lia.
Qed.

Lemma simulate_trade_exit_resolves_witness :
  (List.length (forward_bars rising_pair 0) <= 959)%nat
  /\ exists closed,
       simulate_trade_exit default_config rising_pair [] long_trade 0 (get_pip_value "EURUSD")
       = inr closed
       /\ (BacktestTrade.result closed = "WIN"
           \/ BacktestTrade.result closed = "LOSS")
       /\ exists j exit_bar,
            (0 <= j <= 0 + 959)%Z
            /\ iloc rising_pair j = inr exit_bar
            /\ BacktestTrade.exit_time closed = Some (time exit_bar).
Proof.
  apply (simulate_trade_exit_resolves default_config rising_pair [] long_trade 0
                                      (get_pip_value "EURUSD")).
  - vm_compute. split; [discriminate | reflexivity].
  - intro H. vm_compute in H. discriminate H.
Defined.

(** The pip value [backtest_symbol] passes on is never zero. *)
Lemma get_pip_value_nonzero symbol : ~ get_pip_value symbol == 0.
Proof.
  unfold get_pip_value.
  destruct (contains "JPY" (upper symbol));
    [| destruct (contains "XAU" (upper symbol) || contains "GOLD" (upper symbol))];
    intro H; vm_compute in H; discriminate H.
Qed.

Lemma set_risk_reward_ok trade pip_value final :
  let risk := Qabs (fsub (BacktestTrade.entry_price trade)
                         (BacktestTrade.stop_loss trade)) in
  set_risk_reward trade pip_value = inr final ->
  (risk == 0 /\ final = BacktestTrade.set_rr_ratio trade 0)
  \/ (~ risk == 0
      /\ final = BacktestTrade.set_rr_ratio trade
                   (fquot (fmul (BacktestTrade.pnl_pips trade) pip_value) risk)).
Proof.
  intro risk. unfold set_risk_reward. fold risk.
  intro H. destruct (fgt risk 0) eqn:E.
  - right. exc_inv H. apply fdiv_ok in Ha. destruct Ha as [Hrisk ->].
    injection H as <-. auto.
  - left. injection H as <-. split; [| reflexivity].
    apply fgt_false in E. pose proof (Qabs_nonneg
      (fsub (BacktestTrade.entry_price trade) (BacktestTrade.stop_loss trade)))
      as Hpos.
    fold risk in Hpos. lra.
Qed.

(** C5, as the code has it: after [simulate_trade_exit] and the
    risk:reward step of [backtest_symbol], the profit in pips is
    (exit - entry) / pip for a BUY and (entry - exit) / pip for a SELL, and
    the risk:reward ratio is the profit times the pip over |entry - stop|,
    or 0 when that distance is zero (as it is when entry and stop are
    equal), every operation rounded as binary64 rounds it.  A BUY entered at 1.1000 with stop 1.0950 and pip 0.0001 that
    exits at 1.1100 has profit 100 + 3 * 2^-45 (100.00000000000009) and
    ratio 2 - 25 * 2^-49 (1.9999999999999556). *)
Theorem pnl_and_risk_reward cfg df_30m df_daily trade entry_bar_idx pip_value
        closed final :
  simulate_trade_exit cfg df_30m df_daily trade entry_bar_idx pip_value
  = inr closed ->
  set_risk_reward closed pip_value = inr final ->
  let entry := BacktestTrade.entry_price final in
  let stop := BacktestTrade.stop_loss final in
  let exit := BacktestTrade.exit_price final in
  let risk := Qabs (fsub entry stop) in
  (BacktestTrade.direction final = "BUY" ->
   BacktestTrade.pnl_pips final = fquot (fsub exit entry) pip_value)
  /\ (BacktestTrade.direction final = "SELL" ->
      BacktestTrade.pnl_pips final = fquot (fsub entry exit) pip_value)
  /\ (~ risk == 0 ->
      BacktestTrade.rr_ratio final
      = fquot (fmul (BacktestTrade.pnl_pips final) pip_value) risk)
  /\ (risk == 0 -> BacktestTrade.rr_ratio final = 0)
  /\ (entry == stop -> BacktestTrade.rr_ratio final = 0)
  /\ (BacktestTrade.direction final = "BUY" ->
      entry == float64 (11 # 10) -> stop == float64 (1095 # 1000) ->
      pip_value == float64 (1 # 10000) -> exit == float64 (111 # 100) ->
      BacktestTrade.pnl_pips final == 100 + 3 * 2 ^ (-45)
      /\ BacktestTrade.rr_ratio final == 2 - 25 * 2 ^ (-49)).
Proof.
  intros Hsim Hrr entry stop exit risk.
  apply simulate_trade_exit_closes in Hsim.
  destruct Hsim as (_ & j & candle & _ & _ & px & pnl & res & reason
                    & Hclosed & _ & Hbuy & Hsell).
  apply set_risk_reward_ok in Hrr.
  assert (Hpnl : BacktestTrade.pnl_pips final = pnl)
    by (destruct Hrr as [[_ ->] | [_ ->]]; subst closed; reflexivity).
  assert (Hdir : BacktestTrade.direction final = BacktestTrade.direction trade)
    by (destruct Hrr as [[_ ->] | [_ ->]]; subst closed; reflexivity).
  assert (Hentry : entry = BacktestTrade.entry_price trade)
    by (subst entry; destruct Hrr as [[_ ->] | [_ ->]]; subst closed; reflexivity).
  assert (Hexit : exit = px)
    by (subst exit; destruct Hrr as [[_ ->] | [_ ->]]; subst closed; reflexivity).
  assert (Hrisk : Qabs (fsub (BacktestTrade.entry_price closed)
                             (BacktestTrade.stop_loss closed)) = risk)
    by (subst risk entry stop; destruct Hrr as [[_ ->] | [_ ->]]; reflexivity).
  rewrite Hrisk in Hrr.
  assert (Hlong : BacktestTrade.direction final = "BUY" ->
                  BacktestTrade.pnl_pips final = fquot (fsub exit entry) pip_value).
  { intro Hd. rewrite Hpnl, Hexit, Hentry. apply Hbuy. congruence. }
  assert (Hratio : ~ risk == 0 ->
                   BacktestTrade.rr_ratio final
                   = fquot (fmul (BacktestTrade.pnl_pips final) pip_value) risk).
  { intro Hnz. destruct Hrr as [[Hz _] | [_ Hfinal]]; [contradiction |].
    rewrite Hpnl. rewrite Hfinal. cbn [BacktestTrade.rr_ratio BacktestTrade.set_rr_ratio].
    subst closed. reflexivity. }
  split; [exact Hlong |]. split.
  { intro Hd. rewrite Hpnl, Hexit, Hentry. apply Hsell. congruence. }
  split; [exact Hratio |].
  assert (Hzero : risk == 0 -> BacktestTrade.rr_ratio final = 0).
  { intro Hz. destruct Hrr as [[_ ->] | [Hnz _]]; [reflexivity | contradiction]. }
  split; [exact Hzero |]. split.
  { intro Hsame. apply Hzero. unfold risk. now rewrite (fsub_same _ _ Hsame). }
  intros Hd Hen Hst Hpip Hex.
  assert (Epnl : BacktestTrade.pnl_pips final
                 = fquot (fsub (float64 (111 # 100)) (float64 (11 # 10)))
                         (float64 (1 # 10000))).
  { rewrite (Hlong Hd). apply fquot_comp; [| exact Hpip].
    rewrite (fsub_comp _ _ _ _ Hex Hen). reflexivity. }
  assert (Erisk : risk == Qabs (fsub (float64 (11 # 10)) (float64 (1095 # 1000)))).
  { unfold risk. rewrite (fsub_comp _ _ _ _ Hen Hst). reflexivity. }
  split.
  - rewrite Epnl. vm_compute. reflexivity.
  - rewrite Hratio.
    + rewrite (fquot_comp _ _ _ _ (Qeq_refl _) Erisk).
      assert (Emul : fmul (BacktestTrade.pnl_pips final) pip_value
                     = fmul (fquot (fsub (float64 (111 # 100)) (float64 (11 # 10)))
                                   (float64 (1 # 10000)))
                            (float64 (1 # 10000))).
      { apply fmul_comp; [rewrite Epnl; reflexivity | exact Hpip]. }
      rewrite Emul. vm_compute. reflexivity.
    + rewrite Erisk. intro H. vm_compute in H. discriminate H.
Qed.

Lemma pnl_and_risk_reward_witness :
  exists closed final,
    simulate_trade_exit default_config rising_pair [] long_trade 0
                        (get_pip_value "EURUSD")
    = inr closed
    /\ set_risk_reward closed (get_pip_value "EURUSD") = inr final
    /\ BacktestTrade.exit_price final == float64 (111 # 100)
    /\ BacktestTrade.pnl_pips final == 100 + 3 * 2 ^ (-45)
    /\ BacktestTrade.rr_ratio final == 2 - 25 * 2 ^ (-49).
Proof.
  eexists. eexists.
  split; [vm_compute; reflexivity |]. split; [vm_compute; reflexivity |].
  split; [vm_compute; reflexivity |].
  pose proof (pnl_and_risk_reward default_config rising_pair [] long_trade 0
                (get_pip_value "EURUSD") _ _
                ltac:(vm_compute; reflexivity) ltac:(vm_compute; reflexivity))
    as Hscenario.
  cbv zeta in Hscenario.
  destruct Hscenario as (_ & _ & _ & _ & _ & Hscenario).
  apply Hscenario; vm_compute; reflexivity.
Defined.

(** C5, as stated, fails: in the scenario itself, with the four numbers
    the floats nearest to 1.1000, 1.0950, 1.1100 and 0.0001, the profit is
    neither the exact quotient (exit - entry) / pip nor 100, and the ratio
    is not 2. *)
Lemma scenario_is_not_exact :
  exists closed final,
    simulate_trade_exit default_config rising_pair [] long_trade 0
                        (get_pip_value "EURUSD")
    = inr closed
    /\ set_risk_reward closed (get_pip_value "EURUSD") = inr final
    /\ BacktestTrade.direction final = "BUY"
    /\ BacktestTrade.entry_price final = float64 (11 # 10)
    /\ BacktestTrade.stop_loss final = float64 (1095 # 1000)
    /\ BacktestTrade.exit_price final = float64 (111 # 100)
    /\ get_pip_value "EURUSD" = float64 (1 # 10000)
    /\ ~ BacktestTrade.pnl_pips final
          == (BacktestTrade.exit_price final - BacktestTrade.entry_price final)
             / get_pip_value "EURUSD"
    /\ ~ BacktestTrade.pnl_pips final == 100
    /\ ~ BacktestTrade.rr_ratio final == 2.
Proof.
  eexists. eexists.
  split; [vm_compute; reflexivity |]. split; [vm_compute; reflexivity |].
  repeat (split; [vm_compute; reflexivity |]).
  split; [| split]; intro H; vm_compute in H; discriminate H.
Qed.

(** ** Sliding scan and deduplication *)

Lemma key_eqb_true k1 k2 :
  key_eqb k1 k2 = true <->
  fst (fst k1) = fst (fst k2) /\ snd (fst k1) == snd (fst k2) /\ snd k1 = snd k2.
Proof.
  destruct k1 as [[t1 p1] d1], k2 as [[t2 p2] d2]. simpl.
  rewrite !andb_true_iff, Z.eqb_eq, feq_true, String.eqb_eq. tauto.
Qed.

Lemma key_eqb_refl k : key_eqb k k = true.
Proof. apply key_eqb_true. repeat split; reflexivity. Qed.

Lemma key_eqb_sym k1 k2 : key_eqb k1 k2 = key_eqb k2 k1.
Proof.
  apply eq_true_iff_eq. rewrite !key_eqb_true.
  split; intros (Ht & Hp & Hd); repeat split; auto; now symmetry.
Qed.

Lemma key_eqb_compat k1 k2 k :
  key_eqb k1 k2 = true -> key_eqb k1 k = key_eqb k2 k.
Proof.
  intro H. apply key_eqb_true in H. destruct H as (Ht & Hp & Hd).
  apply eq_true_iff_eq. rewrite !key_eqb_true.
  split; intros (Ht' & Hp' & Hd'); repeat split; try congruence.
  - rewrite <- Hp. exact Hp'.
  - rewrite Hp. exact Hp'.
Qed.

Lemma key_in_compat k1 k2 seen :
  key_eqb k1 k2 = true -> key_in k1 seen = key_in k2 seen.
Proof.
  intro H. unfold key_in. induction seen as [| k seen IH]; simpl; [reflexivity |].
  now rewrite IH, (key_eqb_compat _ _ k H).
Qed.

Lemma count_key_snoc k recorded trade :
  count_key k (recorded ++ [trade])
  = (count_key k recorded + if key_eqb k (trade_key trade) then 1 else 0)%nat.
Proof.
  unfold count_key. rewrite filter_app, length_app. simpl.
  now destruct (key_eqb k (trade_key trade)).
Qed.

Lemma count_key_hit k : forall recorded j trade,
  nth_error recorded j = Some trade -> key_eqb k (trade_key trade) = true ->
  (1 <= count_key k recorded)%nat.
Proof.
  unfold count_key.
  induction recorded as [| t recorded IH]; intros [| j] trade Hj Hk;
    simpl in Hj; try discriminate.
  - injection Hj as ->. simpl. rewrite Hk. simpl. lia.
  - simpl. specialize (IH _ _ Hj Hk). destruct (key_eqb k (trade_key t)); simpl; lia.
Qed.

Lemma count_key_two_hits k : forall recorded i j t1 t2,
  (i < j)%nat ->
  nth_error recorded i = Some t1 -> nth_error recorded j = Some t2 ->
  key_eqb k (trade_key t1) = true -> key_eqb k (trade_key t2) = true ->
  (2 <= count_key k recorded)%nat.
Proof.
  induction recorded as [| t recorded IH]; intros i j t1 t2 Hij H1 H2 Hk1 Hk2.
  - destruct i; discriminate.
  - destruct j as [| j]; [lia |]. simpl in H2.
    destruct i as [| i]; simpl in H1.
    + injection H1 as ->. pose proof (count_key_hit k _ _ _ H2 Hk2) as Hhit.
      unfold count_key in *. simpl. rewrite Hk1. simpl. lia.
    + assert (Hrec : (2 <= count_key k recorded)%nat)
        by (eapply (IH i j); eauto; lia).
      unfold count_key in *. simpl.
      destruct (key_eqb k (trade_key t)); simpl; lia.
Qed.

(** The invariant of the sliding scan: a key has exactly one recorded trade
    when it is in [seen_entry_times], and none otherwise. *)
Lemma scan_window_step cfg df_30m df_daily symbol pip_value st start_idx st' :
  scan_window cfg df_30m df_daily symbol pip_value st start_idx = inr st' ->
  (forall k, count_key k (trades st)
             = if key_in k (seen_entry_times st) then 1%nat else 0%nat) ->
  (last_trade_idx st + 10 <= start_idx)%Z ->
  (forall k, count_key k (trades st')
             = if key_in k (seen_entry_times st') then 1%nat else 0%nat)
  /\ (forall k, key_in k (seen_entry_times st) = true ->
                key_in k (seen_entry_times st') = true)
  /\ (last_trade_idx st' <= start_idx)%Z
  /\ (forall signal,
        validate_trident_pattern cfg (slice df_30m start_idx (start_idx + window_size))
                                 symbol true = inr (Some signal) ->
        key_in (signal_key signal) (seen_entry_times st') = true).
Proof.
  intros Hstep Hinv Hcool. unfold scan_window, ret in Hstep.
  destruct (start_idx - last_trade_idx st <? 10)%Z eqn:E;
    [apply Z.ltb_lt in E; lia |].
  exc_inv Hstep. destruct a as [signal |].
  - destruct (key_in (signal_key signal) (seen_entry_times st)) eqn:Eseen.
    + injection Hstep as <-. repeat split; auto; try lia.
      intros s Hs. rewrite Ha in Hs. injection Hs as <-. exact Eseen.
    + exc_inv Hstep. rename a into closed. exc_inv Hstep. rename a into final.
      injection Hstep as <-. simpl.
      assert (Hkey : trade_key final = signal_key signal).
      { apply simulate_trade_exit_closes in Ha0.
        destruct Ha0 as (_ & j & candle & _ & _ & px & pnl & res & reason & -> & _).
        apply set_risk_reward_ok in Ha1.
        destruct Ha1 as [[_ ->] | [_ ->]]; reflexivity. }
      repeat split.
      * intro k. rewrite count_key_snoc, Hinv, Hkey.
        unfold key_in at 2. simpl. fold (key_in k (seen_entry_times st)).
        destruct (key_eqb k (signal_key signal)) eqn:Ek; simpl.
        -- rewrite (key_in_compat _ _ _ Ek), Eseen. reflexivity.
        -- destruct (key_in k (seen_entry_times st)); reflexivity.
      * intros k Hk. unfold key_in. simpl. fold (key_in k (seen_entry_times st)).
        rewrite Hk. apply orb_true_r.
      * lia.
      * intros s Hs. rewrite Ha in Hs. injection Hs as <-.
        change (key_in (signal_key signal)
                       (signal_key signal :: seen_entry_times st) = true).
        unfold key_in. cbn [existsb]. now rewrite key_eqb_refl.
  - injection Hstep as <-. repeat split; auto; try lia.
    intros s Hs. rewrite Ha in Hs. discriminate Hs.
Qed.

Lemma scan_windows_invariant cfg df_30m df_daily symbol pip_value stop step :
  (10 <= step)%Z ->
  forall fuel start_idx st st',
    scan_windows cfg df_30m df_daily symbol pip_value st
                 (range_from fuel start_idx stop step) = inr st' ->
    (forall k, count_key k (trades st)
               = if key_in k (seen_entry_times st) then 1%nat else 0%nat) ->
    (last_trade_idx st + 10 <= start_idx)%Z ->
    (forall k, count_key k (trades st')
               = if key_in k (seen_entry_times st') then 1%nat else 0%nat)
    /\ (forall k, key_in k (seen_entry_times st) = true ->
                  key_in k (seen_entry_times st') = true)
    /\ (forall s signal,
          In s (range_from fuel start_idx stop step) ->
          validate_trident_pattern cfg (slice df_30m s (s + window_size))
                                   symbol true = inr (Some signal) ->
          key_in (signal_key signal) (seen_entry_times st') = true).
Proof.
  intro Hbig. induction fuel as [| fuel IH]; intros start_idx st st' Hrun Hinv Hcool.
  - simpl in Hrun. unfold ret in Hrun. injection Hrun as <-.
    repeat split; auto; intros s signal Hs; contradiction.
  - simpl in Hrun |- *. destruct (start_idx <? stop)%Z.
    + simpl in Hrun. exc_inv Hrun. rename a into mid.
      destruct (scan_window_step _ _ _ _ _ _ _ _ Ha Hinv Hcool)
        as (Hinv1 & Hmono1 & Hlast1 & Hsig1).
      destruct (IH _ _ _ Hrun Hinv1) as (Hinv2 & Hmono2 & Hsig2); [lia |].
      repeat split; auto.
      intros s signal [<- | Hs] Hv; [apply Hmono2; auto | eapply Hsig2; eauto].
    + simpl in Hrun. unfold ret in Hrun. injection Hrun as <-.
      repeat split; auto; intros s signal Hs; contradiction.
Qed.

(** C6: in the trade list of one [backtest_symbol] run no two trades, at
    different positions, have the same key (entry time, entry price,
    direction); and a signal that [validate_trident_pattern] returns on any
    of the sliding windows, however many of them return it, has exactly one
    trade in the list. *)
Theorem backtest_symbol_deduplicates cfg df_30m df_daily symbol recorded :
  backtest_symbol cfg df_30m df_daily symbol = inr recorded ->
  (forall i j t1 t2,
     i <> j ->
     nth_error recorded i = Some t1 -> nth_error recorded j = Some t2 ->
     key_eqb (trade_key t1) (trade_key t2) = false)
  /\ (forall start_idx signal,
        In start_idx (window_starts (enriched_30m cfg df_30m)) ->
        validate_trident_pattern
          cfg (slice (enriched_30m cfg df_30m) start_idx (start_idx + window_size))
          symbol true = inr (Some signal) ->
        count_key (signal_key signal) recorded = 1%nat).
Proof.
  unfold backtest_symbol. fold (enriched_30m cfg df_30m).
  fold (window_starts (enriched_30m cfg df_30m)).
  destruct (len df_30m =? 0)%Z eqn:Eempty.
  - intro H. injection H as <-. split.
    + intros [| i] j t1 t2 _ H1; discriminate H1.
    + intros s signal Hs. exfalso. revert Hs.
      unfold window_starts, range_step, enriched_30m, window_size.
      apply Z.eqb_eq in Eempty.
      assert (Hlen : forall periods df, len (calculate_emas df periods) = len df).
      { unfold calculate_emas. induction periods as [| p ps IHp]; intro df; simpl;
          [reflexivity |]. rewrite IHp. unfold len. f_equal.
        generalize (ewm_mean p (map close df)).
        induction df as [| r df IHd]; intros [| v vs]; simpl; auto. }
      rewrite Hlen, Eempty. simpl. auto.
  - intro H. exc_inv H. rename a into final. injection H as <-.
    unfold window_starts, range_step in *.
    apply scan_windows_invariant in Ha;
      [| now unfold window_size | intro k; reflexivity
       | unfold window_size; simpl; lia].
    destruct Ha as (Hinv & _ & Hsig).
    assert (Hone : forall k, (count_key k (trades final) <= 1)%nat).
    { intro k. rewrite Hinv. destruct (key_in k _); lia. }
    split.
    + intros i j t1 t2 Hij H1 H2.
      destruct (key_eqb (trade_key t1) (trade_key t2)) eqn:E; [| reflexivity].
      exfalso. specialize (Hone (trade_key t1)).
      assert (Htwo : (2 <= count_key (trade_key t1) (trades final))%nat).
      { destruct (Nat.lt_total i j) as [Hlt | [Heq | Hgt]]; [| contradiction |].
        - eapply (count_key_two_hits _ _ i j); eauto using key_eqb_refl.
        - eapply (count_key_two_hits _ _ j i); eauto using key_eqb_refl. }
      lia.
    + intros s signal Hs Hv. rewrite Hinv.
      now rewrite (Hsig _ _ Hs Hv).
Qed.

Lemma backtest_symbol_deduplicates_witness :
  exists recorded first_hit second_hit,
    backtest_symbol default_config straddling [] "EURUSD" = inr recorded
    /\ validate_trident_pattern
         default_config (slice (enriched_30m default_config straddling) 0 50)
         "EURUSD" true = inr (Some first_hit)
    /\ validate_trident_pattern
         default_config (slice (enriched_30m default_config straddling) 25 75)
         "EURUSD" true = inr (Some second_hit)
    /\ key_eqb (signal_key first_hit) (signal_key second_hit) = true
    /\ count_key (signal_key second_hit) recorded = 1%nat.
Proof.
  eexists. eexists. eexists.
  split; [vm_compute; reflexivity |].
  split; [vm_compute; reflexivity |].
  split; [vm_compute; reflexivity |].
  split; [vm_compute; reflexivity |].
  apply (proj2 (backtest_symbol_deduplicates default_config straddling []
                  "EURUSD" _ ltac:(vm_compute; reflexivity)) 25%Z).
  - vm_compute. right. left. reflexivity.
  - vm_compute. reflexivity.
Defined.

(** * Further properties of the code *)

(** ** Gap detector: order, coverage and the latest gap *)

Lemma fvg_at_inv cfg check_time i c1 c2 c3 f :
  fvg_at cfg check_time i c1 c2 c3 = Some f ->
  (check_time = false \/ is_in_fvg_window cfg (time c2) = true)
  /\ ((high c1 < low c3
       /\ f = FVG.mk "bullish" (low c3) (high c1) (fquot (fadd (low c3) (high c1)) 2)
                     i (i + 1) (i + 2) (time c1) (low c2) (high c2))
      \/ (low c3 <= high c1 /\ high c3 < low c1
          /\ f = FVG.mk "bearish" (low c1) (high c3) (fquot (fadd (low c1) (high c3)) 2)
                        i (i + 1) (i + 2) (time c1) (low c2) (high c2))).
Proof.
  unfold fvg_at.
  destruct (check_time && negb (is_in_fvg_window cfg (time c2))) eqn:Et;
    [discriminate |].
  intro H. split.
  - destruct check_time; [| now left]. right. simpl in Et.
    now apply negb_false_iff in Et.
  - destruct (fgt (low c3) (high c1)) eqn:Eup.
    + left. apply fgt_true in Eup. injection H as <-. auto.
    + destruct (flt (high c3) (low c1)) eqn:Edown; [| discriminate].
      right. apply fgt_false in Eup. apply flt_true in Edown.
      injection H as <-. auto.
Qed.

Lemma fvg_at_start cfg check_time i c1 c2 c3 f :
  fvg_at cfg check_time i c1 c2 c3 = Some f -> FVG.candle1_idx f = i.
Proof.
  intro H. apply fvg_at_inv in H.
  destruct H as [_ [[_ ->] | [_ [_ ->]]]]; reflexivity.
Qed.

Lemma find_fvgs_from_sorted cfg check_time : forall df i,
  StronglySorted (fun a b => (FVG.candle1_idx a < FVG.candle1_idx b)%Z)
                 (find_fvgs_from cfg check_time i df)
  /\ Forall (fun f => (i <= FVG.candle1_idx f)%Z)
            (find_fvgs_from cfg check_time i df).
Proof.
  induction df as [| c1 df IH]; intro i; [split; constructor |].
  destruct df as [| c2 [| c3 rest]]; try (split; constructor).
  destruct (IH (i + 1)%Z) as [Hsorted Hlow].
  cbn [find_fvgs_from].
  destruct (fvg_at cfg check_time i c1 c2 c3) as [f |] eqn:Ef.
  - apply fvg_at_start in Ef. split.
    + constructor; [exact Hsorted |].
      eapply Forall_impl; [| exact Hlow]. simpl. intros g Hg. lia.
    + constructor; [lia |].
      eapply Forall_impl; [| exact Hlow]. simpl. intros g Hg. lia.
  - split; [exact Hsorted |].
    eapply Forall_impl; [| exact Hlow]. simpl. intros g Hg. lia.
Qed.

Lemma find_fvgs_sorted cfg df check_time :
  StronglySorted (fun a b => (FVG.candle1_idx a < FVG.candle1_idx b)%Z)
                 (find_fvgs cfg df check_time).
Proof.
  unfold find_fvgs. destruct (len df <? 3)%Z; [constructor |].
  apply find_fvgs_from_sorted.
Qed.

Lemma sorted_starts_NoDup (l : list FVG.t) :
  StronglySorted (fun a b => (FVG.candle1_idx a < FVG.candle1_idx b)%Z) l ->
  NoDup (map FVG.candle1_idx l).
Proof.
  induction 1 as [| a l Hs IH Hall]; simpl; constructor; [| exact IH].
  intro Hin. apply in_map_iff in Hin. destruct Hin as (b & Hb & Hinb).
  rewrite Forall_forall in Hall. specialize (Hall _ Hinb). lia.
Qed.

(** A gap of the scan sits on rows of the frame. *)
Lemma find_fvgs_indices cfg df check_time f :
  In f (find_fvgs cfg df check_time) ->
  (0 <= FVG.candle1_idx f)%Z
  /\ FVG.candle2_idx f = (FVG.candle1_idx f + 1)%Z
  /\ FVG.candle3_idx f = (FVG.candle1_idx f + 2)%Z
  /\ (FVG.candle3_idx f < len df)%Z.
Proof.
  intro Hin.
  destruct (find_fvgs_origin _ _ _ _ Hin) as (k & c1 & c2 & c3 & _ & _ & H3 & Hf).
  assert (Hk : (S (S k) < List.length df)%nat)
    by (apply nth_error_Some; congruence).
  pose proof (fvg_at_start _ _ _ _ _ _ _ Hf) as Hstart.
  apply fvg_at_shape in Hf. destruct Hf as (_ & _ & _ & H2i & H3i & _).
  unfold len. lia.
Qed.

(** X1: [find_fvgs] lists the gaps in strictly ascending order of their
    first candle, so no start index carries two gaps (bullish and bearish
    never both); every gap spans three consecutive rows of the frame. *)
Theorem find_fvgs_ascending cfg df check_time :
  StronglySorted (fun a b => (FVG.candle1_idx a < FVG.candle1_idx b)%Z)
                 (find_fvgs cfg df check_time)
  /\ NoDup (map FVG.candle1_idx (find_fvgs cfg df check_time))
  /\ Forall (fun f => (0 <= FVG.candle1_idx f)%Z
                      /\ FVG.candle2_idx f = (FVG.candle1_idx f + 1)%Z
                      /\ FVG.candle3_idx f = (FVG.candle1_idx f + 2)%Z
                      /\ (FVG.candle3_idx f < len df)%Z)
            (find_fvgs cfg df check_time).
Proof.
  split; [apply find_fvgs_sorted |].
  split; [apply sorted_starts_NoDup, find_fvgs_sorted |].
  apply Forall_forall. intros f Hin. eapply find_fvgs_indices; eassumption.
Qed.

Lemma find_fvgs_from_complete cfg check_time : forall df i (k : nat) c1 c2 c3 f,
  nth_error df k = Some c1 -> nth_error df (S k) = Some c2 ->
  nth_error df (S (S k)) = Some c3 ->
  fvg_at cfg check_time (i + Z.of_nat k) c1 c2 c3 = Some f ->
  In f (find_fvgs_from cfg check_time i df).
Proof.
  induction df as [| r1 df IH]; intros i k c1 c2 c3 f H1 H2 H3 Hf.
  - destruct k; discriminate.
  - destruct df as [| r2 [| r3 rest]].
    + destruct k; simpl in H2; [discriminate | destruct k; discriminate].
    + destruct k as [| [| k]]; simpl in H3; try discriminate;
        destruct k; discriminate.
    + assert (Hrec : forall j, In f (find_fvgs_from cfg check_time j (r2 :: r3 :: rest)) ->
                               j = (i + 1)%Z ->
                               In f (find_fvgs_from cfg check_time i
                                                    (r1 :: r2 :: r3 :: rest))).
      { intros j Hin ->. cbn [find_fvgs_from].
        destruct (fvg_at cfg check_time i r1 r2 r3); [now right | exact Hin]. }
      destruct k as [| k].
      * simpl in H1, H2, H3. injection H1 as ->. injection H2 as ->.
        injection H3 as ->. cbn [find_fvgs_from].
        replace (i + Z.of_nat 0)%Z with i in Hf by lia.
        rewrite Hf. now left.
      * apply (Hrec (i + 1)%Z); [| reflexivity].
        apply (IH (i + 1)%Z k c1 c2 c3); try assumption.
        rewrite <- Hf. f_equal. lia.
Qed.

Lemma find_fvgs_complete_at cfg df check_time (k : nat) c1 c2 c3 f :
  nth_error df k = Some c1 -> nth_error df (S k) = Some c2 ->
  nth_error df (S (S k)) = Some c3 ->
  fvg_at cfg check_time (Z.of_nat k) c1 c2 c3 = Some f ->
  In f (find_fvgs cfg df check_time).
Proof.
  intros H1 H2 H3 Hf. unfold find_fvgs.
  assert (Hk : (S (S k) < List.length df)%nat)
    by (apply nth_error_Some; congruence).
  destruct (len df <? 3)%Z eqn:E; [apply Z.ltb_lt in E; unfold len in E; lia |].
  eapply (find_fvgs_from_complete _ _ df 0%Z k); eauto.
Qed.

(** A gap that starts at row [k] is the one [fvg_at] builds there. *)
Lemma find_fvgs_at_start cfg df check_time (k : nat) c1 c2 c3 f :
  nth_error df k = Some c1 -> nth_error df (S k) = Some c2 ->
  nth_error df (S (S k)) = Some c3 ->
  In f (find_fvgs cfg df check_time) -> FVG.candle1_idx f = Z.of_nat k ->
  fvg_at cfg check_time (Z.of_nat k) c1 c2 c3 = Some f.
Proof.
  intros H1 H2 H3 Hin Hidx.
  destruct (find_fvgs_origin _ _ _ _ Hin) as (k' & a & b & c & Ha & Hb & Hc & Hf).
  pose proof (fvg_at_start _ _ _ _ _ _ _ Hf) as Hstart.
  assert (k' = k) by lia. subst k'.
  congruence.
Qed.

(** X2: the scan misses nothing and invents nothing.  For three consecutive
    rows at [k], [k + 1], [k + 2] that pass the time test (or with the test
    off): if the third low is above the first high, the list holds the
    bullish gap between them; failing that, if the third high is below the
    first low, it holds the bearish gap; otherwise, and whenever the time
    test fails, no gap of the list starts at [k]. *)
Theorem find_fvgs_complete cfg df check_time (k : nat) c1 c2 c3 :
  nth_error df k = Some c1 -> nth_error df (S k) = Some c2 ->
  nth_error df (S (S k)) = Some c3 ->
  let i := Z.of_nat k in
  let timely := negb check_time || is_in_fvg_window cfg (time c2) in
  (timely = true -> high c1 < low c3 ->
   In (FVG.mk "bullish" (low c3) (high c1) (fquot (fadd (low c3) (high c1)) 2)
              i (i + 1) (i + 2) (time c1) (low c2) (high c2))
      (find_fvgs cfg df check_time))
  /\ (timely = true -> low c3 <= high c1 -> high c3 < low c1 ->
      In (FVG.mk "bearish" (low c1) (high c3) (fquot (fadd (low c1) (high c3)) 2)
                 i (i + 1) (i + 2) (time c1) (low c2) (high c2))
         (find_fvgs cfg df check_time))
  /\ (timely = false \/ (low c3 <= high c1 /\ low c1 <= high c3) ->
      forall f, In f (find_fvgs cfg df check_time) -> FVG.candle1_idx f <> i).
Proof.
  intros H1 H2 H3 i timely.
  assert (Htime : timely = true ->
                  check_time && negb (is_in_fvg_window cfg (time c2)) = false).
  { subst timely. destruct check_time; simpl; [| reflexivity].
    intros ->. reflexivity. }
  split; [| split].
  - intros Ht Hup.
    apply (find_fvgs_complete_at cfg df check_time k c1 c2 c3); try assumption.
    unfold fvg_at. rewrite (Htime Ht).
    apply fgt_true in Hup. now rewrite Hup.
  - intros Ht Hnup Hdown.
    apply (find_fvgs_complete_at cfg df check_time k c1 c2 c3); try assumption.
    unfold fvg_at. rewrite (Htime Ht).
    apply fgt_false in Hnup. apply flt_true in Hdown. now rewrite Hnup, Hdown.
  - intros Hnone f Hin Hidx.
    pose proof (find_fvgs_at_start _ _ _ _ _ _ _ _ H1 H2 H3 Hin Hidx) as Hf.
    apply fvg_at_inv in Hf. destruct Hf as [Hwin Hgap].
    destruct Hnone as [Ht | [Hnup Hndown]].
    + subst timely. destruct Hwin as [Hw | Hw]; rewrite Hw in Ht;
        [discriminate | now rewrite orb_true_r in Ht].
    + destruct Hgap as [[Hup _] | [_ [Hdown _]]]; lra.
Qed.

Lemma find_fvgs_complete_witness :
  In falling_gap (find_fvgs default_config falling_confirmation true).
Proof.
  refine (proj1 (find_fvgs_complete default_config falling_confirmation true 1
                   (nth 1 falling_confirmation (bar 0 0 0 0 0))
                   (nth 2 falling_confirmation (bar 0 0 0 0 0))
                   (nth 3 falling_confirmation (bar 0 0 0 0 0)) _ _ _) _ _).
  - vm_compute. reflexivity.
  - vm_compute. reflexivity.
  - vm_compute. reflexivity.
  - vm_compute. reflexivity.
  - apply flt_true. vm_compute. reflexivity.
Defined.

Lemma find_fvgs_from_length cfg check_time : forall df i,
  (List.length (find_fvgs_from cfg check_time i df) <= List.length df - 2)%nat.
Proof.
  induction df as [| c1 df IH]; intro i; [simpl; lia |].
  destruct df as [| c2 [| c3 rest]]; try (simpl; lia).
  specialize (IH (i + 1)%Z). cbn [find_fvgs_from].
  destruct (fvg_at cfg check_time i c1 c2 c3); simpl in *; lia.
Qed.

(** A frame of [n] rows has at most [n - 2] gaps; with fewer than three
    rows the list is empty. *)
Theorem find_fvgs_length cfg df check_time :
  (List.length (find_fvgs cfg df check_time) <= List.length df - 2)%nat
  /\ ((List.length df < 3)%nat -> find_fvgs cfg df check_time = []).
Proof.
  assert (Hle : (List.length (find_fvgs cfg df check_time)
                 <= List.length df - 2)%nat).
  { unfold find_fvgs. destruct (len df <? 3)%Z; [simpl; lia |].
    apply find_fvgs_from_length. }
  split; [exact Hle |]. intro Hshort.
  destruct (find_fvgs cfg df check_time); [reflexivity | simpl in Hle; lia].
Qed.

Lemma last_some_sorted (l : list FVG.t) :
  StronglySorted (fun a b => (FVG.candle1_idx a < FVG.candle1_idx b)%Z) l ->
  match last (map Some l) None with
  | None => l = []
  | Some f => In f l
              /\ forall g, In g l -> (FVG.candle1_idx g <= FVG.candle1_idx f)%Z
  end.
Proof.
  induction 1 as [| a l Hs IH Hall]; [reflexivity |].
  destruct l as [| b l'].
  - simpl. split; [now left |]. intros g [<- | []]. lia.
  - change (last (map Some (a :: b :: l')) None)
      with (last (map Some (b :: l')) None).
    destruct (last (map Some (b :: l')) None) as [f |]; [| discriminate].
    destruct IH as [Hin Hmax]. split; [now right |].
    intros g [<- | Hg]; [| auto].
    rewrite Forall_forall in Hall. specialize (Hall _ Hin). lia.
Qed.

Lemma sorted_filter (keep : FVG.t -> bool) (l : list FVG.t) :
  StronglySorted (fun a b => (FVG.candle1_idx a < FVG.candle1_idx b)%Z) l ->
  StronglySorted (fun a b => (FVG.candle1_idx a < FVG.candle1_idx b)%Z)
                 (filter keep l).
Proof.
  induction 1 as [| a l Hs IH Hall]; simpl; [constructor |].
  destruct (keep a); [| exact IH].
  constructor; [exact IH |].
  rewrite Forall_forall in *. intros g Hg. apply filter_In in Hg. apply Hall, Hg.
Qed.

(** X3: [find_latest_fvg] returns [None] exactly when the frame has no gap
    of the direction asked for; otherwise it returns a gap of the scan with
    that direction, and no gap of that direction starts later. *)
Theorem find_latest_fvg_spec cfg df direction check_time :
  match find_latest_fvg cfg df direction check_time with
  | None => forall g, In g (find_fvgs cfg df check_time) ->
                      FVG.direction g <> direction
  | Some f => In f (find_fvgs cfg df check_time)
              /\ FVG.direction f = direction
              /\ forall g, In g (find_fvgs cfg df check_time) ->
                           FVG.direction g = direction ->
                           (FVG.candle1_idx g <= FVG.candle1_idx f)%Z
  end.
Proof.
  unfold find_latest_fvg.
  pose proof (last_some_sorted _ (sorted_filter
    (fun f => FVG.direction f =? direction) _ (find_fvgs_sorted cfg df check_time)))
    as Hlast.
  destruct (last _ None) as [f |].
  - destruct Hlast as [Hin Hmax]. apply filter_In in Hin.
    destruct Hin as [Hin Hdir]. apply String.eqb_eq in Hdir.
    repeat split; try assumption.
    intros g Hg Hgd. apply Hmax. apply filter_In. split; [exact Hg |].
    now apply String.eqb_eq.
  - intros g Hg Hgd.
    assert (Hin : In g (filter (fun f => FVG.direction f =? direction)
                               (find_fvgs cfg df check_time))).
    { apply filter_In. split; [exact Hg | now apply String.eqb_eq]. }
    rewrite Hlast in Hin. contradiction.
Qed.

(** ** Indicators: errors, ordering and the EMA columns *)

Lemma iloc_out_of_range {A} (df : list A) (index : Z) :
  (index < - len df \/ len df <= index)%Z -> iloc df index = inl IndexError.
Proof.
  intro H. unfold iloc.
  destruct (index <? 0)%Z eqn:E;
    [apply Z.ltb_lt in E | apply Z.ltb_ge in E].
  - destruct (index + len df <? 0)%Z eqn:E2; [reflexivity |].
    apply Z.ltb_ge in E2. unfold len in *. lia.
  - destruct (index <? 0)%Z eqn:E2; [apply Z.ltb_lt in E2; lia |].
    destruct (nth_error df (Z.to_nat index)) eqn:En; [| reflexivity].
    assert (Z.to_nat index < List.length df)%nat
      by (apply nth_error_Some; congruence).
    unfold len in H. lia.
Qed.

Lemma mapM_get_ema_missing row : forall periods p,
  In p periods -> lookup_col p (ema_cols row) = None ->
  mapM (get_ema row) periods = inl KeyError.
Proof.
  induction periods as [| q periods IH]; intros p Hin Hp; [contradiction |].
  simpl. unfold get_ema at 1.
  destruct (lookup_col q (ema_cols row)) as [v |] eqn:Eq; [| reflexivity].
  destruct Hin as [-> | Hin]; [congruence |].
  simpl. now rewrite (IH _ Hin Hp).
Qed.

(** X4: [are_emas_stacked] swallows a bad index and only that: an index
    outside the frame gives [False] whatever the columns and the direction,
    while a row that lacks one of the fast EMA columns raises [KeyError]. *)
Theorem are_emas_stacked_errors cfg df direction index :
  ((index < - len df \/ len df <= index)%Z ->
   are_emas_stacked cfg df direction index = inr false)
  /\ (forall row p,
        iloc df index = inr row -> In p (EMA_FAST_PERIODS cfg) ->
        lookup_col p (ema_cols row) = None ->
        are_emas_stacked cfg df direction index = inl KeyError).
Proof.
  split.
  - intro H. unfold are_emas_stacked. now rewrite (iloc_out_of_range _ _ H).
  - intros row p Hrow Hin Hp. unfold are_emas_stacked.
    rewrite Hrow, (mapM_get_ema_missing _ _ _ Hin Hp). reflexivity.
Qed.

Lemma chain_ok_sorted (bad : Q -> Q -> bool) (R : Q -> Q -> Prop) :
  (forall a b, bad a b = false -> R a b) ->
  (forall a b c, R a b -> R b c -> R a c) ->
  forall vs, chain_ok bad vs = true -> StronglySorted R vs.
Proof.
  intros Hbad Htrans. induction vs as [| a vs IH]; intro H; [constructor |].
  destruct vs as [| b rest]; [constructor; constructor |].
  simpl in H. destruct (bad a b) eqn:E; [discriminate |].
  specialize (IH H). constructor; [exact IH |].
  constructor; [auto |].
  inversion IH as [| ? ? _ Hall]; subst.
  eapply Forall_impl; [| exact Hall]. intros c Hc. eapply Htrans; eauto.
Qed.

Lemma sorted_nth (R : Q -> Q -> Prop) : forall vs i j v w,
  StronglySorted R vs -> (i < j)%nat ->
  nth_error vs i = Some v -> nth_error vs j = Some w -> R v w.
Proof.
  induction vs as [| a vs IH]; intros i j v w Hs Hij Hi Hj.
  - destruct i; discriminate.
  - inversion Hs as [| ? ? Hs' Hall]; subst.
    destruct j as [| j]; [lia |]. simpl in Hj.
    destruct i as [| i]; simpl in Hi.
    + injection Hi as ->. rewrite Forall_forall in Hall.
      apply Hall. eapply nth_error_In; eassumption.
    + eapply (IH i j); eauto. lia.
Qed.

Lemma mapM_get_ema_nth row : forall periods vs i p,
  mapM (get_ema row) periods = inr vs -> nth_error periods i = Some p ->
  exists v, lookup_col p (ema_cols row) = Some v /\ nth_error vs i = Some v.
Proof.
  induction periods as [| q periods IH]; intros vs i p H Hi.
  - destruct i; discriminate.
  - simpl in H. exc_inv H. exc_inv H. injection H as <-.
    unfold get_ema in Ha.
    destruct (lookup_col q (ema_cols row)) as [v |] eqn:Eq; [| discriminate].
    injection Ha as <-.
    destruct i as [| i]; simpl in Hi.
    + injection Hi as <-. exists v. auto.
    + destruct (IH _ _ _ Ha0 Hi) as (w & Hw & Hn). exists w. auto.
Qed.

Lemma are_emas_stacked_true cfg df direction index :
  are_emas_stacked cfg df direction index = inr true ->
  exists row vs,
    iloc df index = inr row
    /\ mapM (get_ema row) (EMA_FAST_PERIODS cfg) = inr vs
    /\ ((direction = "long" /\ chain_ok fle vs = true)
        \/ (direction = "short" /\ chain_ok fge vs = true)).
Proof.
  unfold are_emas_stacked. intro H.
  destruct (iloc df index) as [e | row]; [discriminate |].
  exc_inv H. exists row, a. split; [reflexivity |]. split; [assumption |].
  destruct (direction =? "long") eqn:El.
  - left. apply String.eqb_eq in El. injection H as H. auto.
  - destruct (direction =? "short") eqn:Es; [| discriminate].
    right. apply String.eqb_eq in Es. injection H as H. auto.
Qed.

(** X5: stacking orders every pair of fast EMAs, not only neighbours: when
    [are_emas_stacked] is true for "long", the EMA of any period listed
    earlier is strictly above the EMA of any period listed later (the
    fastest is above the slowest); for "short" it is strictly below. *)
Theorem stacked_orders_all_pairs cfg df index :
  (are_emas_stacked cfg df "long" index = inr true ->
   exists row,
     iloc df index = inr row
     /\ forall i j p q,
          (i < j)%nat ->
          nth_error (EMA_FAST_PERIODS cfg) i = Some p ->
          nth_error (EMA_FAST_PERIODS cfg) j = Some q ->
          exists v w, lookup_col p (ema_cols row) = Some v
                      /\ lookup_col q (ema_cols row) = Some w /\ w < v)
  /\ (are_emas_stacked cfg df "short" index = inr true ->
      exists row,
        iloc df index = inr row
        /\ forall i j p q,
             (i < j)%nat ->
             nth_error (EMA_FAST_PERIODS cfg) i = Some p ->
             nth_error (EMA_FAST_PERIODS cfg) j = Some q ->
             exists v w, lookup_col p (ema_cols row) = Some v
                         /\ lookup_col q (ema_cols row) = Some w /\ v < w).
Proof.
  split; intro H; apply are_emas_stacked_true in H;
    destruct H as (row & vs & Hrow & Hvs & Hchain);
    exists row; (split; [exact Hrow |]); intros i j p q Hij Hp Hq;
    destruct (mapM_get_ema_nth _ _ _ _ _ Hvs Hp) as (v & Hv & Hvi);
    destruct (mapM_get_ema_nth _ _ _ _ _ Hvs Hq) as (w & Hw & Hwj);
    exists v, w; (split; [exact Hv |]); (split; [exact Hw |]).
  - destruct Hchain as [[_ Hc] | [Hd _]]; [| discriminate].
    apply (chain_ok_sorted fle (fun a b => b < a)) in Hc.
    + exact (sorted_nth _ _ _ _ _ _ Hc Hij Hvi Hwj).
    + intros a b Hab. now apply fle_false.
    + intros a b c Hab Hbc. lra.
  - destruct Hchain as [[Hd _] | [_ Hc]]; [discriminate |].
    apply (chain_ok_sorted fge (fun a b => a < b)) in Hc.
    + exact (sorted_nth _ _ _ _ _ _ Hc Hij Hvi Hwj).
    + intros a b Hab. now apply fge_false.
    + intros a b c Hab Hbc. lra.
Qed.

Lemma stacked_orders_all_pairs_witness :
  exists row,
    iloc falling_confirmation 5 = inr row
    /\ forall i j p q,
         (i < j)%nat ->
         nth_error (EMA_FAST_PERIODS default_config) i = Some p ->
         nth_error (EMA_FAST_PERIODS default_config) j = Some q ->
         exists v w, lookup_col p (ema_cols row) = Some v
                     /\ lookup_col q (ema_cols row) = Some w /\ w < v.
Proof.
  apply (proj1 (stacked_orders_all_pairs default_config falling_confirmation 5)).
  vm_compute. reflexivity.
Defined.

(** X6: [get_200ema_bias] never raises and answers "long", "short" or
    "neutral": "long" exactly when the row exists, carries the trend EMA and
    closes strictly above it, "short" exactly when it closes strictly below
    it; a bad index, a missing trend column and a close equal to the EMA all
    give "neutral". *)
Theorem get_200ema_bias_spec cfg df index :
  (get_200ema_bias cfg df index = "long" <->
   exists row e, iloc df index = inr row
                 /\ lookup_col (EMA_TREND_PERIOD cfg) (ema_cols row) = Some e
                 /\ e < close row)
  /\ (get_200ema_bias cfg df index = "short" <->
      exists row e, iloc df index = inr row
                    /\ lookup_col (EMA_TREND_PERIOD cfg) (ema_cols row) = Some e
                    /\ close row < e)
  /\ (get_200ema_bias cfg df index = "long"
      \/ get_200ema_bias cfg df index = "short"
      \/ get_200ema_bias cfg df index = "neutral").
Proof.
  unfold get_200ema_bias.
  destruct (iloc df index) as [err | row] eqn:Erow.
  { repeat split; try (intro H; discriminate H); auto;
      intros (r & e & Hr & _); discriminate Hr. }
  destruct (lookup_col (EMA_TREND_PERIOD cfg) (ema_cols row)) as [e |] eqn:Ee.
  2:{ repeat split; try (intro H; discriminate H); auto;
        intros (r & e & Hr & He & _); injection Hr as <-; congruence. }
  destruct (fgt (close row) e) eqn:Egt.
  - apply fgt_true in Egt. repeat split; auto.
    + intros _. exists row, e. auto.
    + intro H; discriminate H.
    + intros (r & e' & Hr & He & Hlt). injection Hr as <-.
      rewrite Ee in He. injection He as <-. lra.
  - apply fgt_false in Egt. destruct (flt (close row) e) eqn:Elt.
    + apply flt_true in Elt. repeat split; auto.
      * intro H; discriminate H.
      * intros (r & e' & Hr & He & Hgt). injection Hr as <-.
        rewrite Ee in He. injection He as <-. lra.
      * intros _. exists row, e. auto.
    + apply flt_false in Elt. repeat split; auto.
      * intro H; discriminate H.
      * intros (r & e' & Hr & He & Hgt). injection Hr as <-.
        rewrite Ee in He. injection He as <-. lra.
      * intro H; discriminate H.
      * intros (r & e' & Hr & He & Hgt). injection Hr as <-.
        rewrite Ee in He. injection He as <-. lra.
Qed.

Lemma assign_ema_nth p : forall df values i,
  nth_error (assign_ema p df values) i
  = match nth_error df i with
    | None => None
    | Some row => Some (match nth_error values i with
                        | Some v => with_ema p v row
                        | None => row
                        end)
    end.
Proof.
  induction df as [| r df IH]; intros values i.
  - destruct values; destruct i; reflexivity.
  - destruct values as [| v values].
    + simpl. destruct (nth_error (r :: df) i) eqn:E; [| reflexivity].
      now destruct i.
    + destruct i as [| i]; simpl; [reflexivity | apply IH].
Qed.

Lemma assign_ema_ohlc p : forall df values,
  map ohlc_of (assign_ema p df values) = map ohlc_of df.
Proof.
  induction df as [| r df IH]; intros [| v values]; simpl; try reflexivity.
  now rewrite IH.
Qed.

Lemma calculate_emas_ohlc : forall periods df,
  map ohlc_of (calculate_emas df periods) = map ohlc_of df.
Proof.
  unfold calculate_emas.
  induction periods as [| p periods IH]; intro df; simpl; [reflexivity |].
  now rewrite IH, assign_ema_ohlc.
Qed.

Lemma ohlc_close df1 df2 :
  map ohlc_of df1 = map ohlc_of df2 -> map close df1 = map close df2.
Proof.
  intro H.
  assert (E : forall df, map close df = map snd (map ohlc_of df)).
  { intro df. rewrite map_map. reflexivity. }
  now rewrite !E, H.
Qed.

Lemma calculate_emas_len periods df : len (calculate_emas df periods) = len df.
Proof.
  unfold len. f_equal.
  rewrite <- (length_map ohlc_of), calculate_emas_ohlc. apply length_map.
Qed.

(** X7: [calculate_emas] only adds columns: the frame keeps its length and
    every row keeps its time, open, high, low and close. *)
Theorem calculate_emas_keeps_candles df periods :
  List.length (calculate_emas df periods) = List.length df
  /\ forall i row,
       nth_error (calculate_emas df periods) i = Some row ->
       exists row0, nth_error df i = Some row0
                    /\ time row = time row0 /\ open row = open row0
                    /\ high row = high row0 /\ low row = low row0
                    /\ close row = close row0.
Proof.
  pose proof (calculate_emas_ohlc periods df) as Hmap.
  split.
  - rewrite <- (length_map ohlc_of), Hmap. apply length_map.
  - intros i row Hrow.
    assert (Hi : nth_error (map ohlc_of (calculate_emas df periods)) i
                 = Some (ohlc_of row)) by (now apply map_nth_error).
    rewrite Hmap, nth_error_map in Hi.
    destruct (nth_error df i) as [row0 |] eqn:E0; [| discriminate].
    simpl in Hi. unfold ohlc_of in Hi. injection Hi as Ht Ho Hh Hl Hc.
    exists row0. repeat split; congruence.
Qed.

Lemma period_in_cons q p periods :
  period_in q (p :: periods) = (q =? p)%nat || period_in q periods.
Proof. reflexivity. Qed.

(** The EMA columns of row [i] after [calculate_emas]. *)
Lemma calculate_emas_columns : forall periods df i row0,
  nth_error df i = Some row0 ->
  exists row,
    nth_error (calculate_emas df periods) i = Some row
    /\ forall q, lookup_col q (ema_cols row)
                 = if period_in q periods
                   then nth_error (ewm_mean q (map close df)) i
                   else lookup_col q (ema_cols row0).
Proof.
  induction periods as [| p periods IH]; intros df i row0 H0.
  - exists row0. split; [exact H0 | reflexivity].
  - set (df1 := assign_ema p df (ewm_mean p (map close df))).
    change (calculate_emas df (p :: periods)) with (calculate_emas df1 periods).
    assert (Hi : (i < List.length df)%nat) by (apply nth_error_Some; congruence).
    destruct (nth_error (ewm_mean p (map close df)) i) as [v |] eqn:Ev.
    2:{ apply nth_error_None in Ev. rewrite ewm_mean_length, length_map in Ev. lia. }
    assert (H1 : nth_error df1 i = Some (with_ema p v row0)).
    { subst df1. now rewrite assign_ema_nth, H0, Ev. }
    destruct (IH df1 i _ H1) as (row & Hrow & Hcols).
    exists row. split; [exact Hrow |]. intro q. rewrite Hcols.
    assert (Hclose : map close df1 = map close df).
    { apply ohlc_close. subst df1. apply assign_ema_ohlc. }
    rewrite Hclose, period_in_cons.
    destruct (period_in q periods); [now rewrite orb_true_r |].
    rewrite orb_false_r. cbn [with_ema ema_cols]. rewrite lookup_set_col.
    destruct (q =? p)%nat eqn:Eqp.
    + apply Nat.eqb_eq in Eqp. subst q. now rewrite Nat.eqb_refl.
    + rewrite Nat.eqb_sym, Eqp. reflexivity.
Qed.

(** X8: after [calculate_emas], the column [ema_<p>] of row [i] holds, for
    every period [p] of the call, the value at [i] of the exponential mean
    of the closes with span [p]: the first close at row 0, then
    (1 - a) * previous + a * close with a = 2 / (p + 1).  Columns of other
    periods are left as they were. *)
Theorem calculate_emas_lookup df periods i row0 :
  nth_error df i = Some row0 ->
  exists row,
    nth_error (calculate_emas df periods) i = Some row
    /\ (forall p, In p periods ->
                  lookup_col p (ema_cols row)
                  = nth_error (ewm_mean p (map close df)) i)
    /\ (forall q, ~ In q periods ->
                  lookup_col q (ema_cols row) = lookup_col q (ema_cols row0)).
Proof.
  intro H0. destruct (calculate_emas_columns periods df i row0 H0)
    as (row & Hrow & Hcols).
  exists row. split; [exact Hrow |]. split.
  - intros p Hp. rewrite Hcols.
    assert (E : period_in p periods = true).
    { apply existsb_exists. exists p. split; [exact Hp | apply Nat.eqb_refl]. }
    now rewrite E.
  - intros q Hq. rewrite Hcols.
    assert (E : period_in q periods = false).
    { apply not_true_iff_false. intro Ht. apply existsb_exists in Ht.
      destruct Ht as (p & Hp & Heq). apply Nat.eqb_eq in Heq. now subst. }
    now rewrite E.
Qed.

Lemma calculate_emas_lookup_witness :
  exists row,
    nth_error (calculate_emas rising_pair [5; 9]%nat) 1 = Some row
    /\ (forall p, In p [5; 9]%nat ->
                  lookup_col p (ema_cols row)
                  = nth_error (ewm_mean p (map close rising_pair)) 1)
    /\ (forall q, ~ In q [5; 9]%nat ->
                  lookup_col q (ema_cols row)
                  = lookup_col q (ema_cols (bar 1800 (11 # 10) (111 # 100)
                                                (11 # 10) (111 # 100)))).
Proof.
  apply (calculate_emas_lookup rising_pair [5; 9]%nat 1).
  reflexivity.
Defined.

Lemma set_col_same p v : forall cols,
  lookup_col p cols = Some v -> set_col p v cols = cols.
Proof.
  induction cols as [| [k w] cols IH]; simpl; [discriminate |].
  destruct (k =? p)%nat; intro H.
  - now injection H as ->.
  - now rewrite IH.
Qed.

Lemma assign_ema_same p : forall df values,
  (forall i row, nth_error df i = Some row ->
                 lookup_col p (ema_cols row) = nth_error values i) ->
  assign_ema p df values = df.
Proof.
  induction df as [| r df IH]; intros values H; [now destruct values |].
  destruct values as [| v values].
  - reflexivity.
  - simpl. f_equal.
    + specialize (H 0%nat r eq_refl). simpl in H.
      unfold with_ema. rewrite (set_col_same _ _ _ H). now destruct r.
    + apply IH. intros i row Hi. exact (H (S i) row Hi).
Qed.

(** [calculate_emas] is idempotent: running it again with the same
    periods on its own result changes nothing. *)
Theorem calculate_emas_idempotent df periods :
  calculate_emas (calculate_emas df periods) periods = calculate_emas df periods.
Proof.
  set (done := calculate_emas df periods).
  assert (Hstep : forall p, In p periods ->
                  assign_ema p done (ewm_mean p (map close done)) = done).
  { intros p Hp. apply assign_ema_same. intros i row Hrow.
    assert (Hclose : map close done = map close df)
      by (apply ohlc_close, calculate_emas_ohlc).
    rewrite Hclose.
    destruct (nth_error df i) as [row0 |] eqn:E0.
    - destruct (calculate_emas_columns periods df i row0 E0) as (r & Hr & Hcols).
      fold done in Hr. rewrite Hrow in Hr. injection Hr as <-.
      rewrite Hcols.
      assert (E : period_in p periods = true).
      { apply existsb_exists. exists p. split; [exact Hp | apply Nat.eqb_refl]. }
      now rewrite E.
    - exfalso. apply nth_error_None in E0.
      assert (i < List.length done)%nat by (apply nth_error_Some; congruence).
      assert (List.length done = List.length df).
      { subst done. rewrite <- (length_map ohlc_of), calculate_emas_ohlc.
        apply length_map. }
      lia. }
  clearbody done. unfold calculate_emas.
  induction periods as [| p periods IH]; simpl; [reflexivity |].
  rewrite Hstep by now left. apply IH. intros q Hq. apply Hstep. now right.
Qed.

(** ** Pattern validator: what a returned signal guarantees *)

Lemma accept_bullish_gates cfg df symbol check_time fvg doji_idx confirm_idx
      confirm_candle signal :
  accept_bullish cfg df symbol check_time fvg doji_idx confirm_idx confirm_candle
  = inr (Some signal) ->
  are_emas_stacked cfg df "long" confirm_idx = inr true
  /\ get_200ema_bias cfg df confirm_idx = "long"
  /\ (check_time = true -> is_in_kill_zone cfg (time confirm_candle) = true).
Proof.
  unfold accept_bullish. intro H. exc_inv H.
  destruct a; [| discriminate]. simpl in H.
  destruct (get_200ema_bias cfg df confirm_idx =? "long") eqn:Eb; [| discriminate].
  apply String.eqb_eq in Eb. simpl in H.
  destruct check_time; simpl in H.
  - destruct (is_in_kill_zone cfg (time confirm_candle)); [| discriminate]. auto.
  - repeat split; auto. discriminate.
Qed.

Lemma accept_bearish_gates cfg df symbol check_time fvg doji_idx confirm_idx
      confirm_candle signal :
  accept_bearish cfg df symbol check_time fvg doji_idx confirm_idx confirm_candle
  = inr (Some signal) ->
  are_emas_stacked cfg df "short" confirm_idx = inr true
  /\ get_200ema_bias cfg df confirm_idx = "short"
  /\ (check_time = true -> is_in_kill_zone cfg (time confirm_candle) = true).
Proof.
  unfold accept_bearish. intro H. exc_inv H.
  destruct a; [| discriminate]. simpl in H.
  destruct (get_200ema_bias cfg df confirm_idx =? "short") eqn:Eb; [| discriminate].
  apply String.eqb_eq in Eb. simpl in H.
  destruct check_time; simpl in H.
  - destruct (is_in_kill_zone cfg (time confirm_candle)); [| discriminate]. auto.
  - repeat split; auto. discriminate.
Qed.

(** Every test an accepted candidate has passed. *)
Lemma check_candidate_gates cfg df symbol check_time fvg signal :
  check_candidate cfg df symbol check_time fvg = inr (Some signal) ->
  exists doji_candle confirm_candle,
    iloc df (FVG.candle3_idx fvg + 1) = inr doji_candle
    /\ iloc df (FVG.candle3_idx fvg + 2) = inr confirm_candle
    /\ is_doji cfg doji_candle None = inr true
    /\ (check_time = true -> is_in_kill_zone cfg (time confirm_candle) = true)
    /\ ((FVG.direction fvg = "bullish"
         /\ low doji_candle <= FVG.midpoint fvg
         /\ close confirm_candle <= high doji_candle
         /\ are_emas_stacked cfg df "long" (FVG.candle3_idx fvg + 2) = inr true
         /\ get_200ema_bias cfg df (FVG.candle3_idx fvg + 2) = "long")
        \/ (FVG.direction fvg = "bearish"
            /\ FVG.midpoint fvg <= high doji_candle
            /\ low doji_candle <= close confirm_candle
            /\ are_emas_stacked cfg df "short" (FVG.candle3_idx fvg + 2) = inr true
            /\ get_200ema_bias cfg df (FVG.candle3_idx fvg + 2) = "short")).
Proof.
  unfold check_candidate.
  destruct (FVG.candle3_idx fvg + 2 >=? len df)%Z; [discriminate |].
  intro H. exc_inv H. rename a into doji_candle.
  exc_inv H. rename a into confirm_candle. exc_inv H.
  destruct a; [| discriminate]. simpl in H.
  exists doji_candle, confirm_candle.
  split; [assumption |]. split; [assumption |]. split; [assumption |].
  destruct (FVG.direction fvg =? "bullish") eqn:Ebull.
  - apply String.eqb_eq in Ebull.
    destruct (fgt (low doji_candle) (FVG.midpoint fvg)) eqn:Ewick; [discriminate |].
    apply fgt_false in Ewick.
    unfold confirm_bullish in H. exc_inv H.
    destruct (fgt (close confirm_candle) (high doji_candle)) eqn:Ec; [discriminate |].
    apply fgt_false in Ec. apply accept_bullish_gates in H.
    destruct H as (Hs & Hb & Hk). split; [exact Hk |]. left. auto.
  - destruct (FVG.direction fvg =? "bearish") eqn:Ebear; [| discriminate].
    apply String.eqb_eq in Ebear.
    destruct (flt (high doji_candle) (FVG.midpoint fvg)) eqn:Ewick; [discriminate |].
    apply flt_false in Ewick.
    unfold confirm_bearish in H.
    destruct (flt (close confirm_candle) (low doji_candle)) eqn:Ec; [discriminate |].
    apply flt_false in Ec. apply accept_bearish_gates in H.
    destruct H as (Hs & Hb & Hk). split; [exact Hk |]. right. auto.
Qed.

(** X9: the shape of a returned signal.  Its gap is one of [find_fvgs]; the
    doji and the confirmation are the two rows right after the gap, inside
    the frame, so the confirmation index is at least 4; it carries the
    symbol asked for, the time of the confirmation candle, BUY for a bullish
    gap and SELL for a bearish one; and [use_hard_sl] is false only for
    XAUUSD/GOLD with [GOLD_USE_HARD_SL] off. *)
Theorem signal_shape cfg df symbol check_time signal :
  validate_trident_pattern cfg df symbol check_time = inr (Some signal) ->
  let gap := TradeSignal.fvg signal in
  In gap (find_fvgs cfg df check_time)
  /\ TradeSignal.symbol signal = symbol
  /\ TradeSignal.doji_idx signal = (FVG.candle3_idx gap + 1)%Z
  /\ TradeSignal.confirmation_idx signal = (FVG.candle3_idx gap + 2)%Z
  /\ (4 <= TradeSignal.confirmation_idx signal < len df)%Z
  /\ (exists confirm_candle,
        iloc df (TradeSignal.confirmation_idx signal) = inr confirm_candle
        /\ TradeSignal.signal_time signal = time confirm_candle)
  /\ ((FVG.direction gap = "bullish" /\ TradeSignal.direction signal = "BUY")
      \/ (FVG.direction gap = "bearish" /\ TradeSignal.direction signal = "SELL"))
  /\ TradeSignal.use_hard_sl signal
     = negb (is_gold symbol) || GOLD_USE_HARD_SL cfg.
Proof.
  intros H gap. subst gap.
  destruct (validate_trident_pattern_origin _ _ _ _ _ H) as (fvg & Hin & Hcand).
  destruct (find_fvgs_indices _ _ _ _ Hin) as (H0 & _ & H3 & _).
  destruct (check_candidate_signal _ _ _ _ _ _ Hcand)
    as (confirm_candle & Hconfirm & Hlen & Hsig).
  destruct Hsig as [[Hdir ->] | [Hdir ->]]; simpl;
    (split; [exact Hin |]); (split; [reflexivity |]);
    (split; [reflexivity |]); (split; [reflexivity |]);
    (split; [lia |]);
    (split; [exists confirm_candle; split; [exact Hconfirm | reflexivity] |]);
    (split; [| reflexivity]); auto.
Qed.

Lemma signal_shape_witness :
  exists signal,
    validate_trident_pattern default_config falling_confirmation "XAUUSD" true
    = inr (Some signal)
    /\ TradeSignal.confirmation_idx signal = 5%Z
    /\ TradeSignal.use_hard_sl signal = false.
Proof.
  eexists. split; [vm_compute; reflexivity |].
  pose proof (signal_shape default_config falling_confirmation "XAUUSD" true _
                           ltac:(vm_compute; reflexivity)) as H.
  cbv zeta in H. destruct H as (_ & _ & _ & Hidx & _ & _ & _ & Hsl).
  split; [exact Hidx | exact Hsl].
Defined.

(** X10: a signal is returned only when every gate of the pattern holds on
    the rows after its gap: the first is a doji that reaches the midpoint
    of the gap, the second closes within the doji's range on the trade side,
    the fast EMAs are stacked in the direction of the trade and the close
    is on that side of the trend EMA at the confirmation row; with
    [check_time] the confirmation is inside the kill zone and the gap was
    formed inside the gap window. *)
Theorem signal_gates cfg df symbol check_time signal :
  validate_trident_pattern cfg df symbol check_time = inr (Some signal) ->
  let gap := TradeSignal.fvg signal in
  let confirm_idx := TradeSignal.confirmation_idx signal in
  exists impulse_candle doji_candle confirm_candle,
    iloc df (FVG.candle2_idx gap) = inr impulse_candle
    /\ iloc df (TradeSignal.doji_idx signal) = inr doji_candle
    /\ iloc df confirm_idx = inr confirm_candle
    /\ is_doji cfg doji_candle None = inr true
    /\ (check_time = true ->
        is_in_fvg_window cfg (time impulse_candle) = true
        /\ is_in_kill_zone cfg (TradeSignal.signal_time signal) = true)
    /\ ((TradeSignal.direction signal = "BUY"
         /\ low doji_candle <= FVG.midpoint gap
         /\ close confirm_candle <= high doji_candle
         /\ are_emas_stacked cfg df "long" confirm_idx = inr true
         /\ get_200ema_bias cfg df confirm_idx = "long")
        \/ (TradeSignal.direction signal = "SELL"
            /\ FVG.midpoint gap <= high doji_candle
            /\ low doji_candle <= close confirm_candle
            /\ are_emas_stacked cfg df "short" confirm_idx = inr true
            /\ get_200ema_bias cfg df confirm_idx = "short")).
Proof.
  intros H gap confirm_idx. subst gap confirm_idx.
  destruct (validate_trident_pattern_origin _ _ _ _ _ H) as (fvg & Hin & Hcand).
  destruct (find_fvgs_origin _ _ _ _ Hin) as (k & c1 & c2 & c3 & _ & H2 & _ & Hf).
  pose proof (fvg_at_inv _ _ _ _ _ _ _ Hf) as [Hwin _].
  apply fvg_at_shape in Hf. destruct Hf as (_ & _ & _ & Hidx2 & _).
  assert (Himpulse : iloc df (FVG.candle2_idx fvg) = inr c2).
  { rewrite Hidx2. apply iloc_nonneg; [lia |].
    replace (Z.to_nat (Z.of_nat k + 1)) with (S k) by lia. exact H2. }
  destruct (check_candidate_gates _ _ _ _ _ _ Hcand)
    as (doji_candle & confirm_candle & Hdoji & Hconfirm & Hisdoji & Hkill & Hgates).
  destruct (check_candidate_signal _ _ _ _ _ _ Hcand)
    as (confirm' & Hconfirm' & _ & Hsig).
  rewrite Hconfirm in Hconfirm'. injection Hconfirm' as <-.
  exists c2, doji_candle, confirm_candle.
  assert (Htime : check_time = true -> is_in_fvg_window cfg (time c2) = true)
    by (intros ->; destruct Hwin; [discriminate | assumption]).
  destruct Hsig as [[Hdir ->] | [Hdir ->]]; simpl;
    (split; [exact Himpulse |]); (split; [exact Hdoji |]);
    (split; [exact Hconfirm |]); (split; [exact Hisdoji |]);
    (split; [auto |]).
  - left. destruct Hgates as [(_ & Hg) | (Hd & _)]; [| congruence].
    split; [reflexivity | exact Hg].
  - right. destruct Hgates as [(Hd & _) | (_ & Hg)]; [congruence |].
    split; [reflexivity | exact Hg].
Qed.

Lemma signal_gates_witness :
  exists signal confirm_candle,
    validate_trident_pattern default_config straddling_enriched "EURUSD" true
    = inr (Some signal)
    /\ iloc straddling_enriched (TradeSignal.confirmation_idx signal)
       = inr confirm_candle
    /\ is_in_kill_zone default_config (TradeSignal.signal_time signal) = true.
Proof.
  eexists. eexists. split; [vm_compute; reflexivity |].
  split; [vm_compute; reflexivity |].
  destruct (signal_gates default_config straddling_enriched "EURUSD" true _
                         ltac:(vm_compute; reflexivity))
    as (c2 & d & c & _ & _ & _ & _ & Ht & _).
  apply Ht. reflexivity.
Defined.

Lemma is_doji_returns cfg candle threshold :
  exists b, is_doji cfg candle threshold = inr b.
Proof.
  unfold is_doji. destruct (feq (fsub (high candle) (low candle)) 0) eqn:E.
  - eexists; reflexivity.
  - unfold fdiv. rewrite E. simpl. eexists; reflexivity.
Qed.

Lemma accept_bullish_returns cfg df symbol check_time fvg doji_idx confirm_idx
      confirm_candle :
  has_ema_columns (EMA_FAST_PERIODS cfg) df ->
  exists r, accept_bullish cfg df symbol check_time fvg doji_idx confirm_idx
                           confirm_candle = inr r.
Proof.
  intro Hcols. unfold accept_bullish.
  destruct (are_emas_stacked_total cfg df "long" confirm_idx Hcols) as [b ->].
  simpl.
  repeat match goal with
         | |- context [if ?c then _ else _] => destruct c
         end; eexists; reflexivity.
Qed.

Lemma accept_bearish_returns cfg df symbol check_time fvg doji_idx confirm_idx
      confirm_candle :
  has_ema_columns (EMA_FAST_PERIODS cfg) df ->
  exists r, accept_bearish cfg df symbol check_time fvg doji_idx confirm_idx
                           confirm_candle = inr r.
Proof.
  intro Hcols. unfold accept_bearish.
  destruct (are_emas_stacked_total cfg df "short" confirm_idx Hcols) as [b ->].
  simpl.
  repeat match goal with
         | |- context [if ?c then _ else _] => destruct c
         end; eexists; reflexivity.
Qed.

Lemma check_candidate_returns cfg df symbol check_time fvg :
  has_ema_columns (EMA_FAST_PERIODS cfg) df ->
  (0 <= FVG.candle3_idx fvg)%Z ->
  exists r, check_candidate cfg df symbol check_time fvg = inr r.
Proof.
  intros Hcols Hidx. unfold check_candidate.
  destruct (FVG.candle3_idx fvg + 2 >=? len df)%Z eqn:Elen;
    [eexists; reflexivity |].
  rewrite Z.geb_leb in Elen. apply Z.leb_gt in Elen.
  destruct (iloc_in_range df (FVG.candle3_idx fvg + 1)) as [doji_candle ->];
    [lia |].
  destruct (iloc_in_range df (FVG.candle3_idx fvg + 2)) as [confirm_candle ->];
    [lia |].
  simpl. destruct (is_doji_returns cfg doji_candle None) as [b ->]. simpl.
  destruct b; simpl; [| eexists; reflexivity].
  destruct (FVG.direction fvg =? "bullish").
  - destruct (fgt (low doji_candle) (FVG.midpoint fvg)); [eexists; reflexivity |].
    unfold confirm_bullish.
    destruct (fge (close confirm_candle) (high doji_candle)); simpl;
      (destruct (fgt (close confirm_candle) (high doji_candle));
       [eexists; reflexivity | now apply accept_bullish_returns]).
  - destruct (FVG.direction fvg =? "bearish"); [| eexists; reflexivity].
    destruct (flt (high doji_candle) (FVG.midpoint fvg)); [eexists; reflexivity |].
    unfold confirm_bearish.
    destruct (flt (close confirm_candle) (low doji_candle));
      [eexists; reflexivity | now apply accept_bearish_returns].
Qed.

Lemma first_signal_returns cfg df symbol check_time :
  has_ema_columns (EMA_FAST_PERIODS cfg) df ->
  forall fvgs,
    (forall g, In g fvgs -> (0 <= FVG.candle3_idx g)%Z) ->
    exists r, first_signal cfg df symbol check_time fvgs = inr r.
Proof.
  intro Hcols. induction fvgs as [| g fvgs IH]; intro Hall; simpl.
  - eexists; reflexivity.
  - destruct (check_candidate_returns cfg df symbol check_time g Hcols)
      as [[found |] ->]; [apply Hall; now left | simpl; eexists; reflexivity |].
    simpl. apply IH. intros h Hh. apply Hall. now right.
Qed.

Lemma validate_trident_pattern_returns cfg df symbol check_time :
  has_ema_columns (EMA_FAST_PERIODS cfg) df ->
  exists r, validate_trident_pattern cfg df symbol check_time = inr r.
Proof.
  intro Hcols. unfold validate_trident_pattern.
  destruct (len df <? 6)%Z; [eexists; reflexivity |].
  destruct (find_fvgs cfg df check_time) as [| g fvgs] eqn:E;
    [eexists; reflexivity |].
  apply first_signal_returns; [exact Hcols |].
  intros h Hh. apply in_rev in Hh. rewrite <- E in Hh.
  apply find_fvgs_indices in Hh. lia.
Qed.

(** X11: on a frame that carries the fast EMA columns,
    [validate_trident_pattern] never raises: it returns a signal or [None].
    Frames of fewer than six rows give [None] even without those columns,
    and without them the only exception it can raise is [KeyError]. *)
Theorem validate_trident_pattern_safe cfg df symbol check_time :
  (has_ema_columns (EMA_FAST_PERIODS cfg) df ->
   exists r, validate_trident_pattern cfg df symbol check_time = inr r)
  /\ ((len df < 6)%Z ->
      validate_trident_pattern cfg df symbol check_time = inr None)
  /\ (forall e, validate_trident_pattern cfg df symbol check_time = inl e ->
                e = KeyError).
Proof.
  split; [apply validate_trident_pattern_returns |]. split.
  - intro H. unfold validate_trident_pattern.
    apply Z.ltb_lt in H. now rewrite H.
  - intros e. unfold validate_trident_pattern.
    destruct (len df <? 6)%Z; [discriminate |].
    destruct (find_fvgs cfg df check_time) as [| g0 fvgs0] eqn:E; [discriminate |].
    assert (Hall : forall g, In g (rev (g0 :: fvgs0)) -> (0 <= FVG.candle3_idx g)%Z).
    { intros g Hg. apply in_rev in Hg. rewrite <- E in Hg.
      apply find_fvgs_indices in Hg. lia. }
    generalize dependent (rev (g0 :: fvgs0)). clear E.
    induction l as [| g l IH]; intro Hall; simpl; [discriminate |].
    destruct (check_candidate cfg df symbol check_time g) as [err | r] eqn:Ec.
    + simpl. intro H. injection H as <-.
      assert (Hg : (0 <= FVG.candle3_idx g)%Z) by (apply Hall; now left).
      clear - Ec Hg. unfold check_candidate in Ec.
      destruct (FVG.candle3_idx g + 2 >=? len df)%Z eqn:Elen; [discriminate |].
      rewrite Z.geb_leb in Elen. apply Z.leb_gt in Elen.
      destruct (iloc_in_range df (FVG.candle3_idx g + 1)) as [d Hd]; [lia |].
      destruct (iloc_in_range df (FVG.candle3_idx g + 2)) as [c Hc]; [lia |].
      rewrite Hd, Hc in Ec. simpl in Ec.
      destruct (is_doji_returns cfg d None) as [b Hb]. rewrite Hb in Ec.
      simpl in Ec. destruct b; simpl in Ec; [| discriminate].
      assert (Hstack : forall direction index x,
                are_emas_stacked cfg df direction index = inl x -> x = KeyError).
      { intros direction index x. unfold are_emas_stacked.
        destruct (iloc df index) as [? | row]; [discriminate |].
        destruct (mapM (get_ema row) (EMA_FAST_PERIODS cfg)) as [x' | vs] eqn:Em.
        - simpl. intro H. injection H as <-.
          clear - Em. revert Em. generalize (EMA_FAST_PERIODS cfg).
          induction l as [| p l IH]; simpl; [discriminate |].
          unfold get_ema at 1. destruct (lookup_col p (ema_cols row)); simpl.
          + destruct (mapM (get_ema row) l) as [y | ws]; simpl;
              [| discriminate].
            intro H. injection H as <-. now apply IH.
          + intro H. now injection H as <-.
        - simpl. destruct (direction =? "long"); [discriminate |].
          destruct (direction =? "short"); discriminate. }
      destruct (FVG.direction g =? "bullish").
      * destruct (fgt (low d) (FVG.midpoint g)); [discriminate |].
        unfold confirm_bullish in Ec.
        assert (Hacc : accept_bullish cfg df symbol check_time g
                         (FVG.candle3_idx g + 1) (FVG.candle3_idx g + 2) c
                       = inl err).
        { destruct (fge (close c) (high d)); simpl in Ec;
            (destruct (fgt (close c) (high d)); [discriminate | exact Ec]). }
        unfold accept_bullish in Hacc.
        destruct (are_emas_stacked cfg df "long" (FVG.candle3_idx g + 2))
          as [x | b] eqn:Es.
        -- simpl in Hacc. injection Hacc as <-. eapply Hstack; eassumption.
        -- simpl in Hacc.
           repeat match type of Hacc with
                  | context [if ?t then _ else _] => destruct t
                  end; discriminate.
      * destruct (FVG.direction g =? "bearish"); [| discriminate].
        destruct (flt (high d) (FVG.midpoint g)); [discriminate |].
        unfold confirm_bearish in Ec.
        destruct (flt (close c) (low d)); [discriminate |].
        unfold accept_bearish in Ec.
        destruct (are_emas_stacked cfg df "short" (FVG.candle3_idx g + 2))
          as [x | b] eqn:Es.
        -- simpl in Ec. injection Ec as <-. eapply Hstack; eassumption.
        -- simpl in Ec.
           repeat match type of Ec with
                  | context [if ?t then _ else _] => destruct t
                  end; discriminate.
    + simpl. destruct r; [discriminate |]. apply IH.
      intros h Hh. apply Hall. now right.
Qed.

Lemma first_signal_split cfg df symbol check_time : forall fvgs signal,
  first_signal cfg df symbol check_time fvgs = inr (Some signal) ->
  exists before fvg after,
    fvgs = (before ++ fvg :: after)%list
    /\ check_candidate cfg df symbol check_time fvg = inr (Some signal)
    /\ forall g, In g before ->
                 check_candidate cfg df symbol check_time g = inr None.
Proof.
  induction fvgs as [| fvg fvgs IH]; intros signal H; [discriminate |].
  simpl in H. exc_inv H. destruct a as [found |].
  - injection H as ->. exists [], fvg, fvgs. repeat split; auto.
    intros g [].
  - destruct (IH _ H) as (before & f & after & -> & Hf & Hnone).
    exists (fvg :: before), f, after. repeat split; auto.
    intros g [<- | Hg]; auto.
Qed.

Lemma sorted_before (l1 l2 : list FVG.t) (x : FVG.t) :
  StronglySorted (fun a b => (FVG.candle1_idx a < FVG.candle1_idx b)%Z)
                 (l1 ++ x :: l2) ->
  forall g, In g l1 -> (FVG.candle1_idx g < FVG.candle1_idx x)%Z.
Proof.
  induction l1 as [| a l1 IH]; intros Hs g Hg; [contradiction |].
  simpl in Hs. inversion Hs as [| ? ? Hs' Hall]; subst.
  destruct Hg as [<- | Hg]; [| auto].
  rewrite Forall_forall in Hall. apply Hall. apply in_or_app. right. now left.
Qed.

(** X12: the validator takes the most recent pattern: when it returns a
    signal, every gap of the frame that starts after the signal's gap was
    examined first and rejected. *)
Theorem signal_is_most_recent cfg df symbol check_time signal :
  validate_trident_pattern cfg df symbol check_time = inr (Some signal) ->
  forall g, In g (find_fvgs cfg df check_time) ->
            (FVG.candle1_idx (TradeSignal.fvg signal) < FVG.candle1_idx g)%Z ->
            check_candidate cfg df symbol check_time g = inr None.
Proof.
  unfold validate_trident_pattern.
  destruct (len df <? 6)%Z; [discriminate |].
  pose proof (find_fvgs_sorted cfg df check_time) as Hsorted.
  destruct (find_fvgs cfg df check_time) as [| g0 fvgs0] eqn:E; [discriminate |].
  intro H. apply first_signal_split in H.
  destruct H as (before & f & after & Hsplit & Hf & Hnone).
  assert (Hgap : TradeSignal.fvg signal = f).
  { destruct (check_candidate_signal _ _ _ _ _ _ Hf) as (c & _ & _ & Hsig).
    destruct Hsig as [[_ ->] | [_ ->]]; reflexivity. }
  rewrite Hgap.
  assert (Hlist : g0 :: fvgs0 = (rev after ++ f :: rev before)%list).
  { rewrite <- (rev_involutive (g0 :: fvgs0)), Hsplit, rev_app_distr.
    simpl. now rewrite <- app_assoc. }
  rewrite Hlist in Hsorted |- *.
  intros g Hg Hlater. apply Hnone. apply in_rev.
  apply in_app_or in Hg. destruct Hg as [Hg | [<- | Hg]]; [| lia | exact Hg].
  pose proof (sorted_before _ _ _ Hsorted g Hg). lia.
Qed.

Lemma signal_is_most_recent_witness :
  exists signal,
    validate_trident_pattern default_config falling_confirmation "EURUSD" true
    = inr (Some signal)
    /\ forall g, In g (find_fvgs default_config falling_confirmation true) ->
                 (FVG.candle1_idx (TradeSignal.fvg signal) < FVG.candle1_idx g)%Z ->
                 check_candidate default_config falling_confirmation "EURUSD"
                                 true g = inr None.
Proof.
  eexists. split; [vm_compute; reflexivity |].
  apply (signal_is_most_recent default_config falling_confirmation "EURUSD" true).
  vm_compute. reflexivity.
Defined.

Lemma ewm_from_flat alpha c : forall xs prev,
  prev == c -> Forall (fun x => x == c) xs ->
  Forall (fun y => y == c) (ewm_from alpha prev xs).
Proof.
  induction xs as [| x xs IH]; intros prev Hprev Hxs; simpl; [constructor |].
  inversion Hxs as [| ? ? Hx Hrest]; subst.
  assert (Hy : (1 - alpha) * prev + alpha * x == c).
  { rewrite Hprev, Hx. ring. }
  constructor; [exact Hy | now apply IH].
Qed.

Lemma ewm_mean_flat span c xs :
  Forall (fun x => x == c) xs -> Forall (fun y => y == c) (ewm_mean span xs).
Proof.
  intro H. destruct xs as [| x xs]; simpl; [constructor |].
  inversion H as [| ? ? Hx Hrest]; subst.
  constructor; [exact Hx | now apply ewm_from_flat].
Qed.

Lemma chain_ok_flat (bad : Q -> Q -> bool) c :
  (forall a b, a == c -> b == c -> bad a b = true) ->
  forall vs, (2 <= List.length vs)%nat -> Forall (fun v => v == c) vs ->
             chain_ok bad vs = false.
Proof.
  intros Hbad [| a [| b rest]] Hlen Hall; simpl in Hlen; try lia.
  inversion Hall as [| ? ? Ha Hrest]; subst.
  inversion Hrest as [| ? ? Hb _]; subst.
  simpl. now rewrite (Hbad a b Ha Hb).
Qed.

Lemma mapM_get_ema_all row (P : Q -> Prop) : forall periods vs,
  mapM (get_ema row) periods = inr vs ->
  (forall p v, In p periods -> lookup_col p (ema_cols row) = Some v -> P v) ->
  Forall P vs.
Proof.
  induction periods as [| p periods IH]; intros vs H HP.
  - injection H as <-. constructor.
  - simpl in H. exc_inv H. exc_inv H. injection H as <-.
    unfold get_ema in Ha.
    destruct (lookup_col p (ema_cols row)) as [v |] eqn:E; [| discriminate].
    injection Ha as <-. constructor.
    + apply (HP p); [now left | exact E].
    + apply IH; [exact Ha0 |]. intros q w Hq. apply HP. now right.
Qed.

(** On a frame whose closes are all equal, enriched by [calculate_emas],
    the fast EMAs are never stacked. *)
Lemma flat_never_stacked cfg df c periods direction index :
  Forall (fun row => close row == c) df ->
  incl (EMA_FAST_PERIODS cfg) periods ->
  (2 <= List.length (EMA_FAST_PERIODS cfg))%nat ->
  are_emas_stacked cfg (calculate_emas df periods) direction index <> inr true.
Proof.
  intros Hflat Hincl Hlen Hstacked.
  apply are_emas_stacked_true in Hstacked.
  destruct Hstacked as (row & vs & Hrow & Hvs & Hchain).
  assert (Hall : Forall (fun v => v == c) vs).
  { apply (mapM_get_ema_all row _ _ _ Hvs). intros p v Hp Hv.
    apply iloc_In in Hrow. apply In_nth_error in Hrow. destruct Hrow as [i Hi].
    assert (Hi0 : exists row0, nth_error df i = Some row0).
    { destruct (nth_error df i) eqn:E; [eauto |].
      apply nth_error_None in E.
      assert (i < List.length (calculate_emas df periods))%nat
        by (apply nth_error_Some; congruence).
      pose proof (calculate_emas_len periods df) as Hl. unfold len in Hl. lia. }
    destruct Hi0 as [row0 Hi0].
    destruct (calculate_emas_columns periods df i row0 Hi0) as (r & Hr & Hcols).
    rewrite Hi in Hr. injection Hr as <-.
    rewrite Hcols in Hv.
    assert (E : period_in p periods = true).
    { apply existsb_exists. exists p. split; [now apply Hincl | apply Nat.eqb_refl]. }
    rewrite E in Hv.
    assert (Hew : Forall (fun y => y == c) (ewm_mean p (map close df))).
    { apply ewm_mean_flat. rewrite Forall_forall in *.
      intros x Hx. apply in_map_iff in Hx. destruct Hx as (r & <- & Hr). auto. }
    rewrite Forall_forall in Hew. apply Hew. eapply nth_error_In; eassumption. }
  apply mapM_length in Hvs.
  destruct Hchain as [[_ Hc] | [_ Hc]].
  - rewrite (chain_ok_flat fle c) in Hc; [discriminate | | lia | exact Hall].
    intros a b Ha Hb. apply fle_true. rewrite Ha, Hb. apply Qle_refl.
  - rewrite (chain_ok_flat fge c) in Hc; [discriminate | | lia | exact Hall].
    intros a b Ha Hb. apply fge_true. rewrite Ha, Hb. apply Qle_refl.
Qed.

(** X13: ties fail closed.  On a frame whose closes are all equal, once
    [calculate_emas] has run with the fast periods (at least two of them)
    among its periods, [are_emas_stacked] is false in both directions at
    every index and [validate_trident_pattern] returns no signal, whatever
    the highs and lows. *)
Theorem flat_market_no_signal cfg df c periods symbol check_time :
  Forall (fun row => close row == c) df ->
  incl (EMA_FAST_PERIODS cfg) periods ->
  (2 <= List.length (EMA_FAST_PERIODS cfg))%nat ->
  (forall direction index,
     are_emas_stacked cfg (calculate_emas df periods) direction index = inr false)
  /\ validate_trident_pattern cfg (calculate_emas df periods) symbol check_time
     = inr None.
Proof.
  intros Hflat Hincl Hlen.
  assert (Hcols : has_ema_columns (EMA_FAST_PERIODS cfg) (calculate_emas df periods)).
  { intros row Hrow p Hp.
    apply (calculate_emas_has_columns periods df row Hrow). now apply Hincl. }
  split.
  - intros direction index.
    destruct (are_emas_stacked_total cfg _ direction index Hcols) as [[|] Hb];
      [| exact Hb].
    exfalso. eapply flat_never_stacked; eauto.
  - destruct (validate_trident_pattern_returns cfg _ symbol check_time Hcols)
      as [[signal |] Hr]; [| exact Hr].
    exfalso. apply validate_trident_pattern_origin in Hr.
    destruct Hr as (fvg & _ & Hcand). apply check_candidate_gates in Hcand.
    destruct Hcand as (d & cc & _ & _ & _ & _ & [Hg | Hg]);
      destruct Hg as (_ & _ & _ & Hs & _);
      eapply flat_never_stacked; eauto.
Qed.

Lemma flat_market_no_signal_witness :
  validate_trident_pattern
    default_config
    (calculate_emas (half_hours 23400 (repeat (100, 130, 70, 100) 8))
                    [5; 9; 13; 21; 200]%nat)
    "EURUSD" false = inr None.
Proof.
  refine (proj2 (flat_market_no_signal default_config
                   (half_hours 23400 (repeat (100, 130, 70, 100) 8)) 100
                   [5; 9; 13; 21; 200]%nat "EURUSD" false _ _ _)).
  - repeat constructor.
  - intros p Hp. simpl in Hp |- *. tauto.
  - simpl. lia.
Defined.

Lemma kill_zone_inverted cfg dt :
  (time_of (KILL_ZONE_END_HOUR cfg) (KILL_ZONE_END_MINUTE cfg)
   < time_of (KILL_ZONE_START_HOUR cfg) (KILL_ZONE_START_MINUTE cfg))%Z ->
  is_in_kill_zone cfg dt = false.
Proof.
  intro H. unfold is_in_kill_zone. apply andb_false_iff.
  destruct (Z.leb_spec (time_of (KILL_ZONE_START_HOUR cfg)
                                (KILL_ZONE_START_MINUTE cfg))
                       (ny_time_of_day cfg dt)); [right | now left].
  apply Z.leb_gt. lia.
Qed.

Lemma fvg_window_inverted cfg dt :
  (time_of (FVG_WINDOW_END_HOUR cfg) (FVG_WINDOW_END_MINUTE cfg)
   < time_of (FVG_WINDOW_START_HOUR cfg) (FVG_WINDOW_START_MINUTE cfg))%Z ->
  is_in_fvg_window cfg dt = false.
Proof.
  intro H. unfold is_in_fvg_window. apply andb_false_iff.
  destruct (Z.leb_spec (time_of (FVG_WINDOW_START_HOUR cfg)
                                (FVG_WINDOW_START_MINUTE cfg))
                       (ny_time_of_day cfg dt)); [right | now left].
  apply Z.leb_gt. lia.
Qed.

(** X14: the two time windows do not wrap around midnight.  With a kill
    zone or a gap window whose end is earlier in the day than its start
    (22:00 to 02:00, say), no time is inside that window, so
    [validate_trident_pattern] with the time test never returns a signal,
    whatever the frame. *)
Theorem window_across_midnight_never_matches cfg df symbol :
  ((time_of (KILL_ZONE_END_HOUR cfg) (KILL_ZONE_END_MINUTE cfg)
    < time_of (KILL_ZONE_START_HOUR cfg) (KILL_ZONE_START_MINUTE cfg))%Z
   \/ (time_of (FVG_WINDOW_END_HOUR cfg) (FVG_WINDOW_END_MINUTE cfg)
       < time_of (FVG_WINDOW_START_HOUR cfg) (FVG_WINDOW_START_MINUTE cfg))%Z) ->
  forall signal,
    validate_trident_pattern cfg df symbol true <> inr (Some signal).
Proof.
  intros Hinv signal H.
  destruct (validate_trident_pattern_origin _ _ _ _ _ H) as (fvg & Hin & Hcand).
  destruct Hinv as [Hkill | Hgap].
  - apply check_candidate_gates in Hcand.
    destruct Hcand as (d & c & _ & _ & _ & Hk & _).
    specialize (Hk eq_refl). rewrite (kill_zone_inverted _ _ Hkill) in Hk.
    discriminate.
  - destruct (find_fvgs_origin _ _ _ _ Hin) as (k & c1 & c2 & c3 & _ & _ & _ & Hf).
    apply fvg_at_inv in Hf. destruct Hf as [[Ht | Ht] _]; [discriminate |].
    rewrite (fvg_window_inverted _ _ Hgap) in Ht. discriminate.
Qed.

Lemma window_across_midnight_never_matches_witness :
  validate_trident_pattern overnight_config falling_confirmation "EURUSD" true
  = inr None.
Proof.
  destruct (validate_trident_pattern overnight_config falling_confirmation
                                     "EURUSD" true) as [e | [signal |]] eqn:E.
  - vm_compute in E. discriminate E.
  - exfalso.
    apply (window_across_midnight_never_matches
             overnight_config falling_confirmation "EURUSD"
             ltac:(left; vm_compute; reflexivity) signal).
    exact E.
  - reflexivity.
Defined.

(** ** Forward simulation: exits in detail *)

Lemma stop_check_value trade gold pip_value candle :
  ~ pip_value == 0 ->
  stop_check trade gold pip_value candle
  = inr (if stop_breached trade gold candle
         then Some (stopped_out trade gold pip_value candle)
         else None).
Proof.
  intro Hpip. unfold stop_check, stop_breached, stopped_out, signed_pips.
  destruct (BacktestTrade.direction trade =? "BUY") eqn:Ebuy.
  - destruct gold; simpl.
    + destruct (fle (close candle) (BacktestTrade.stop_loss trade)); [| reflexivity].
      now rewrite fdiv_total.
    + destruct (fle (low candle) (BacktestTrade.stop_loss trade)); [| reflexivity].
      now rewrite fdiv_total.
  - destruct (BacktestTrade.direction trade =? "SELL"); [| reflexivity].
    destruct gold; simpl.
    + destruct (fge (close candle) (BacktestTrade.stop_loss trade)); [| reflexivity].
      now rewrite fdiv_total.
    + destruct (fge (high candle) (BacktestTrade.stop_loss trade)); [| reflexivity].
      now rewrite fdiv_total.
Qed.

Lemma filter_len {A} (keep : A -> bool) (l : list A) :
  (len (filter keep l) <= len l)%Z.
Proof.
  unfold len. apply inj_le. induction l as [| a l IH]; simpl; [lia |].
  destruct (keep a); simpl; lia.
Qed.

Lemma daily_check_short cfg df_daily trade entry_bar_idx pip_value i candle :
  (len df_daily < 5)%Z ->
  daily_check cfg df_daily trade entry_bar_idx pip_value i candle = inr None.
Proof.
  intro Hshort. unfold daily_check.
  destruct (_ && _)%bool; [| reflexivity].
  match goal with
  | |- context [(len ?l >=? 5)%Z] =>
      pose proof (filter_len (fun row => (date_of (time row)
                                           <=? date_of (time candle))%Z) df_daily)
        as Hfilter;
      destruct (len l >=? 5)%Z eqn:E
  end; [| reflexivity].
  rewrite Z.geb_leb in E. apply Z.leb_le in E. lia.
Qed.

(** What a daily exit looks like, and when it can happen. *)
Lemma daily_check_detail cfg df_daily trade entry_bar_idx pip_value i candle closed :
  daily_check cfg df_daily trade entry_bar_idx pip_value i candle
  = inr (Some closed) ->
  closed = closed_at_close trade pip_value candle "Daily EMA unstack"
  /\ ((i - entry_bar_idx) mod 48 = 0)%Z
  /\ (5 <= len df_daily)%Z
  /\ (BacktestTrade.direction trade = "BUY"
      \/ BacktestTrade.direction trade = "SELL").
Proof.
  unfold daily_check, closed_at_close, signed_pips.
  destruct ((i - entry_bar_idx) mod 48 =? 0)%Z eqn:Emod; [| discriminate].
  apply Z.eqb_eq in Emod. simpl.
  destruct (negb (len df_daily =? 0)%Z); [| discriminate].
  match goal with
  | |- context [(len ?l >=? 5)%Z] =>
      pose proof (filter_len (fun row => (date_of (time row)
                                           <=? date_of (time candle))%Z) df_daily)
        as Hfilter;
      destruct (len l >=? 5)%Z eqn:E
  end; [| discriminate].
  rewrite Z.geb_leb in E. apply Z.leb_le in E.
  destruct (BacktestTrade.direction trade =? "BUY") eqn:Ebuy.
  - apply String.eqb_eq in Ebuy. intro H. exc_inv H.
    destruct (negb a); [| discriminate]. exc_inv H.
    destruct a0; [| discriminate]. exc_inv H.
    apply fdiv_ok in Ha1. destruct Ha1 as [_ ->]. injection H as <-.
    repeat split; auto; lia.
  - destruct (BacktestTrade.direction trade =? "SELL") eqn:Esell; [| discriminate].
    apply String.eqb_eq in Esell. intro H. exc_inv H.
    destruct (negb a); [| discriminate]. exc_inv H.
    destruct a0; [| discriminate]. exc_inv H.
    apply fdiv_ok in Ha1. destruct Ha1 as [_ ->]. injection H as <-.
    repeat split; auto; lia.
Qed.

Lemma max_hold_exit_detail df_30m trade max_bars pip_value closed :
  max_hold_exit df_30m trade max_bars pip_value = inr closed ->
  exists last_candle,
    (if (max_bars <? len df_30m)%Z then iloc df_30m (max_bars - 1)
     else iloc df_30m (-1)) = inr last_candle
    /\ closed = closed_at_close trade pip_value last_candle "Max hold period".
Proof.
  unfold max_hold_exit, closed_at_close, signed_pips. intro H. exc_inv H.
  exists a. split; [assumption |]. exc_inv H. injection H as <-.
  destruct (BacktestTrade.direction trade =? "BUY");
    apply fdiv_ok in Ha0; destruct Ha0 as [_ ->]; reflexivity.
Qed.

Lemma scan_forward_detail cfg df_30m df_daily trade entry_bar_idx pip_value
      last_idx :
  ~ pip_value == 0 ->
  forall bars closed,
    scan_forward cfg df_30m df_daily trade
                 (is_gold (BacktestTrade.symbol trade)) entry_bar_idx pip_value bars
    = inr (Some closed) ->
    exists j candle,
      In j bars /\ iloc df_30m j = inr candle
      /\ exit_case df_daily trade entry_bar_idx pip_value last_idx j candle closed.
Proof.
  intro Hpip. induction bars as [| i bars IH]; intros closed H; [discriminate |].
  simpl in H. exc_inv H. destruct a as [found |].
  - injection H as ->. unfold exit_at in Ha. exc_inv Ha. rename a into candle.
    rewrite (stop_check_value _ _ _ _ Hpip) in Ha. simpl in Ha.
    exists i, candle. split; [now left |]. split; [assumption |].
    destruct (stop_breached _ _ candle) eqn:Eb.
    + injection Ha as <-. now constructor.
    + apply daily_check_detail in Ha. destruct Ha as (-> & Hmod & Hlen & Hdir).
      now constructor.
  - destruct (IH _ H) as (j & candle & Hin & Hj & Hc).
    exists j, candle. split; [now right | auto].
Qed.

Lemma simulate_trade_exit_detail cfg df_30m df_daily trade entry_bar_idx
      pip_value closed :
  simulate_trade_exit cfg df_30m df_daily trade entry_bar_idx pip_value
  = inr closed ->
  ~ pip_value == 0
  /\ exists j candle,
       iloc df_30m j = inr candle
       /\ (In j (forward_bars df_30m entry_bar_idx)
           \/ closed = closed_at_close trade pip_value candle "Max hold period")
       /\ exit_case df_daily trade entry_bar_idx pip_value
                    (Z.min (len df_30m) (entry_bar_idx + 960) - 1) j candle closed.
Proof.
  intro H.
  destruct (simulate_trade_exit_closes _ _ _ _ _ _ _ H) as [Hpip _].
  split; [exact Hpip |].
  unfold simulate_trade_exit in H. exc_inv H. destruct a as [found |].
  - injection H as ->.
    apply (scan_forward_detail _ _ _ _ _ _
             (Z.min (len df_30m) (entry_bar_idx + 960) - 1) Hpip) in Ha.
    destruct Ha as (j & candle & Hin & Hj & Hc). exists j, candle. auto.
  - apply max_hold_exit_detail in H. destruct H as (candle & Hi & ->).
    exists (Z.min (len df_30m) (entry_bar_idx + 960) - 1)%Z, candle.
    split; [| split; [now right | constructor]].
    destruct (_ <? _)%Z eqn:E; [exact Hi |].
    apply Z.ltb_ge in E. apply iloc_last in Hi. destruct Hi as [Hi _].
    replace (Z.min (len df_30m) (entry_bar_idx + 960)) with (len df_30m) by lia.
    exact Hi.
Qed.

Lemma win_or_loss_win pnl : win_or_loss pnl = "WIN" <-> 0 < pnl.
Proof.
  unfold win_or_loss. destruct (fgt pnl 0) eqn:E.
  - apply fgt_true in E. tauto.
  - apply fgt_false in E. split; [discriminate | lra].
Qed.

(** X15: how a closed trade is labelled.  The exit reason is one of four
    texts.  A stop exit ("Stop loss hit" at the stop price for a hard stop,
    "Gold candle close filter" for XAUUSD/GOLD) is always a LOSS, whatever
    the sign of its profit; an exit on the daily EMAs or at the maximum
    hold is a WIN exactly when its profit is positive.  So a WIN always has
    a positive profit and never comes from a stop. *)
Theorem exit_labels cfg df_30m df_daily trade entry_bar_idx pip_value closed :
  simulate_trade_exit cfg df_30m df_daily trade entry_bar_idx pip_value
  = inr closed ->
  let reason := BacktestTrade.exit_reason closed in
  let gold := is_gold (BacktestTrade.symbol trade) in
  (reason = "Stop loss hit" \/ reason = "Gold candle close filter"
   \/ reason = "Daily EMA unstack" \/ reason = "Max hold period")
  /\ (reason = "Stop loss hit" ->
      gold = false /\ BacktestTrade.result closed = "LOSS"
      /\ BacktestTrade.exit_price closed = BacktestTrade.stop_loss trade)
  /\ (reason = "Gold candle close filter" ->
      gold = true /\ BacktestTrade.result closed = "LOSS")
  /\ (reason = "Daily EMA unstack" \/ reason = "Max hold period" ->
      (BacktestTrade.result closed = "WIN" <-> 0 < BacktestTrade.pnl_pips closed))
  /\ (BacktestTrade.result closed = "WIN" ->
      0 < BacktestTrade.pnl_pips closed
      /\ (reason = "Daily EMA unstack" \/ reason = "Max hold period")).
Proof.
  intros H reason gold. subst reason gold.
  apply simulate_trade_exit_detail in H.
  destruct H as (_ & j & candle & _ & _ & Hcase).
  assert (Hclose : forall c why,
    why = "Daily EMA unstack" \/ why = "Max hold period" ->
    let t := closed_at_close trade pip_value c why in
    (BacktestTrade.exit_reason t = "Stop loss hit"
     \/ BacktestTrade.exit_reason t = "Gold candle close filter"
     \/ BacktestTrade.exit_reason t = "Daily EMA unstack"
     \/ BacktestTrade.exit_reason t = "Max hold period")
    /\ (BacktestTrade.exit_reason t = "Stop loss hit" ->
        is_gold (BacktestTrade.symbol trade) = false
        /\ BacktestTrade.result t = "LOSS"
        /\ BacktestTrade.exit_price t = BacktestTrade.stop_loss trade)
    /\ (BacktestTrade.exit_reason t = "Gold candle close filter" ->
        is_gold (BacktestTrade.symbol trade) = true
        /\ BacktestTrade.result t = "LOSS")
    /\ (BacktestTrade.exit_reason t = "Daily EMA unstack"
        \/ BacktestTrade.exit_reason t = "Max hold period" ->
        (BacktestTrade.result t = "WIN" <-> 0 < BacktestTrade.pnl_pips t))
    /\ (BacktestTrade.result t = "WIN" ->
        0 < BacktestTrade.pnl_pips t
        /\ (BacktestTrade.exit_reason t = "Daily EMA unstack"
            \/ BacktestTrade.exit_reason t = "Max hold period"))).
  { intros c why Hwhy t. subst t. unfold closed_at_close. simpl.
    split; [destruct Hwhy as [-> | ->]; auto |].
    split; [intro Hr; destruct Hwhy as [-> | ->]; discriminate Hr |].
    split; [intro Hr; destruct Hwhy as [-> | ->]; discriminate Hr |].
    split; [intros _; apply win_or_loss_win |].
    intro Hw. split; [now apply win_or_loss_win | exact Hwhy]. }
  destruct Hcase as [j candle Hb | j candle _ _ _ | candle];
    [| apply Hclose; now left | apply Hclose; now right].
  unfold stopped_out.
  destruct (is_gold (BacktestTrade.symbol trade)); simpl.
  - split; [auto |]. split; [intro Hr; discriminate Hr |].
    split; [auto |]. split; [intros [Hr | Hr]; discriminate Hr |].
    intro Hr; discriminate Hr.
  - split; [auto |]. split; [auto |].
    split; [intro Hr; discriminate Hr |].
    split; [intros [Hr | Hr]; discriminate Hr |].
    intro Hr; discriminate Hr.
Qed.

Lemma exit_labels_witness :
  exists closed,
    simulate_trade_exit default_config rising_pair [] long_trade 0 (get_pip_value "EURUSD")
    = inr closed
    /\ BacktestTrade.exit_reason closed = "Max hold period"
    /\ (BacktestTrade.result closed = "WIN" <-> 0 < BacktestTrade.pnl_pips closed).
Proof.
  eexists. split; [vm_compute; reflexivity |]. split; [reflexivity |].
  pose proof (exit_labels default_config rising_pair [] long_trade 0 (get_pip_value "EURUSD")
                          _ ltac:(vm_compute; reflexivity)) as H.
  cbv zeta in H. destruct H as (_ & _ & _ & Hwin & _).
  apply Hwin. right. reflexivity.
Defined.

(** X16: an exit on the daily EMAs needs data and time: it only happens
    for a BUY or a SELL, with at least five daily rows, on a 30M bar that is
    a positive multiple of 48 bars after the entry; the trade is then closed
    at that bar's close. *)
Theorem daily_exit_needs_data cfg df_30m df_daily trade entry_bar_idx pip_value
        closed :
  simulate_trade_exit cfg df_30m df_daily trade entry_bar_idx pip_value
  = inr closed ->
  BacktestTrade.exit_reason closed = "Daily EMA unstack" ->
  (5 <= len df_daily)%Z
  /\ (BacktestTrade.direction trade = "BUY"
      \/ BacktestTrade.direction trade = "SELL")
  /\ exists j candle,
       iloc df_30m j = inr candle
       /\ (entry_bar_idx + 48 <= j < len df_30m)%Z
       /\ ((j - entry_bar_idx) mod 48 = 0)%Z
       /\ BacktestTrade.exit_price closed = close candle
       /\ BacktestTrade.exit_time closed = Some (time candle).
Proof.
  intros H Hreason. apply simulate_trade_exit_detail in H.
  destruct H as (_ & j & candle & Hj & Hwhere & Hcase).
  destruct Hcase as [j candle Hb | j candle Hmod Hlen Hdir | candle].
  - unfold stopped_out in Hreason.
    destruct (is_gold (BacktestTrade.symbol trade)); discriminate Hreason.
  - split; [exact Hlen |]. split; [exact Hdir |].
    exists j, candle. split; [exact Hj |].
    destruct Hwhere as [Hin | Heq]; [| discriminate Heq].
    apply forward_bars_bounds in Hin.
    pose proof (Z_div_mod_eq_full (j - entry_bar_idx) 48) as Hdiv.
    repeat split; auto; lia.
  - discriminate Hreason.
Qed.

Lemma daily_exit_needs_data_witness :
  exists closed,
    simulate_trade_exit default_config two_days_flat collapsing_days long_trade 0
                        (get_pip_value "EURUSD") = inr closed
    /\ (5 <= len collapsing_days)%Z
    /\ exists j candle,
         iloc two_days_flat j = inr candle
         /\ (0 + 48 <= j < len two_days_flat)%Z
         /\ ((j - 0) mod 48 = 0)%Z
         /\ BacktestTrade.exit_price closed = close candle
         /\ BacktestTrade.exit_time closed = Some (time candle).
Proof.
  eexists. split; [vm_compute; reflexivity |].
  pose proof (daily_exit_needs_data default_config two_days_flat collapsing_days
                long_trade 0 (get_pip_value "EURUSD") _ ltac:(vm_compute; reflexivity)
                ltac:(reflexivity)) as H.
  destruct H as (Hlen & _ & Hbar). split; [exact Hlen | exact Hbar].
Defined.



(** With entry 1.10000, stop 1.09358 and pip 0.0001 the ratio of a long
    stopped out is the float just below -1. *)
Lemma hard_stop_ratio_rounds :
  let entry := float64 (11 # 10) in
  let stop := float64 (109358 # 100000) in
  let pip := float64 (1 # 10000) in
  fquot (fmul (fquot (fsub stop entry) pip) pip) (Qabs (fsub entry stop))
  == - (1 + 2 ^ (-52)).
Proof. vm_compute. reflexivity. Qed.

Lemma range_from_split : forall fuel a b j,
  In j (range_from fuel a b 1) ->
  exists before after,
    range_from fuel a b 1 = (before ++ j :: after)%list
    /\ forall i, In i before -> (a <= i < j)%Z.
Proof.
  induction fuel as [| fuel IH]; intros a b j Hin; [contradiction |].
  simpl in Hin |- *. destruct (a <? b)%Z eqn:E; [| contradiction].
  destruct Hin as [<- | Hin].
  - exists [], (range_from fuel (a + 1) b 1). split; [reflexivity |].
    intros i [].
  - pose proof (range_from_bounds 1 _ _ _ _ ltac:(lia) Hin) as Hj.
    destruct (IH _ _ _ Hin) as (before & after & Heq & Hbefore).
    exists (a :: before), after. split; [simpl; now rewrite Heq |].
    intros i [<- | Hi]; [lia |]. apply Hbefore in Hi. lia.
Qed.

Lemma exit_at_without_daily cfg df_30m df_daily trade gold entry_bar_idx
      pip_value i candle :
  (len df_daily < 5)%Z -> ~ pip_value == 0 -> iloc df_30m i = inr candle ->
  exit_at cfg df_30m df_daily trade gold entry_bar_idx pip_value i
  = inr (if stop_breached trade gold candle
         then Some (stopped_out trade gold pip_value candle)
         else None).
Proof.
  intros Hshort Hpip Hi. unfold exit_at. rewrite Hi. simpl.
  rewrite (stop_check_value _ _ _ _ Hpip). simpl.
  destruct (stop_breached trade gold candle); [reflexivity |].
  now apply daily_check_short.
Qed.

Lemma scan_forward_skip cfg df_30m df_daily trade gold entry_bar_idx pip_value :
  forall before rest,
    (forall i, In i before ->
               exit_at cfg df_30m df_daily trade gold entry_bar_idx pip_value i
               = inr None) ->
    scan_forward cfg df_30m df_daily trade gold entry_bar_idx pip_value
                 (before ++ rest)
    = scan_forward cfg df_30m df_daily trade gold entry_bar_idx pip_value rest.
Proof.
  induction before as [| i before IH]; intros rest H; [reflexivity |].
  simpl. rewrite (H i) by now left. simpl. apply IH.
  intros k Hk. apply H. now right.
Qed.

Lemma max_hold_exit_value df_30m trade entry_bar_idx pip_value :
  ~ pip_value == 0 -> (- len df_30m <= entry_bar_idx)%Z -> (0 < len df_30m)%Z ->
  exists last_candle,
    iloc df_30m (Z.min (len df_30m) (entry_bar_idx + 960) - 1) = inr last_candle
    /\ max_hold_exit df_30m trade (Z.min (len df_30m) (entry_bar_idx + 960))
                     pip_value
       = inr (closed_at_close trade pip_value last_candle "Max hold period").
Proof.
  intros Hpip Hentry Hlen.
  destruct (iloc_in_range df_30m (Z.min (len df_30m) (entry_bar_idx + 960) - 1))
    as [last_candle Hlast]; [lia |].
  exists last_candle. split; [exact Hlast |].
  unfold max_hold_exit, closed_at_close, signed_pips.
  assert (Hpick : (if (Z.min (len df_30m) (entry_bar_idx + 960) <? len df_30m)%Z
                   then iloc df_30m (Z.min (len df_30m) (entry_bar_idx + 960) - 1)
                   else iloc df_30m (-1)) = inr last_candle).
  { destruct (_ <? _)%Z eqn:E; [exact Hlast |].
    apply Z.ltb_ge in E.
    replace (Z.min (len df_30m) (entry_bar_idx + 960)) with (len df_30m) in Hlast
      by lia.
    destruct (iloc_in_range df_30m (-1)) as [r Hr]; [lia |].
    pose proof (iloc_last _ _ Hr) as [Hr' _]. congruence. }
  rewrite Hpick. simpl.
  destruct (BacktestTrade.direction trade =? "BUY");
    now rewrite fdiv_total.
Qed.

(** X18: without daily data the simulation is decided by the stop alone.
    With fewer than five daily rows: if a bar after the entry breaches the
    stop and none before it does, the trade is closed on that bar as a stop
    exit (at the stop price, or at the close for XAUUSD/GOLD); if no bar of
    the forward window breaches it, the trade is closed at the close of the
    window's last bar as "Max hold period". *)
Theorem simulate_without_daily_data cfg df_30m df_daily trade entry_bar_idx
        pip_value :
  (len df_daily < 5)%Z -> ~ pip_value == 0 ->
  (- len df_30m <= entry_bar_idx < len df_30m)%Z ->
  let gold := is_gold (BacktestTrade.symbol trade) in
  (forall j candle,
     In j (forward_bars df_30m entry_bar_idx) -> iloc df_30m j = inr candle ->
     stop_breached trade gold candle = true ->
     (forall i row, (entry_bar_idx < i < j)%Z -> iloc df_30m i = inr row ->
                    stop_breached trade gold row = false) ->
     simulate_trade_exit cfg df_30m df_daily trade entry_bar_idx pip_value
     = inr (stopped_out trade gold pip_value candle))
  /\ ((forall i row, In i (forward_bars df_30m entry_bar_idx) ->
                     iloc df_30m i = inr row ->
                     stop_breached trade gold row = false) ->
      exists last_candle,
        iloc df_30m (Z.min (len df_30m) (entry_bar_idx + 960) - 1)
        = inr last_candle
        /\ simulate_trade_exit cfg df_30m df_daily trade entry_bar_idx pip_value
           = inr (closed_at_close trade pip_value last_candle "Max hold period")).
Proof.
  intros Hshort Hpip Hentry gold.
  assert (Hclear : forall i,
    In i (forward_bars df_30m entry_bar_idx) ->
    (forall row, iloc df_30m i = inr row -> stop_breached trade gold row = false) ->
    exit_at cfg df_30m df_daily trade gold entry_bar_idx pip_value i = inr None).
  { intros i Hi Hrow. apply forward_bars_bounds in Hi.
    destruct (iloc_in_range df_30m i) as [row Hr]; [lia |].
    rewrite (exit_at_without_daily _ _ _ _ _ _ _ _ _ Hshort Hpip Hr).
    now rewrite (Hrow _ Hr). }
  split.
  - intros j candle Hin Hj Hbreach Hbefore.
    unfold simulate_trade_exit.
    fold gold.
    unfold forward_bars, range, range_step in Hin, Hclear |- *.
    destruct (range_from_split _ _ _ _ Hin) as (before & after & Heq & Hlow).
    rewrite Heq, scan_forward_skip.
    + simpl. rewrite (exit_at_without_daily _ _ _ _ _ _ _ _ _ Hshort Hpip Hj).
      rewrite Hbreach. reflexivity.
    + intros i Hi. apply Hclear.
      * rewrite Heq. apply in_or_app. now left.
      * intros row Hr. apply (Hbefore i); [| exact Hr].
        apply Hlow in Hi. lia.
  - intro Hnone.
    destruct (max_hold_exit_value df_30m trade entry_bar_idx pip_value Hpip)
      as (last_candle & Hlast & Hmax); [lia | lia |].
    exists last_candle. split; [exact Hlast |].
    unfold simulate_trade_exit.
    fold gold.
    rewrite <- (app_nil_r (forward_bars df_30m entry_bar_idx)).
    rewrite scan_forward_skip; [simpl; exact Hmax |].
    intros i Hi. apply Hclear; [exact Hi |]. intros row Hr. eapply Hnone; eauto.
Qed.

Lemma simulate_without_daily_data_witness :
  simulate_trade_exit default_config falling_pair [] long_trade 0 (get_pip_value "EURUSD")
  = inr (stopped_out long_trade false (get_pip_value "EURUSD")
                     (bar 1800 (11 # 10) (11 # 10) (109 # 100) (1092 # 1000))).
Proof.
  refine (proj1 (simulate_without_daily_data default_config falling_pair []
                   long_trade 0 (get_pip_value "EURUSD") _ _ _) 1%Z _ _ _ _ _).
  - reflexivity.
  - intro H. vm_compute in H. discriminate H.
  - vm_compute. split; [discriminate | reflexivity].
  - vm_compute. now left.
  - reflexivity.
  - vm_compute. reflexivity.
  - intros i row Hi. lia.
Defined.

Lemma iloc_nil {A} (index : Z) : iloc (@nil A) index = inl IndexError.
Proof. apply iloc_out_of_range. unfold len. simpl. lia. Qed.

(** X19: the edges of [simulate_trade_exit].  An empty 30M frame raises
    [IndexError], whatever the pip value.  With a nonzero pip value an entry
    on the last bar or beyond it has no bar to scan, so the trade is closed
    at once at the close of the last bar as "Max hold period".  With a zero
    pip value no exit yields a finite profit: every exit divides by the pip
    value, and the code records inf, -inf or nan without raising. *)
Theorem simulate_trade_exit_edges cfg df_30m df_daily trade entry_bar_idx
        pip_value :
  simulate_trade_exit cfg [] df_daily trade entry_bar_idx pip_value
  = inl IndexError
  /\ (~ pip_value == 0 -> (0 < len df_30m)%Z ->
      (len df_30m - 1 <= entry_bar_idx)%Z ->
      exists last_candle,
        iloc df_30m (-1) = inr last_candle
        /\ simulate_trade_exit cfg df_30m df_daily trade entry_bar_idx pip_value
           = inr (closed_at_close trade pip_value last_candle "Max hold period"))
  /\ (pip_value == 0 ->
      forall closed,
        simulate_trade_exit cfg df_30m df_daily trade entry_bar_idx pip_value
        <> inr closed).
Proof.
  split; [| split].
  - unfold simulate_trade_exit.
    destruct (forward_bars [] entry_bar_idx) as [| i bars].
    + simpl. unfold max_hold_exit.
      destruct (_ <? _)%Z; now rewrite iloc_nil.
    + simpl. unfold exit_at. now rewrite iloc_nil.
  - intros Hpip Hlen Hlate.
    destruct (iloc_in_range df_30m (-1)) as [last_candle Hlast]; [lia |].
    exists last_candle. split; [exact Hlast |].
    unfold simulate_trade_exit.
    assert (Hbars : forward_bars df_30m entry_bar_idx = []).
    { unfold forward_bars, range, range_step.
      replace (Z.to_nat (Z.min (len df_30m) (entry_bar_idx + 960)
                         - (entry_bar_idx + 1))) with 0%nat by lia.
      reflexivity. }
    rewrite Hbars. simpl. unfold max_hold_exit, closed_at_close, signed_pips.
    destruct (Z.min (len df_30m) (entry_bar_idx + 960) <? len df_30m)%Z eqn:E;
      [apply Z.ltb_lt in E; lia |].
    rewrite Hlast. simpl.
    destruct (BacktestTrade.direction trade =? "BUY"); now rewrite fdiv_total.
  - intros Hzero closed H. apply simulate_trade_exit_closes in H.
    destruct H as [Hpip _]. contradiction.
Qed.

Lemma simulate_trade_exit_edges_witness :
  exists last_candle,
    iloc rising_pair (-1) = inr last_candle
    /\ simulate_trade_exit default_config rising_pair [] long_trade 1
                           (get_pip_value "EURUSD")
       = inr (closed_at_close long_trade (get_pip_value "EURUSD") last_candle
                              "Max hold period").
Proof.
  apply (proj1 (proj2 (simulate_trade_exit_edges default_config rising_pair []
                         long_trade 1 (get_pip_value "EURUSD")))).
  - apply get_pip_value_nonzero.
  - reflexivity.
  - vm_compute. discriminate.
Defined.

(** ** Sliding scan: what is recorded, and that the scan cannot fail *)

Lemma scan_window_unguarded_last cfg df_30m df_daily symbol pip_value st
      start_idx st' :
  scan_window_unguarded cfg df_30m df_daily symbol pip_value st start_idx
  = inr st' ->
  last_trade_idx st' = last_trade_idx st \/ last_trade_idx st' = start_idx.
Proof.
  unfold scan_window_unguarded. intro H. exc_inv H. destruct a as [signal |].
  - destruct (key_in _ _).
    + injection H as <-. now left.
    + exc_inv H. exc_inv H. injection H as <-. now right.
  - injection H as <-. now left.
Qed.

Lemma scan_window_guard_off cfg df_30m df_daily symbol pip_value st start_idx :
  (last_trade_idx st + 10 <= start_idx)%Z ->
  scan_window cfg df_30m df_daily symbol pip_value st start_idx
  = scan_window_unguarded cfg df_30m df_daily symbol pip_value st start_idx.
Proof.
  intro H. unfold scan_window, scan_window_unguarded.
  destruct (start_idx - last_trade_idx st <? 10)%Z eqn:E;
    [apply Z.ltb_lt in E; lia | reflexivity].
Qed.

Lemma scan_windows_guard_off cfg df_30m df_daily symbol pip_value stop step :
  (10 <= step)%Z ->
  forall fuel start_idx st,
    (last_trade_idx st + 10 <= start_idx)%Z ->
    scan_windows cfg df_30m df_daily symbol pip_value st
                 (range_from fuel start_idx stop step)
    = scan_windows_unguarded cfg df_30m df_daily symbol pip_value st
                             (range_from fuel start_idx stop step).
Proof.
  intro Hstep. induction fuel as [| fuel IH]; intros start_idx st Hcool;
    [reflexivity |].
  simpl. destruct (start_idx <? stop)%Z; [| reflexivity].
  simpl. rewrite (scan_window_guard_off _ _ _ _ _ _ _ Hcool).
  destruct (scan_window_unguarded cfg df_30m df_daily symbol pip_value st start_idx)
    as [e | st'] eqn:E; [reflexivity |].
  simpl. apply IH. apply scan_window_unguarded_last in E. lia.
Qed.

(** X20: the cool-down test of the sliding scan never skips a window.  The
    windows start 25 bars apart and the test asks for fewer than 10 bars
    since the last trade, so [backtest_symbol] records exactly what the scan
    without that test records. *)
Theorem cooldown_never_skips cfg df_30m df_daily symbol :
  backtest_symbol cfg df_30m df_daily symbol
  = if (len df_30m =? 0)%Z then ret []
    else
      st <- scan_windows_unguarded
              cfg (enriched_30m cfg df_30m)
              (if negb (len df_daily =? 0)%Z
               then calculate_emas df_daily (EMA_FAST_PERIODS cfg)
               else df_daily)
              symbol (get_pip_value symbol)
              (mkScanState [] (- window_size) [])
              (window_starts (enriched_30m cfg df_30m)) ;;
      ret (trades st).
Proof.
  unfold backtest_symbol. destruct (len df_30m =? 0)%Z; [reflexivity |].
  fold (enriched_30m cfg df_30m). fold (window_starts (enriched_30m cfg df_30m)).
  unfold window_starts, range_step.
  rewrite scan_windows_guard_off; [reflexivity | now unfold window_size |].
  unfold window_size. simpl. lia.
Qed.

(** What the sliding scan adds for one window. *)
Lemma scan_window_adds cfg df_30m df_daily symbol pip_value st start_idx st' :
  scan_window cfg df_30m df_daily symbol pip_value st start_idx = inr st' ->
  trades st' = trades st
  \/ exists signal closed rr,
       validate_trident_pattern
         cfg (slice df_30m start_idx (start_idx + window_size)) symbol true
       = inr (Some signal)
       /\ simulate_trade_exit
            cfg df_30m df_daily
            (BacktestTrade.new symbol (TradeSignal.direction signal)
                               (TradeSignal.entry_price signal)
                               (TradeSignal.signal_time signal)
                               (TradeSignal.stop_loss signal))
            (start_idx + TradeSignal.confirmation_idx signal) pip_value
          = inr closed
       /\ trades st' = (trades st ++ [BacktestTrade.set_rr_ratio closed rr])%list.
Proof.
  unfold scan_window. intro H.
  destruct (start_idx - last_trade_idx st <? 10)%Z;
    [injection H as <-; now left |].
  exc_inv H. destruct a as [signal |]; [| injection H as <-; now left].
  destruct (key_in _ _); [injection H as <-; now left |].
  exc_inv H. rename a into closed. exc_inv H. injection H as <-.
  right. apply set_risk_reward_ok in Ha1.
  destruct Ha1 as [[_ ->] | [_ ->]]; eexists signal, closed, _;
    (split; [eassumption | split; [eassumption | reflexivity]]).
Qed.

Lemma validate_direction cfg df symbol check_time signal :
  validate_trident_pattern cfg df symbol check_time = inr (Some signal) ->
  TradeSignal.direction signal = "BUY" \/ TradeSignal.direction signal = "SELL".
Proof.
  intro H. apply validate_trident_pattern_origin in H.
  destruct H as (fvg & _ & Hc). apply check_candidate_signal in Hc.
  destruct Hc as (c & _ & _ & [[_ ->] | [_ ->]]); auto.
Qed.

(** A trade as [backtest_symbol] records it for [symbol]. *)
Lemma scan_windows_recorded cfg df_30m df_daily symbol pip_value
      (P : BacktestTrade.t -> Prop) :
  (forall signal closed rr start_idx,
     validate_trident_pattern
       cfg (slice df_30m start_idx (start_idx + window_size)) symbol true
     = inr (Some signal) ->
     simulate_trade_exit
       cfg df_30m df_daily
       (BacktestTrade.new symbol (TradeSignal.direction signal)
                          (TradeSignal.entry_price signal)
                          (TradeSignal.signal_time signal)
                          (TradeSignal.stop_loss signal))
       (start_idx + TradeSignal.confirmation_idx signal) pip_value
     = inr closed ->
     P (BacktestTrade.set_rr_ratio closed rr)) ->
  forall starts st st',
    scan_windows cfg df_30m df_daily symbol pip_value st starts = inr st' ->
    Forall P (trades st) ->
    Forall P (trades st')
    /\ (List.length (trades st')
        <= List.length (trades st) + List.length starts)%nat.
Proof.
  intro HP. induction starts as [| s starts IH]; intros st st' H Hall.
  - injection H as <-. split; [exact Hall | lia].
  - simpl in H. exc_inv H. rename a into mid.
    pose proof (scan_window_adds _ _ _ _ _ _ _ _ Ha) as Hadd.
    assert (Hmid : Forall P (trades mid)
                   /\ (List.length (trades mid) <= S (List.length (trades st)))%nat).
    { destruct Hadd as [-> | (signal & closed & rr & Hv & Hs & ->)].
      - split; [exact Hall | lia].
      - split.
        + apply Forall_app. split; [exact Hall |]. constructor; [| constructor].
          eapply HP; eassumption.
        + rewrite length_app. simpl. lia. }
    destruct Hmid as [Hall' Hlen'].
    destruct (IH _ _ H Hall') as [Hfinal Hlen]. split; [exact Hfinal |].
    simpl. lia.
Qed.

(** X21: every trade [backtest_symbol] records is a closed trade of the
    symbol: BUY or SELL, with an exit time, an exit reason out of the four
    and result WIN or LOSS.  There is at most one trade per sliding window,
    and a frame of 50 bars or fewer (no full window before the end) gives
    no trade at all. *)
Theorem recorded_trades_closed cfg df_30m df_daily symbol recorded :
  backtest_symbol cfg df_30m df_daily symbol = inr recorded ->
  Forall (fun t =>
            BacktestTrade.symbol t = symbol
            /\ (BacktestTrade.direction t = "BUY"
                \/ BacktestTrade.direction t = "SELL")
            /\ (BacktestTrade.result t = "WIN" \/ BacktestTrade.result t = "LOSS")
            /\ BacktestTrade.exit_time t <> None
            /\ (BacktestTrade.exit_reason t = "Stop loss hit"
                \/ BacktestTrade.exit_reason t = "Gold candle close filter"
                \/ BacktestTrade.exit_reason t = "Daily EMA unstack"
                \/ BacktestTrade.exit_reason t = "Max hold period"))
         recorded
  /\ (List.length recorded
      <= List.length (window_starts (enriched_30m cfg df_30m)))%nat
  /\ ((len df_30m <= 50)%Z -> recorded = []).
Proof.
  unfold backtest_symbol. fold (enriched_30m cfg df_30m).
  fold (window_starts (enriched_30m cfg df_30m)).
  destruct (len df_30m =? 0)%Z.
  { intro H. injection H as <-. split; [constructor |]. split; [simpl; lia | auto]. }
  intro H. exc_inv H. rename a into final. injection H as <-.
  eapply scan_windows_recorded in Ha; [| | constructor].
  - destruct Ha as [Hall Hlen]. simpl in Hlen.
    split; [exact Hall |]. split; [exact Hlen |].
    intro Hshort.
    assert (Hnone : window_starts (enriched_30m cfg df_30m) = []).
    { unfold window_starts, range_step, enriched_30m.
      rewrite calculate_emas_len. unfold window_size.
      replace (Z.to_nat (len df_30m - 50 - 0)) with 0%nat by lia. reflexivity. }
    rewrite Hnone in Hlen. simpl in Hlen.
    destruct (trades final); [reflexivity | simpl in Hlen; lia].
  - intros signal closed rr start_idx Hv Hs. simpl.
    pose proof (validate_direction _ _ _ _ _ Hv) as Hdir.
    apply simulate_trade_exit_detail in Hs.
    destruct Hs as (_ & j & candle & _ & _ & Hcase).
    destruct Hcase as [j candle Hb | j candle _ _ _ | candle].
    + unfold stopped_out. simpl.
      destruct (is_gold symbol); simpl; repeat split; auto; discriminate.
    + unfold closed_at_close. simpl.
      repeat split; auto using win_or_loss_cases; discriminate.
    + unfold closed_at_close. simpl.
      repeat split; auto using win_or_loss_cases; discriminate.
Qed.

Lemma recorded_trades_closed_witness :
  exists recorded,
    backtest_symbol default_config straddling [] "EURUSD" = inr recorded
    /\ (List.length recorded
        <= List.length (window_starts (enriched_30m default_config straddling)))%nat.
Proof.
  eexists. split; [vm_compute; reflexivity |].
  apply (recorded_trades_closed default_config straddling [] "EURUSD").
  vm_compute. reflexivity.
Defined.

Lemma firstn_In {A} : forall (n : nat) (l : list A) x, In x (firstn n l) -> In x l.
Proof.
  induction n as [| n IH]; intros [| a l] x H; simpl in H; try contradiction.
  destruct H as [<- | H]; [now left | right; auto].
Qed.

Lemma skipn_In {A} : forall (n : nat) (l : list A) x, In x (skipn n l) -> In x l.
Proof.
  induction n as [| n IH]; intros [| a l] x H; simpl in H; try contradiction;
    auto. right. auto.
Qed.

Lemma slice_In {A} (df : list A) start stop x :
  In x (slice df start stop) -> In x df.
Proof. unfold slice. intro H. eapply skipn_In, firstn_In, H. Qed.

Lemma slice_len {A} (df : list A) start stop :
  (0 <= start)%Z -> (len (slice df start stop) <= len df - start)%Z
                    \/ len (slice df start stop) = 0%Z.
Proof.
  intro H. unfold slice, len.
  rewrite length_firstn, length_skipn.
  destruct (Nat.le_gt_cases (Z.to_nat start) (List.length df)); [left | right]; lia.
Qed.

Lemma simulate_trade_exit_returns cfg df_30m df_daily trade entry_bar_idx
      pip_value :
  (- len df_30m <= entry_bar_idx < len df_30m)%Z -> ~ pip_value == 0 ->
  exists closed,
    simulate_trade_exit cfg df_30m df_daily trade entry_bar_idx pip_value
    = inr closed.
Proof.
  intros Hentry Hpip. unfold simulate_trade_exit.
  destruct (scan_forward_total cfg df_30m df_daily trade
              (is_gold (BacktestTrade.symbol trade)) entry_bar_idx pip_value Hpip
              (forward_bars df_30m entry_bar_idx)) as [[found |] ->].
  - intros i Hi. apply forward_bars_bounds in Hi. lia.
  - simpl. eexists; reflexivity.
  - simpl. apply max_hold_exit_total; assumption.
Qed.

Lemma set_risk_reward_returns trade pip_value :
  exists final, set_risk_reward trade pip_value = inr final.
Proof.
  unfold set_risk_reward.
  destruct (fgt _ 0) eqn:E; [| eexists; reflexivity].
  apply fgt_true in E. rewrite fdiv_total by lra. simpl. eexists; reflexivity.
Qed.

Lemma scan_window_returns cfg df_30m df_daily symbol pip_value st start_idx :
  has_ema_columns (EMA_FAST_PERIODS cfg) df_30m ->
  ~ pip_value == 0 -> (0 <= start_idx)%Z ->
  exists st', scan_window cfg df_30m df_daily symbol pip_value st start_idx
              = inr st'.
Proof.
  intros Hcols Hpip Hstart. unfold scan_window.
  destruct (start_idx - last_trade_idx st <? 10)%Z; [eexists; reflexivity |].
  set (window := slice df_30m start_idx (start_idx + window_size)).
  assert (Hwcols : has_ema_columns (EMA_FAST_PERIODS cfg) window).
  { intros row Hrow. apply Hcols. eapply slice_In; eassumption. }
  destruct (validate_trident_pattern_returns cfg window symbol true Hwcols)
    as [[signal |] Hv]; rewrite Hv; simpl; [| eexists; reflexivity].
  destruct (key_in _ _); [eexists; reflexivity |].
  assert (Hidx : (0 <= TradeSignal.confirmation_idx signal < len window)%Z).
  { destruct (validate_trident_pattern_origin _ _ _ _ _ Hv) as (fvg & Hin & Hc).
    apply find_fvgs_indices in Hin.
    destruct (check_candidate_signal _ _ _ _ _ _ Hc) as (c & _ & Hlen & Hsig).
    destruct Hsig as [[_ ->] | [_ ->]]; simpl; lia. }
  assert (Hrange : (- len df_30m <= start_idx + TradeSignal.confirmation_idx signal
                    < len df_30m)%Z).
  { subst window. destruct (slice_len df_30m start_idx (start_idx + window_size)
                                      Hstart); unfold len in *; lia. }
  destruct (simulate_trade_exit_returns
              cfg df_30m df_daily
              (BacktestTrade.new symbol (TradeSignal.direction signal)
                                 (TradeSignal.entry_price signal)
                                 (TradeSignal.signal_time signal)
                                 (TradeSignal.stop_loss signal))
              _ pip_value Hrange Hpip) as [closed ->].
  simpl. destruct (set_risk_reward_returns closed pip_value) as [final ->].
  simpl. eexists; reflexivity.
Qed.

Lemma scan_windows_returns cfg df_30m df_daily symbol pip_value :
  has_ema_columns (EMA_FAST_PERIODS cfg) df_30m -> ~ pip_value == 0 ->
  forall starts st,
    (forall s, In s starts -> (0 <= s)%Z) ->
    exists st', scan_windows cfg df_30m df_daily symbol pip_value st starts
                = inr st'.
Proof.
  intros Hcols Hpip. induction starts as [| s starts IH]; intros st Hall; simpl.
  - eexists; reflexivity.
  - destruct (scan_window_returns cfg df_30m df_daily symbol pip_value st s
                                  Hcols Hpip) as [mid ->]; [apply Hall; now left |].
    simpl. apply IH. intros k Hk. apply Hall. now right.
Qed.

Lemma backtest_symbol_returns cfg df_30m df_daily symbol :
  exists recorded, backtest_symbol cfg df_30m df_daily symbol = inr recorded.
Proof.
  unfold backtest_symbol. destruct (len df_30m =? 0)%Z; [eexists; reflexivity |].
  fold (enriched_30m cfg df_30m).
  assert (Hcols : has_ema_columns (EMA_FAST_PERIODS cfg) (enriched_30m cfg df_30m)).
  { intros row Hrow p Hp.
    apply (calculate_emas_has_columns _ _ row Hrow). apply in_or_app. now left. }
  assert (Hstarts : forall s,
            In s (range_step 0 (len (enriched_30m cfg df_30m) - window_size)
                             (window_size / 2)) -> (0 <= s)%Z).
  { intros s Hs. unfold range_step in Hs.
    apply range_from_bounds in Hs; [lia | now unfold window_size]. }
  destruct (scan_windows_returns
              cfg (enriched_30m cfg df_30m)
              (if negb (len df_daily =? 0)%Z
               then calculate_emas df_daily (EMA_FAST_PERIODS cfg)
               else df_daily)
              symbol (get_pip_value symbol) Hcols (get_pip_value_nonzero symbol)
              _ (mkScanState [] (- window_size) []) Hstarts) as [final ->].
  simpl. eexists; reflexivity.
Qed.

Lemma inject_Z_nonzero z : (z <> 0)%Z -> ~ inject_Z z == 0.
Proof.
  intros Hz H. apply Hz. unfold Qeq in H. simpl in H. lia.
Qed.

Lemma summarize_returns symbol recorded :
  exists result, summarize symbol recorded = inr result.
Proof.
  unfold summarize.
  assert (Hrate : exists w,
    (if (len recorded >? 0)%Z
     then r <- truediv (inject_Z (count_result "WIN" recorded))
                       (inject_Z (len recorded)) ;; ret (r * 100)
     else ret 0) = inr w).
  { destruct (len recorded >? 0)%Z eqn:E; [| eexists; reflexivity].
    rewrite truediv_total; [simpl; eexists; reflexivity |].
    apply inject_Z_nonzero. apply Z.gtb_lt in E. lia. }
  destruct Hrate as [w ->]. simpl.
  destruct (filter _ (map BacktestTrade.rr_ratio recorded)) as [| v vs] eqn:Ev.
  - simpl. eexists; reflexivity.
  - unfold np_mean. rewrite truediv_total; [simpl; eexists; reflexivity |].
    apply inject_Z_nonzero. unfold len. simpl. lia.
Qed.

(** X22: a backtest cannot fail.  Whatever the two frames and the symbol,
    [backtest_symbol] raises no exception: every window is indexed inside
    the frame, every EMA column it reads has been computed, the pip value
    is never zero and no statistic divides by zero. *)
Theorem backtest_never_raises cfg df_30m df_daily symbol :
  exists result recorded,
    backtest_symbol_result cfg df_30m df_daily symbol = inr result
    /\ backtest_symbol cfg df_30m df_daily symbol = inr recorded
    /\ BacktestResult.trades result = recorded.
Proof.
  destruct (backtest_symbol_returns cfg df_30m df_daily symbol) as [recorded Hr].
  unfold backtest_symbol_result. rewrite Hr. simpl.
  destruct (len df_30m =? 0)%Z eqn:E.
  - exists (BacktestResult.new symbol), recorded.
    split; [reflexivity |]. split; [reflexivity |].
    unfold backtest_symbol in Hr. rewrite E in Hr. now injection Hr as <-.
  - destruct (summarize_returns symbol recorded) as [result Hs].
    exists result, recorded. split; [exact Hs |]. split; [reflexivity |].
    unfold summarize in Hs. exc_inv Hs. exc_inv Hs. now injection Hs as <-.
Qed.

(** ** Summary statistics *)

Lemma backtest_symbol_results cfg df_30m df_daily symbol recorded :
  backtest_symbol cfg df_30m df_daily symbol = inr recorded ->
  Forall (fun t => BacktestTrade.result t = "WIN"
                   \/ BacktestTrade.result t = "LOSS") recorded.
Proof.
  unfold backtest_symbol. destruct (len df_30m =? 0)%Z.
  { intro H. injection H as <-. constructor. }
  intro H. exc_inv H. injection H as <-.
  eapply scan_windows_recorded in Ha; [apply Ha | | constructor].
  intros signal closed rr start_idx _ Hs. simpl.
  apply simulate_trade_exit_closes in Hs.
  destruct Hs as (_ & j & candle & _ & _ & px & pnl & res & reason & -> & Hres & _).
  exact Hres.
Qed.

Lemma count_result_split (recorded : list BacktestTrade.t) :
  Forall (fun t => BacktestTrade.result t = "WIN"
                   \/ BacktestTrade.result t = "LOSS") recorded ->
  (count_result "WIN" recorded + count_result "LOSS" recorded = len recorded)%Z.
Proof.
  intro H. unfold count_result, len. rewrite <- Nat2Z.inj_add. f_equal.
  induction H as [| t l Ht Hl IH]; [reflexivity |].
  simpl. destruct Ht as [-> | ->]; simpl; lia.
Qed.

Lemma count_result_bounds r (recorded : list BacktestTrade.t) :
  (0 <= count_result r recorded <= len recorded)%Z.
Proof.
  unfold count_result. pose proof (filter_len
    (fun t => BacktestTrade.result t =? r) recorded). unfold len in *. lia.
Qed.

Lemma summarize_fields symbol recorded result :
  summarize symbol recorded = inr result ->
  BacktestResult.symbol result = symbol
  /\ BacktestResult.trades result = recorded
  /\ BacktestResult.total_trades result = len recorded
  /\ BacktestResult.wins result = count_result "WIN" recorded
  /\ BacktestResult.losses result = count_result "LOSS" recorded
  /\ (if (len recorded >? 0)%Z
      then BacktestResult.win_rate result
           = inject_Z (count_result "WIN" recorded) / inject_Z (len recorded) * 100
      else BacktestResult.win_rate result = 0)
  /\ BacktestResult.max_drawdown_pips result
     = max_drawdown (map BacktestTrade.pnl_pips recorded)
  /\ BacktestResult.best_trade_pips result
     = match map BacktestTrade.pnl_pips recorded with
       | [] => 0
       | x :: rest => py_max x rest
       end
  /\ BacktestResult.worst_trade_pips result
     = match map BacktestTrade.pnl_pips recorded with
       | [] => 0
       | x :: rest => py_min x rest
       end.
Proof.
  unfold summarize. intro H. exc_inv H. exc_inv H. injection H as <-. simpl.
  repeat split.
  destruct (len recorded >? 0)%Z.
  - exc_inv Ha. apply truediv_ok in Ha1. destruct Ha1 as [_ ->].
    now injection Ha as <-.
  - now injection Ha as <-.
Qed.

(** X23: the counts of a backtest add up.  In the result of
    [backtest_symbol] every recorded trade is a win or a loss, so wins plus
    losses is the number of trades, and the win rate is a percentage
    between 0 and 100 (0 when there is no trade). *)
Theorem summary_counts cfg df_30m df_daily symbol result :
  backtest_symbol_result cfg df_30m df_daily symbol = inr result ->
  BacktestResult.symbol result = symbol
  /\ BacktestResult.total_trades result = len (BacktestResult.trades result)
  /\ (BacktestResult.wins result + BacktestResult.losses result
      = BacktestResult.total_trades result)%Z
  /\ (0 <= BacktestResult.wins result)%Z
  /\ (0 <= BacktestResult.losses result)%Z
  /\ 0 <= BacktestResult.win_rate result <= 100
  /\ (BacktestResult.total_trades result = 0%Z ->
      BacktestResult.win_rate result = 0).
Proof.
  unfold backtest_symbol_result.
  destruct (len df_30m =? 0)%Z.
  { intro H. injection H as <-. simpl. repeat split; try lia; try lra. }
  intro H. exc_inv H. rename a into recorded.
  pose proof (backtest_symbol_results _ _ _ _ _ Ha) as Hres.
  apply summarize_fields in H.
  destruct H as (Hsym & Htr & Htot & Hw & Hl & Hrate & _).
  pose proof (count_result_split _ Hres) as Hsum.
  pose proof (count_result_bounds "WIN" recorded) as Hwb.
  pose proof (count_result_bounds "LOSS" recorded) as Hlb.
  rewrite Htr, Htot, Hw, Hl.
  split; [exact Hsym |]. split; [reflexivity |]. split; [exact Hsum |].
  split; [lia |]. split; [lia |].
  destruct (len recorded >? 0)%Z eqn:E.
  - apply Z.gtb_lt in E. rewrite Hrate. split; [| lia].
    assert (Hpos : 0 < inject_Z (len recorded))
      by (change 0 with (inject_Z 0); now apply inject_Z_lt).
    assert (H0 : 0 <= inject_Z (count_result "WIN" recorded))
      by (change 0 with (inject_Z 0); apply inject_Z_le; lia).
    assert (H1 : inject_Z (count_result "WIN" recorded)
                 <= inject_Z (len recorded)) by (apply inject_Z_le; lia).
    assert (Hfrac : 0 <= inject_Z (count_result "WIN" recorded)
                         / inject_Z (len recorded) <= 1).
    { split.
      - apply Qle_shift_div_l; [exact Hpos | lra].
      - apply Qle_shift_div_r; [exact Hpos | lra]. }
    lra.
  - rewrite Hrate. split; [lra | reflexivity].
Qed.

Lemma summary_counts_witness :
  exists result,
    backtest_symbol_result default_config straddling [] "EURUSD" = inr result
    /\ (BacktestResult.wins result + BacktestResult.losses result
        = BacktestResult.total_trades result)%Z
    /\ BacktestResult.total_trades result = 1%Z.
Proof.
  eexists. split; [vm_compute; reflexivity |].
  split; [| reflexivity].
  apply (summary_counts default_config straddling [] "EURUSD").
  vm_compute. reflexivity.
Defined.

Lemma py_max_spec : forall rest x,
  x <= py_max x rest
  /\ (forall y, In y rest -> y <= py_max x rest)
  /\ (py_max x rest = x \/ In (py_max x rest) rest).
Proof.
  unfold py_max. induction rest as [| y rest IH]; intro x; simpl.
  - split; [apply Qle_refl |]. split; [intros y [] | now left].
  - destruct (IH (if fgt y x then y else x)) as (Hge & Hall & Hin).
    destruct (fgt y x) eqn:E;
      [apply fgt_true in E | apply fgt_false in E].
    + split; [lra |]. split.
      * intros z [<- | Hz]; [exact Hge | auto].
      * destruct Hin as [-> | Hin]; right; [now left | now right].
    + split; [exact Hge |]. split.
      * intros z [<- | Hz]; [lra | auto].
      * destruct Hin as [-> | Hin]; [now left | right; now right].
Qed.

Lemma py_min_spec : forall rest x,
  py_min x rest <= x
  /\ (forall y, In y rest -> py_min x rest <= y)
  /\ (py_min x rest = x \/ In (py_min x rest) rest).
Proof.
  unfold py_min. induction rest as [| y rest IH]; intro x; simpl.
  - split; [apply Qle_refl |]. split; [intros y [] | now left].
  - destruct (IH (if flt y x then y else x)) as (Hle & Hall & Hin).
    destruct (flt y x) eqn:E;
      [apply flt_true in E | apply flt_false in E].
    + split; [lra |]. split.
      * intros z [<- | Hz]; [exact Hle | auto].
      * destruct Hin as [-> | Hin]; right; [now left | now right].
    + split; [exact Hle |]. split.
      * intros z [<- | Hz]; [lra | auto].
      * destruct Hin as [-> | Hin]; [now left | right; now right].
Qed.

(** X24: best and worst trade.  In the statistics of a list of trades the
    profit of every trade lies between [worst_trade_pips] and
    [best_trade_pips], and both are the profit of some trade of the list;
    for an empty list both are 0. *)
Theorem summary_best_worst symbol recorded result :
  summarize symbol recorded = inr result ->
  (forall t, In t recorded ->
             BacktestResult.worst_trade_pips result <= BacktestTrade.pnl_pips t
             /\ BacktestTrade.pnl_pips t <= BacktestResult.best_trade_pips result)
  /\ (recorded <> [] ->
      exists best worst,
        In best recorded /\ In worst recorded
        /\ BacktestResult.best_trade_pips result = BacktestTrade.pnl_pips best
        /\ BacktestResult.worst_trade_pips result = BacktestTrade.pnl_pips worst)
  /\ (recorded = [] ->
      BacktestResult.best_trade_pips result = 0
      /\ BacktestResult.worst_trade_pips result = 0).
Proof.
  intro H. apply summarize_fields in H.
  destruct H as (_ & _ & _ & _ & _ & _ & _ & Hbest & Hworst).
  destruct recorded as [| t0 rest].
  - simpl in Hbest, Hworst. split; [intros t [] |].
    split; [intro Hne; now contradiction Hne | auto].
  - simpl in Hbest, Hworst. rewrite Hbest, Hworst.
    destruct (py_max_spec (map BacktestTrade.pnl_pips rest)
                          (BacktestTrade.pnl_pips t0)) as (Hx & Hall & Hin).
    destruct (py_min_spec (map BacktestTrade.pnl_pips rest)
                          (BacktestTrade.pnl_pips t0)) as (Hx' & Hall' & Hin').
    split; [| split; [| discriminate]].
    + intros t [<- | Ht]; [split; assumption |].
      split; [apply Hall' | apply Hall]; now apply in_map.
    + intros _.
      assert (Hb : exists best, In best (t0 :: rest)
                /\ py_max (BacktestTrade.pnl_pips t0)
                          (map BacktestTrade.pnl_pips rest)
                   = BacktestTrade.pnl_pips best).
      { destruct Hin as [-> | Hin]; [exists t0; split; [now left | reflexivity] |].
        apply in_map_iff in Hin. destruct Hin as (b & Hbv & Hbin).
        exists b. split; [now right | now symmetry]. }
      assert (Hw : exists worst, In worst (t0 :: rest)
                /\ py_min (BacktestTrade.pnl_pips t0)
                          (map BacktestTrade.pnl_pips rest)
                   = BacktestTrade.pnl_pips worst).
      { destruct Hin' as [-> | Hin']; [exists t0; split; [now left | reflexivity] |].
        apply in_map_iff in Hin'. destruct Hin' as (b & Hbv & Hbin).
        exists b. split; [now right | now symmetry]. }
      destruct Hb as (best & Hbi & Hbe). destruct Hw as (worst & Hwi & Hwe).
      exists best, worst. auto.
Qed.

Lemma summary_best_worst_witness :
  exists result,
    summarize "EURUSD" curve_trades = inr result
    /\ forall t, In t curve_trades ->
                 BacktestResult.worst_trade_pips result <= BacktestTrade.pnl_pips t
                 /\ BacktestTrade.pnl_pips t <= BacktestResult.best_trade_pips result.
Proof.
  eexists. split; [vm_compute; reflexivity |].
  apply (summary_best_worst "EURUSD" curve_trades).
  vm_compute. reflexivity.
Defined.







(** ** Symbols *)

Lemma upper_ascii_idempotent c : upper_ascii (upper_ascii c) = upper_ascii c.
Proof. destruct c as [[] [] [] [] [] [] [] []]; reflexivity. Qed.

Lemma upper_idempotent : forall s, upper (upper s) = upper s.
Proof.
  induction s as [| c s IH]; simpl; [reflexivity |].
  now rewrite upper_ascii_idempotent, IH.
Qed.

(** X26: symbols are classified without regard to case, and the two
    classifications agree.  [get_pip_value] answers 0.01, 0.1 or 0.0001
    (the floats nearest to them), always positive; it and the gold test
    give the same answer for a symbol and for its upper-case form; every
    symbol the gold test accepts (XAUUSD, GOLD) has pip value 0.1. *)
Theorem symbol_classification symbol :
  (get_pip_value symbol = float64 (1 # 100)
   \/ get_pip_value symbol = float64 (1 # 10)
   \/ get_pip_value symbol = float64 (1 # 10000))
  /\ 0 < get_pip_value symbol
  /\ get_pip_value (upper symbol) = get_pip_value symbol
  /\ is_gold (upper symbol) = is_gold symbol
  /\ (is_gold symbol = true -> get_pip_value symbol = float64 (1 # 10)).
Proof.
  split; [| split; [| split; [| split]]].
  - unfold get_pip_value. destruct (contains "JPY" (upper symbol)); [auto |].
    destruct (_ || _); auto.
  - unfold get_pip_value. destruct (contains "JPY" (upper symbol)); [reflexivity |].
    destruct (_ || _); reflexivity.
  - unfold get_pip_value. now rewrite upper_idempotent.
  - unfold is_gold. now rewrite upper_idempotent.
  - unfold is_gold, str_in, get_pip_value. simpl. intro H.
    apply orb_true_iff in H. destruct H as [H | H].
    + apply String.eqb_eq in H. rewrite H. reflexivity.
    + apply orb_true_iff in H. destruct H as [H | H]; [| discriminate H].
      apply String.eqb_eq in H. rewrite H. reflexivity.
Qed.

(** ** Trade manager *)

Lemma strong_body_returns candle : exists b, strong_body candle = inr b.
Proof.
  unfold strong_body. destruct (fgt (fsub (high candle) (low candle)) 0) eqn:E;
    [| eexists; reflexivity].
  apply fgt_true in E. rewrite fdiv_total by lra. simpl. eexists; reflexivity.
Qed.

(** X27: [should_exit_on_daily] asks for nothing it cannot check.  With
    fewer than three daily rows, or a direction other than BUY and SELL, it
    answers [False]; on a frame that carries the fast EMA columns it never
    raises, a flat last candle (high equal to low) included. *)
Theorem should_exit_on_daily_safe cfg daily_df direction :
  ((len daily_df < 3)%Z -> should_exit_on_daily cfg daily_df direction = inr false)
  /\ (direction <> "BUY" -> direction <> "SELL" ->
      should_exit_on_daily cfg daily_df direction = inr false)
  /\ (has_ema_columns (EMA_FAST_PERIODS cfg) daily_df ->
      exists b, should_exit_on_daily cfg daily_df direction = inr b).
Proof.
  unfold should_exit_on_daily.
  destruct (len daily_df <? 3)%Z eqn:Elen.
  { repeat split; auto. intros _. eexists; reflexivity. }
  apply Z.ltb_ge in Elen.
  destruct (iloc_in_range daily_df (-1)) as [last_candle ->]; [lia |].
  destruct (iloc_in_range daily_df (-2)) as [prev_candle ->]; [lia |].
  simpl. split; [lia |]. split.
  - intros Hb Hs. apply String.eqb_neq in Hb, Hs. now rewrite Hb, Hs.
  - intro Hcols.
    destruct (strong_body_returns last_candle) as [strong Hstrong].
    destruct (direction =? "BUY").
    + destruct (are_emas_stacked_total cfg daily_df "long" (-1) Hcols) as [b1 ->].
      destruct (are_emas_stacked_total cfg daily_df "long" (-2) Hcols) as [b2 Hb2].
      simpl. destruct b1; simpl; [| rewrite Hb2; simpl; destruct b2];
        try (eexists; reflexivity);
        rewrite Hstrong; simpl;
        match goal with
        | |- context [if ?c then _ else _] => destruct c
        end; eexists; reflexivity.
    + destruct (direction =? "SELL"); [| eexists; reflexivity].
      destruct (are_emas_stacked_total cfg daily_df "short" (-1) Hcols) as [b1 ->].
      destruct (are_emas_stacked_total cfg daily_df "short" (-2) Hcols) as [b2 Hb2].
      simpl. destruct b1; simpl; [| rewrite Hb2; simpl; destruct b2];
        try (eexists; reflexivity);
        rewrite Hstrong; simpl;
        match goal with
        | |- context [if ?c then _ else _] => destruct c
        end; eexists; reflexivity.
Qed.

(** The daily test of the backtest, spelled out. *)
Lemma daily_check_unstack cfg df_daily trade entry_bar_idx pip_value i candle closed :
  daily_check cfg df_daily trade entry_bar_idx pip_value i candle
  = inr (Some closed) ->
  let daily_subset :=
    calculate_emas
      (filter (fun row => (date_of (time row) <=? date_of (time candle))%Z)
              df_daily)
      (EMA_FAST_PERIODS cfg) in
  (5 <= len daily_subset)%Z
  /\ ((BacktestTrade.direction trade = "BUY"
       /\ are_emas_stacked cfg daily_subset "long" (-1) = inr false
       /\ are_emas_stacked cfg daily_subset "long" (-2) = inr true)
      \/ (BacktestTrade.direction trade = "SELL"
          /\ are_emas_stacked cfg daily_subset "short" (-1) = inr false
          /\ are_emas_stacked cfg daily_subset "short" (-2) = inr true)).
Proof.
  intros H daily_subset. revert H. unfold daily_check.
  destruct (_ && _)%bool; [| discriminate].
  destruct (len _ >=? 5)%Z eqn:E; [| discriminate].
  rewrite Z.geb_leb in E. apply Z.leb_le in E.
  fold daily_subset. intro H.
  split; [subst daily_subset; now rewrite calculate_emas_len |].
  destruct (BacktestTrade.direction trade =? "BUY") eqn:Ebuy.
  - left. apply String.eqb_eq in Ebuy. exc_inv H.
    destruct a; [discriminate |]. simpl in H. exc_inv H.
    destruct a; [| discriminate]. auto.
  - destruct (BacktestTrade.direction trade =? "SELL") eqn:Esell; [| discriminate].
    right. apply String.eqb_eq in Esell. exc_inv H.
    destruct a; [discriminate |]. simpl in H. exc_inv H.
    destruct a; [| discriminate]. auto.
Qed.

(** X28: the live exit rule is at least as eager as the backtest's.
    Whenever the daily test of the backtest closes a trade on a 30M bar,
    [should_exit_on_daily], given the same daily rows (those dated up to
    that bar, with their EMAs) and the trade's direction, answers [True]. *)
Theorem backtest_daily_exit_implies_live_exit
        cfg df_daily trade entry_bar_idx pip_value i candle closed :
  daily_check cfg df_daily trade entry_bar_idx pip_value i candle
  = inr (Some closed) ->
  should_exit_on_daily
    cfg
    (calculate_emas
       (filter (fun row => (date_of (time row) <=? date_of (time candle))%Z)
               df_daily)
       (EMA_FAST_PERIODS cfg))
    (BacktestTrade.direction trade)
  = inr true.
Proof.
  intro H. apply daily_check_unstack in H. cbv zeta in H.
  set (daily_subset := calculate_emas _ (EMA_FAST_PERIODS cfg)) in *.
  destruct H as [Hlen Hcase]. unfold should_exit_on_daily.
  destruct (len daily_subset <? 3)%Z eqn:E; [apply Z.ltb_lt in E; lia |].
  destruct (iloc_in_range daily_subset (-1)) as [last_candle ->]; [lia |].
  destruct (iloc_in_range daily_subset (-2)) as [prev_candle ->]; [lia |].
  simpl.
  destruct Hcase as [(-> & H1 & H2) | (-> & H1 & H2)]; simpl;
    rewrite H1; simpl; rewrite H2; reflexivity.
Qed.

Lemma backtest_daily_exit_implies_live_exit_witness :
  should_exit_on_daily
    default_config
    (calculate_emas
       (filter (fun row => (date_of (time row)
                            <=? date_of (time seventh_day_bar))%Z)
               collapsing_days)
       (EMA_FAST_PERIODS default_config))
    "BUY"
  = inr true.
Proof.
  apply (backtest_daily_exit_implies_live_exit
           default_config collapsing_days long_trade 0 (get_pip_value "EURUSD") 48
           seventh_day_bar
           (closed_at_close long_trade (get_pip_value "EURUSD") seventh_day_bar
                            "Daily EMA unstack")).
  vm_compute. reflexivity.
Defined.

Lemma validate_stop_flag cfg df symbol check_time signal :
  validate_trident_pattern cfg df symbol check_time = inr (Some signal) ->
  TradeSignal.symbol signal = symbol
  /\ TradeSignal.use_hard_sl signal = negb (is_gold symbol) || GOLD_USE_HARD_SL cfg
  /\ (TradeSignal.direction signal = "BUY"
      \/ TradeSignal.direction signal = "SELL").
Proof.
  intro H. apply validate_trident_pattern_origin in H.
  destruct H as (fvg & _ & Hc). apply check_candidate_signal in Hc.
  destruct Hc as (c & _ & _ & [[_ ->] | [_ ->]]); simpl; auto.
Qed.

(** X29: what reaches the broker for a validated signal.  [execute_entry]
    places no order when the open positions have reached
    [MAX_OPEN_TRADES], and otherwise exactly one: for the signal's symbol,
    BUY or SELL, with no take-profit, and with the signal's stop-loss,
    except that for XAUUSD/GOLD with [GOLD_USE_HARD_SL] off the order
    carries no stop at all (stop 0).  The trade log gets a row only when
    the broker accepted the order. *)
Theorem orders_for_validated_signal
        {R : Type} cfg df symbol check_time signal ecfg open_positions
        (place_order : OrderRequest -> option R) :
  validate_trident_pattern cfg df symbol check_time = inr (Some signal) ->
  let outcome := execute_entry ecfg open_positions place_order signal in
  ((MAX_OPEN_TRADES ecfg <= len open_positions)%Z ->
   placed outcome = [] /\ logged_stop_loss outcome = []
   /\ returned outcome = None)
  /\ ((len open_positions < MAX_OPEN_TRADES ecfg)%Z ->
      exists request,
        placed outcome = [request]
        /\ returned outcome = place_order request
        /\ (logged_stop_loss outcome = []
            <-> place_order request = None)
        /\ order_symbol request = symbol
        /\ (order_type request = "BUY" \/ order_type request = "SELL")
        /\ order_tp request = 0
        /\ order_sl request
           = if is_gold symbol && negb (GOLD_USE_HARD_SL cfg)
             then 0 else TradeSignal.stop_loss signal).
Proof.
  intros H outcome. subst outcome.
  apply validate_stop_flag in H. destruct H as (Hsym & Hflag & Hdir).
  unfold execute_entry. split; intro Hn.
  - destruct (len open_positions >=? MAX_OPEN_TRADES ecfg)%Z eqn:E;
      [simpl; auto |].
    rewrite Z.geb_leb in E. apply Z.leb_gt in E. lia.
  - rewrite (geb_false_lt _ _ Hn).
    set (request := mkOrderRequest _ _ _ _ _ _).
    assert (Hsl : order_sl request
                  = if is_gold symbol && negb (GOLD_USE_HARD_SL cfg)
                    then 0 else TradeSignal.stop_loss signal).
    { subst request. simpl. rewrite Hflag.
      destruct (is_gold symbol), (GOLD_USE_HARD_SL cfg); reflexivity. }
    exists request.
    destruct (place_order request) as [receipt |] eqn:Ep; simpl;
      repeat split; auto; try discriminate.
Qed.

Lemma orders_for_validated_signal_witness :
  exists signal request,
    validate_trident_pattern default_config falling_confirmation "XAUUSD" true
    = inr (Some signal)
    /\ placed (execute_entry small_account [] (fun _ => Some tt) signal)
       = [request]
    /\ order_sl request = 0.
Proof.
  eexists. eexists. split; [vm_compute; reflexivity |].
  split; [vm_compute; reflexivity |].
  pose proof (orders_for_validated_signal
                default_config falling_confirmation "XAUUSD" true _
                small_account [] (fun _ => Some tt)
                ltac:(vm_compute; reflexivity)) as H.
  cbv zeta in H. destruct H as [_ H].
  destruct H as (request & Hplaced & _ & _ & _ & _ & _ & Hsl).
  - vm_compute. reflexivity.
  - vm_compute in Hplaced. injection Hplaced as <-. reflexivity.
Defined.

(** X30: the gold close filter of the live loop.  It never raises and
    answers [False] on an empty frame and for a direction other than BUY
    and SELL.  A last close between the two products entry * 0.995 and
    entry * 1.005, as binary64 computes them, closes neither a long nor a
    short; so does a last close that lies between the exact products of the
    entry with the two constants (the floats nearest to 0.995 and 1.005).
    For an entry price that is not negative no frame asks to close both. *)
Theorem gold_filter_band df_30m entry_price :
  (forall direction, exists b,
      check_gold_candle_filter df_30m entry_price direction = inr b)
  /\ (forall direction,
        df_30m = [] \/ (direction <> "BUY" /\ direction <> "SELL") ->
        check_gold_candle_filter df_30m entry_price direction = inr false)
  /\ (forall last_candle direction,
        iloc df_30m (-1) = inr last_candle ->
        fmul entry_price (float64 (995 # 1000)) <= close last_candle ->
        close last_candle <= fmul entry_price (float64 (1005 # 1000)) ->
        check_gold_candle_filter df_30m entry_price direction = inr false)
  /\ (forall last_candle direction,
        iloc df_30m (-1) = inr last_candle ->
        float64 (close last_candle) == close last_candle ->
        entry_price * float64 (995 # 1000) <= close last_candle ->
        close last_candle <= entry_price * float64 (1005 # 1000) ->
        check_gold_candle_filter df_30m entry_price direction = inr false)
  /\ (0 <= entry_price ->
      ~ (check_gold_candle_filter df_30m entry_price "BUY" = inr true
         /\ check_gold_candle_filter df_30m entry_price "SELL" = inr true)).
Proof.
  unfold check_gold_candle_filter.
  destruct (len df_30m <? 1)%Z eqn:E.
  { split; [intro; eexists; reflexivity |]. split; [auto |].
    split; [auto |]. split; [auto |]. intros _ [H _]. discriminate H. }
  apply Z.ltb_ge in E.
  destruct (iloc_in_range df_30m (-1)) as [last_candle Hlast]; [lia |].
  rewrite Hlast. simpl.
  assert (Hband : forall direction,
    fmul entry_price (float64 (995 # 1000)) <= close last_candle ->
    close last_candle <= fmul entry_price (float64 (1005 # 1000)) ->
    (if direction =? "BUY"
     then if flt (close last_candle) (fmul entry_price (float64 (995 # 1000)))
          then ret true else ret false
     else if direction =? "SELL"
          then if fgt (close last_candle)
                      (fmul entry_price (float64 (1005 # 1000)))
               then ret true else ret false
          else ret false) = inr false).
  { intros direction Hlow Hhigh.
    apply flt_false in Hlow. apply fgt_false in Hhigh.
    rewrite Hlow, Hhigh.
    destruct (direction =? "BUY"); [reflexivity |].
    destruct (direction =? "SELL"); reflexivity. }
  split; [| split; [| split; [| split]]].
  - intro direction.
    repeat match goal with
           | |- context [if ?c then _ else _] => destruct c
           end; eexists; reflexivity.
  - intros direction [-> | [Hb Hs]]; [unfold len in E; simpl in E; lia |].
    apply String.eqb_neq in Hb, Hs. now rewrite Hb, Hs.
  - intros c direction Hc Hlow Hhigh. injection Hc as <-. now apply Hband.
  - intros c direction Hc Hfloat Hlow Hhigh. injection Hc as <-.
    apply Hband; unfold fmul.
    + rewrite <- Hfloat. now apply float64_mono.
    + rewrite <- Hfloat. now apply float64_mono.
  - intros Hpos [Hbuy Hsell]. simpl in Hbuy, Hsell.
    destruct (flt (close last_candle) (fmul entry_price (float64 (995 # 1000))))
      eqn:E1; [| discriminate Hbuy].
    destruct (fgt (close last_candle) (fmul entry_price (float64 (1005 # 1000))))
      eqn:E2; [| discriminate Hsell].
    apply flt_true in E1. apply fgt_true in E2.
    assert (Hc : float64 (995 # 1000) <= float64 (1005 # 1000))
      by (apply float64_mono; discriminate).
    assert (Hm : fmul entry_price (float64 (995 # 1000))
                 <= fmul entry_price (float64 (1005 # 1000))).
    { apply float64_mono. nra. }
    lra.
Qed.

(** The band is not exactly half a percent: 2000 * 1.005 is
    2009.9999999999998 in binary64, so a short entered at 2000 is closed by
    a last close of 2010. *)
Lemma gold_filter_at_half_percent :
  check_gold_candle_filter [bar 0 2010 2010 2010 2010] 2000 "SELL" = inr true.
Proof. vm_compute. reflexivity. Qed.
